(** * Dynamic QR service: content model, update engine and scan dispatcher

    A shallow embedding of [models/DynamicQR.js], [utils/qrGenerator.js],
    the upload helper [deleteFile] and the two controllers (QR management
    and public scan endpoints), followed by the properties of the
    specification that concern them.

    Conventions of the embedding.
    - A JavaScript string is a [string]; its characters are the code units
      below 256.  An optional field ([undefined] when absent) is an [option].
    - A [Date] is its number of milliseconds, a [Number] that counts
      something is an [N] (counters stay far below 2^53, where the
      arithmetic of doubles is exact).
    - The MongoDB collection is a finite map from the unique [id] to the
      stored document, the file system is the finite set of existing paths,
      [console.log] of an analytics record appends to a log.
    - A handler is a computation in a state-and-exception monad over that
      world; an exception keeps the effects made before it was thrown, as in
      the source.
    - [document.save()] is what the schema makes of it: the validators of
      the schema on the paths the document was loaded with, the
      [pre('save')] hook, the two time stamps of [timestamps: true], the
      unique index on [id]; whether the store then takes the write is an
      input.
    - One request reads the clock once.

    The login handler of [controllers/authController.js] follows, over the
    map of failed attempts it keeps. *)

From Stdlib Require Import NArith ZArith Ascii DecimalString.
From stdpp Require Import gmap strings list.

Local Open Scope N_scope.

(** ** Strings as the source uses them *)

Module JS.

(** Code units that [String.prototype.trim] and the regular-expression
    class [\s] treat as white space, among the code units below 256. *)
Definition is_ws (c : ascii) : bool :=
  let n := N_of_ascii c in
  ((9 <=? n) && (n <=? 13)) || (n =? 32) || (n =? 160).

Fixpoint trimStart (s : string) : string :=
  match s with
  | EmptyString => EmptyString
  | String c r => if is_ws c then trimStart r else s
  end.

Fixpoint trimEnd (s : string) : string :=
  match s with
  | EmptyString => EmptyString
  | String c r =>
      match trimEnd r with
      | EmptyString => if is_ws c then EmptyString else String c EmptyString
      | r' => String c r'
      end
  end.

Definition trim (s : string) : string := trimEnd (trimStart s).

Definition startsWith (s p : string) : bool := String.prefix p s.

Fixpoint includes (s sub : string) : bool :=
  String.prefix sub s ||
  match s with
  | EmptyString => false
  | String _ r => includes r sub
  end.

Definition lower (c : ascii) : ascii :=
  let n := N_of_ascii c in
  if ((65 <=? n) && (n <=? 90)) || ((192 <=? n) && (n <=? 222) && negb (n =? 215))
  then ascii_of_N (n + 32) else c.

Fixpoint toLowerCase (s : string) : string :=
  match s with
  | EmptyString => EmptyString
  | String c r => String (lower c) (toLowerCase r)
  end.

(** [s.slice(a, b)] for [0 <= a <= b]. *)
Definition slice (a b : nat) (s : string) : string :=
  String.substring a (b - a) s.

(** [n.toString()] of a non-negative integer. *)
Definition numToString (n : N) : string :=
  NilZero.string_of_uint (N.to_uint n).

(** Truthiness of an optional string: [undefined] and the empty string
    are falsy. *)
Definition truthy (o : option string) : bool :=
  match o with
  | Some s => negb (String.eqb s "")
  | None => false
  end.

(** Template interpolation of a possibly undefined string. *)
Definition show (o : option string) : string := default "undefined" o.

(** [Array.prototype.slice(start)]: a negative [start] counts from the
    end, and both ends are clamped to the array. *)
Definition arraySlice {A} (start : Z) (l : list A) : list A :=
  let len := Z.of_nat (length l) in
  let k := if (start <? 0)%Z then Z.max (len + start) 0 else Z.min start len in
  drop (Z.to_nat k) l.

End JS.

(** A value of [req.query]: absent, one string, or what the query parser
    makes of repeated or bracketed keys (an array or an object), which is
    never [===] to a string. *)
Inductive QueryVal :=
| QAbsent
| QStr (s : string)
| QOther.

Definition query_is (q : QueryVal) (s : string) : bool :=
  match q with
  | QStr s' => String.eqb s' s
  | _ => false
  end.

(** ** The regular expressions of the schema and of the controller *)

Definition no_ws_at (c : ascii) : bool :=
  negb (JS.is_ws c) && negb (Ascii.eqb c "@").

(** [/^[^\s@]+$/]. *)
Fixpoint plainRun (s : string) : bool :=
  match s with
  | EmptyString => false
  | String c EmptyString => no_ws_at c
  | String c r => no_ws_at c && plainRun r
  end.

(** [/^[^\s@]+\.[^\s@]+$/]: some dot has a non-empty run on each side. *)
Fixpoint dottedRun (seen : bool) (s : string) : bool :=
  match s with
  | EmptyString => false
  | String c r =>
      (seen && Ascii.eqb c "." && plainRun r)
      || (no_ws_at c && dottedRun true r)
  end.

(** [/^[^\s@]+@[^\s@]+\.[^\s@]+$/]. *)
Fixpoint emailRegex (seen : bool) (s : string) : bool :=
  match s with
  | EmptyString => false
  | String c r =>
      if Ascii.eqb c "@" then seen && dottedRun false r
      else no_ws_at c && emailRegex true r
  end.

Definition phoneChar (c : ascii) : bool :=
  let n := N_of_ascii c in
  ((48 <=? n) && (n <=? 57)) || JS.is_ws c
  || Ascii.eqb c "-" || Ascii.eqb c "(" || Ascii.eqb c ")".

Fixpoint allPhoneChars (s : string) : bool :=
  match s with
  | EmptyString => true
  | String c r => phoneChar c && allPhoneChars r
  end.

(** [/^\+?[\d\s\-\(\)]{7,20}$/]. *)
Definition phoneRegex (s : string) : bool :=
  let rest := match s with
              | String c r => if Ascii.eqb c "+" then r else s
              | EmptyString => s
              end in
  allPhoneChars rest
  && Nat.leb 7 (String.length rest) && Nat.leb (String.length rest) 20.

(** [.] of a regular expression without the [s] flag: any code unit
    but a line terminator. *)
Definition lineTerminator (c : ascii) : bool :=
  let n := N_of_ascii c in (n =? 10) || (n =? 13).

(** What is left of [s] after the prefix [p], when [s] starts with it. *)
Fixpoint afterPrefix (p s : string) : option string :=
  match p, s with
  | EmptyString, _ => Some s
  | String a p', String b s' => if Ascii.eqb a b then afterPrefix p' s' else None
  | String _ _, EmptyString => None
  end.

(** [/^https?:\/\/.+/]. *)
Definition urlRegex (s : string) : bool :=
  let oneOrMore r := match r with
                     | String c _ => negb (lineTerminator c)
                     | EmptyString => false
                     end in
  match afterPrefix "http://" s, afterPrefix "https://" s with
  | Some r, _ => oneOrMore r
  | None, Some r => oneOrMore r
  | None, None => false
  end.

(** ** models/DynamicQR.js *)

(** [currentContentSchema]: one loosely typed record for the five kinds of
    content. *)
Record Content := mkContent {
  ctype : string;
  text : option string;
  url : option string;
  linkTitle : option string;
  fileName : option string;
  originalName : option string;
  filePath : option string;
  fileSize : option N;
  mimeType : option string;
  contactName : option string;
  phone : option string;
  email : option string;
  company : option string;
  description : option string;
  lastUpdated : N
}.

(** [contentHistorySchema] ([changedBy] keeps its default). *)
Record HistoryEntry := mkEntry {
  h_type : string;
  h_content : Content;
  changedAt : N
}.

Record Settings := mkSettings {
  allowTracking : bool;
  customDomain : option string;
  password : option string
}.

(** [dynamicQRSchema], with the two paths its option [timestamps: true]
    adds; they are undefined until the first [save]. *)
Record QR := mkQR {
  id : string;
  title : string;
  qrCodePath : string;
  currentContent : Content;
  createdDate : N;
  scanCount : N;
  lastScanned : option N;
  contentHistory : list HistoryEntry;
  isActive : bool;
  settings : Settings;
  createdAt : option N;
  updatedAt : option N
}.

#[global] Instance Content_eq_dec : EqDecision Content.
Proof. solve_decision. Defined.
#[global] Instance HistoryEntry_eq_dec : EqDecision HistoryEntry.
Proof. solve_decision. Defined.
#[global] Instance Settings_eq_dec : EqDecision Settings.
Proof. solve_decision. Defined.
#[global] Instance QR_eq_dec : EqDecision QR.
Proof. solve_decision. Defined.

Definition emptyContent (ty : string) (descr : option string) (t : N) : Content :=
  {| ctype := ty; text := None; url := None; linkTitle := None;
     fileName := None; originalName := None; filePath := None;
     fileSize := None; mimeType := None; contactName := None;
     phone := None; email := None; company := None;
     description := descr; lastUpdated := t |}.

Definition set_currentContent (c : Content) (q : QR) : QR :=
  {| id := id q; title := title q; qrCodePath := qrCodePath q;
     currentContent := c; createdDate := createdDate q;
     scanCount := scanCount q; lastScanned := lastScanned q;
     contentHistory := contentHistory q; isActive := isActive q;
     settings := settings q;
     createdAt := createdAt q; updatedAt := updatedAt q |}.

Definition set_contentHistory (h : list HistoryEntry) (q : QR) : QR :=
  {| id := id q; title := title q; qrCodePath := qrCodePath q;
     currentContent := currentContent q; createdDate := createdDate q;
     scanCount := scanCount q; lastScanned := lastScanned q;
     contentHistory := h; isActive := isActive q;
     settings := settings q;
     createdAt := createdAt q; updatedAt := updatedAt q |}.

Definition set_scan (n : N) (t : option N) (q : QR) : QR :=
  {| id := id q; title := title q; qrCodePath := qrCodePath q;
     currentContent := currentContent q; createdDate := createdDate q;
     scanCount := n; lastScanned := t;
     contentHistory := contentHistory q; isActive := isActive q;
     settings := settings q;
     createdAt := createdAt q; updatedAt := updatedAt q |}.

Definition set_timestamps (c u : option N) (q : QR) : QR :=
  {| id := id q; title := title q; qrCodePath := qrCodePath q;
     currentContent := currentContent q; createdDate := createdDate q;
     scanCount := scanCount q; lastScanned := lastScanned q;
     contentHistory := contentHistory q; isActive := isActive q;
     settings := settings q; createdAt := c; updatedAt := u |}.

(** ** The world and the request environment *)

(** One analytics record, as [recordScanAnalytics] logs it. *)
Record Analytics := mkAnalytics {
  a_qr : string;
  a_ip : option string;
  a_userAgent : option string;
  a_device : string;
  a_referer : option string;
  a_timestamp : N;
  a_country : string
}.

Record World := mkWorld {
  db : gmap string QR;
  fs : gset string;
  analytics : list Analytics
}.

Definition set_db (d : gmap string QR) (w : World) : World :=
  {| db := d; fs := fs w; analytics := analytics w |}.
Definition set_fs (f : gset string) (w : World) : World :=
  {| db := db w; fs := f; analytics := analytics w |}.
Definition add_analytics (a : Analytics) (w : World) : World :=
  {| db := db w; fs := fs w; analytics := analytics w ++ [a] |}.

(** What the image encoder does when asked to write a file: it succeeds,
    or it fails, having possibly left a partial file behind. *)
Inductive EncodeOutcome :=
| EncodeOk
| EncodeFails (partialFile : bool).

(** What a handler takes from outside the repository's code.
    - [appRoot], [baseUrl]: the directory above [utils/] and
      [process.env.BASE_URL];
    - [validateFirst]: whether the library runs schema validation before
      the schema's own [pre('save')] hook or after it; Mongoose documents
      validation as the first [pre('save')] hook, which is [true];
    - [now]: the clock;
    - [storeAccepts]: whether the store takes the write once the
      validators and the hook of this schema have run;
    - [entropy k]: [Date.now()] and [Math.random().toString(36)] at the
      [k]-th call of [generateUniqueId];
    - [encoder]: the outcome of [QRCode.toFile];
    - [urlParts]: [new URL(s)], as its protocol and host name, or [None]
      when it throws. *)
Record Env := mkEnv {
  appRoot : string;
  baseUrl : string;
  validateFirst : bool;
  now : N;
  storeAccepts : bool;
  entropy : nat -> N * string;
  encoder : EncodeOutcome;
  urlParts : string -> option (string * string)
}.

(** What can be thrown: an [AppError] with its status code, a validation
    error of the schema with the paths that failed, an error of the store,
    any other exception. *)
Inductive Thrown :=
| AppErr (statusCode : nat) (message : string)
| SchemaValidationErr (paths : list string)
| StoreErr
| OtherErr (message : string).

(** The state-and-exception monad of the handlers. *)
Definition M (A : Type) : Type := World -> World * (Thrown + A).

#[global] Instance M_ret : MRet M := fun A a w => (w, inr a).
#[global] Instance M_bind : MBind M := fun A B f m w =>
  match m w with
  | (w', inl e) => (w', inl e)
  | (w', inr a) => f a w'
  end.

Definition throw {A} (e : Thrown) : M A := fun w => (w, inl e).
Definition getWorld : M World := fun w => (w, inr w).
Definition modifyWorld (f : World -> World) : M unit := fun w => (f w, inr tt).
Definition when (b : bool) (m : M unit) : M unit := if b then m else mret tt.

(** [try { body } catch (error) { handler; throw error }]. *)
Definition tryCatchRethrow {A} (body : M A) (handler : M unit) : M A := fun w =>
  match body w with
  | (w', inl e) =>
      match handler w' with
      | (w'', inl e') => (w'', inl e')
      | (w'', inr _) => (w'', inl e)
      end
  | r => r
  end.

(** ** Documents: find, save and the instance methods *)

(** [DynamicQR.findOne({ id })]. *)
Definition findOne (i : string) : M (option QR) := fun w => (w, inr (db w !! i)).

(** [DynamicQR.findOne({ id, isActive: true })]. *)
Definition findOneActive (i : string) : M (option QR) := fun w =>
  (w, inr (match db w !! i with
           | Some q => if isActive q then Some q else None
           | None => None
           end)).

(** A query loads the whole document, or with [.select(fields)] the
    named paths only: a path that was not loaded reads as [undefined], no
    default is applied to it and its validators do not run. *)
Definition Selection : Type := option (list string).

Definition selected (sel : Selection) (path : string) : bool :=
  match sel with
  | None => true
  | Some fields => bool_decide (path ∈ fields)
  end.

(** The [enum] of the two [type] paths. *)
Definition contentTypes : list string := ["text"; "link"; "file"; "contact"; "empty"].

(** [maxlength: n]; a validator other than [required] is not run on an
    undefined value. *)
Definition withinLength (n : nat) (v : option string) : bool :=
  match v with
  | Some s => Nat.leb (String.length s) n
  | None => true
  end.

(** The validators of [currentContentSchema], as the paths that fail.
    [fileSize] has [min: 0], which a size that counts bytes meets. *)
Definition contentErrors (c : Content) : list string :=
  (if bool_decide (ctype c ∈ contentTypes) then [] else ["currentContent.type"])
  ++ (if withinLength 5000 (text c) then [] else ["currentContent.text"])
  ++ (match url c with
      | Some v => if String.eqb (ctype c) "link" && negb (urlRegex v)
                  then ["currentContent.url"] else []
      | None => []
      end)
  ++ (if withinLength 200 (linkTitle c) then [] else ["currentContent.linkTitle"])
  ++ (if withinLength 100 (contactName c) then [] else ["currentContent.contactName"])
  ++ (match phone c with
      | Some v => if String.eqb (ctype c) "contact" && JS.truthy (phone c)
                     && negb (phoneRegex v)
                  then ["currentContent.phone"] else []
      | None => []
      end)
  ++ (match email c with
      | Some v => if String.eqb (ctype c) "contact" && JS.truthy (email c)
                     && negb (emailRegex false v)
                  then ["currentContent.email"] else []
      | None => []
      end)
  ++ (if withinLength 200 (company c) then [] else ["currentContent.company"])
  ++ (if withinLength 1000 (description c) then [] else ["currentContent.description"]).

(** The validators of [contentHistorySchema] on the entries from index
    [k] on: [type] is required and of the [enum]; [content] is required
    and always there. *)
Fixpoint entryErrors (k : nat) (h : list HistoryEntry) : list string :=
  match h with
  | [] => []
  | e :: rest =>
      (if bool_decide (h_type e ∈ contentTypes) then []
       else ["contentHistory." +:+ JS.numToString (N.of_nat k) +:+ ".type"])
      ++ entryErrors (S k) rest
  end.

(** The validator of the [contentHistory] path. *)
Definition contentHistoryValid (h : list HistoryEntry) : bool :=
  Nat.leb (length h) 50.

(** Schema validation of a document, as the paths that fail, in the
    order of the schema: [save] validates the paths the document was
    loaded with (all of them for a new document).  [required] refuses the
    empty string; [scanCount] has [min: 0], which a count meets. *)
Definition schemaErrors (sel : Selection) (q : QR) : list string :=
  (if selected sel "id" && String.eqb (id q) "" then ["id"] else [])
  ++ (if selected sel "title"
         && (String.eqb (title q) "" || Nat.ltb 200 (String.length (title q)))
      then ["title"] else [])
  ++ (if selected sel "qrCodePath" && String.eqb (qrCodePath q) ""
      then ["qrCodePath"] else [])
  ++ (if selected sel "currentContent" then contentErrors (currentContent q) else [])
  ++ (if selected sel "contentHistory"
      then (if contentHistoryValid (contentHistory q) then [] else ["contentHistory"])
           ++ entryErrors 0 (contentHistory q)
      else []).

Definition validate (sel : Selection) (q : QR) : Thrown + QR :=
  match schemaErrors sel q with
  | [] => inr q
  | paths => inl (SchemaValidationErr paths)
  end.

(** [dynamicQRSchema.pre('save')], once [this.contentHistory] is there. *)
Definition preSave (q : QR) : QR :=
  if Nat.ltb 50 (length (contentHistory q))
  then set_contentHistory (JS.arraySlice (-50) (contentHistory q)) q
  else q.

(** The hook on a loaded document: [this.contentHistory.length] throws
    when the path was not loaded. *)
Definition preSaveHook (sel : Selection) (q : QR) : Thrown + QR :=
  if selected sel "contentHistory" then inr (preSave q)
  else inl (OtherErr "Cannot read properties of undefined (reading 'length')").

(** The part of [document.save()] that this schema determines: the
    validators and the hook, in the order the library fixes. *)
Definition stage (env : Env) (sel : Selection) (q : QR) : Thrown + QR :=
  if validateFirst env
  then match validate sel q with
       | inl e => inl e
       | inr _ => preSaveHook sel q
       end
  else match preSaveHook sel q with
       | inl e => inl e
       | inr q' => validate sel q'
       end.

(** What [timestamps: true] does on [save]: a new document gets
    [createdAt] (unless it has one) and an [updatedAt] equal to it; a
    loaded document gets a new [updatedAt] when it was modified.
    [loaded] is the document as the query returned it, [None] for a
    document made with [new]; [q] is the document handed to [save] and
    [staged] what the validators and the hook made of it. *)
Definition timestamps (env : Env) (loaded : option QR) (q staged : QR) : QR :=
  match loaded with
  | None =>
      let c := match createdAt staged with
               | Some t => Some t
               | None => Some (now env)
               end in
      set_timestamps c c staged
  | Some q0 =>
      if decide (q = q0) then staged
      else set_timestamps (createdAt staged) (Some (now env)) staged
  end.

(** The unique index on [id] refuses the insert of a new document whose
    [id] is taken. *)
Definition duplicateKey (loaded : option QR) (doc : QR) (w : World) : bool :=
  match loaded with
  | None => bool_decide (is_Some (db w !! id doc))
  | Some _ => false
  end.

(** [document.save()]: returns the document as saved. *)
Definition save (env : Env) (sel : Selection) (loaded : option QR) (q : QR) : M QR :=
  match stage env sel q with
  | inl e => throw e
  | inr staged =>
      let doc := timestamps env loaded q staged in
      w ← getWorld;
      if negb (storeAccepts env) || duplicateKey loaded doc w
      then throw StoreErr
      else modifyWorld (fun w => set_db (<[id doc := doc]> (db w)) w);; mret doc
  end.

(** [dynamicQRSchema.methods.addToHistory]. *)
Definition addToHistory (env : Env) (oldContent : Content) (q : QR) : QR :=
  set_contentHistory
    (contentHistory q ++
       [ {| h_type := ctype oldContent; h_content := oldContent;
            changedAt := now env |} ]) q.

(** [dynamicQRSchema.methods.incrementScan], on a document loaded with
    the selection [sel]. *)
Definition incrementScan (env : Env) (sel : Selection) (q : QR) : M QR :=
  save env sel (Some q) (set_scan (scanCount q + 1) (Some (now env)) q).

(** The virtual [scanUrl]. *)
Definition scanUrl (env : Env) (q : QR) : string :=
  baseUrl env +:+ "/scan/" +:+ id q.

(** The virtual [qrImageUrl]. *)
Definition qrImageUrl (env : Env) (q : QR) : string :=
  baseUrl env +:+ "/uploads/qrcodes/dynamic_qr_" +:+ id q +:+ ".png".

(** ** utils/qrGenerator.js and the upload helper *)

(** The path both [generateQRCode] and [deleteQRCode] compute. *)
Definition qrPathOf (env : Env) (qrId : string) : string :=
  appRoot env +:+ "/uploads/qrcodes/dynamic_qr_" +:+ qrId +:+ ".png".

(** [generateQRCode(qrId)]: returns [qrPath]. *)
Definition generateQRCode (env : Env) (qrId : string) : M string :=
  let qrPath := qrPathOf env qrId in
  match encoder env with
  | EncodeOk =>
      modifyWorld (fun w => set_fs ({[qrPath]} ∪ fs w) w);; mret qrPath
  | EncodeFails partialFile =>
      when partialFile (modifyWorld (fun w => set_fs ({[qrPath]} ∪ fs w) w));;
      throw (OtherErr "QR code yaratib bo'lmadi")
  end.

(** [fs.unlinkSync] guarded by [fs.existsSync]. *)
Definition unlinkIfExists (p : string) : M bool := fun w =>
  if decide (p ∈ fs w)
  then (set_fs (fs w ∖ {[p]}) w, inr true)
  else (w, inr false).

(** [deleteQRCode(qrId)]. *)
Definition deleteQRCode (env : Env) (qrId : string) : M bool :=
  unlinkIfExists (qrPathOf env qrId).

(** [deleteFile(filePath)] of the upload middleware. *)
Definition deleteFile (p : option string) : M bool :=
  match p with
  | Some path => if JS.truthy p then unlinkIfExists path else mret false
  | None => mret false
  end.

(** ** Responses *)

#[warnings="-register-all"]
Inductive JVal :=
| JStr (s : string)
| JNum (n : N)
| JBool (b : bool)
| JDate (t : N)
| JContent (c : Content)
| JObj (fields : list (string * JVal)).

(** A key whose value is [undefined] does not appear in the JSON text. *)
Definition optField (k : string) (o : option JVal) : list (string * JVal) :=
  match o with
  | Some v => [(k, v)]
  | None => []
  end.

(** The HTML fragments the handlers build, with the values interpolated
    into them. *)
Inductive Page :=
| PgQRNotFound (qrId : string)
| PgPasswordForm (qrTitle : string) (scans : N)
| PgEmpty (qrTitle descr : string) (scans : N)
| PgText (qrTitle : string) (body descr : option string) (scans updated : N)
| PgFileMissing (qrTitle : string) (scans : N)
| PgServerError
| PgContact (qrTitle downloadUrl : string)
    (name tel mail org descr : option string) (scans updated : N)
| PgPreviewEmpty (qrTitle : string) (scans : N)
| PgPreviewText (qrTitle body : string) (scans : N)
| PgPreviewLink (qrTitle : string) (shown href : option string) (scans : N)
| PgPreviewFile (qrTitle : string) (name : option string) (size : option N)
    (mime : option string) (scans : N)
| PgPreviewContact (qrTitle : string) (name tel mail org : option string)
    (scans : N)
| PgPreviewBlank.

Inductive Response :=
| RHtml (status : nat) (pageTitle : string) (page : Page)
| RRedirect (location : option string)
| RStream (path contentType : string) (contentLength : N)
    (disposition : string) (shownName : option string)
| RDownload (contentType disposition body : string)
| RJson (status : nat) (body : list (string * JVal))
| RPlain (status : nat) (body : string)
| RFailed (e : Thrown).

(** [catchAsync]: a rejected handler hands its error to the error
    middleware. *)
Definition catchAsync (m : M Response) (w : World) : World * Response :=
  match m w with
  | (w', inl e) => (w', RFailed e)
  | (w', inr r) => (w', r)
  end.

(** ** The QR controller: helpers *)

(** [generateUniqueId], from [Date.now()] and [Math.random().toString(36)]. *)
Definition generateUniqueId (e : N * string) : string :=
  let timestamp := JS.numToString (fst e) in
  let randomString := JS.slice 2 11 (snd e) in
  timestamp +:+ randomString.

Definition allowedTypes : list string := ["text"; "link"; "file"; "contact"; "empty"].

Definition validateContentType (contentType : string) : M unit :=
  if bool_decide (contentType ∈ allowedTypes) then mret tt
  else throw (AppErr 400 ("Noto'g'ri content type: " +:+ contentType)).

Definition validateUrl (env : Env) (u : string) : M unit :=
  match urlParts env u with
  | Some (protocol, _) =>
      if bool_decide (protocol ∈ ["http:"; "https:"]) then mret tt
      else throw (AppErr 400 "Noto'g'ri URL: Faqat HTTP va HTTPS protokollari ruxsat berilgan")
  | None => throw (AppErr 400 "Noto'g'ri URL")
  end.

Definition validateEmail (e : string) : M unit :=
  if emailRegex false e then mret tt
  else throw (AppErr 400 "Noto'g'ri email format").

Definition validatePhone (p : string) : M unit :=
  if phoneRegex p then mret tt
  else throw (AppErr 400 "Noto'g'ri telefon format").

(** [validateRequiredFields([field], req)] for one field. *)
Definition validateRequiredField (field : string) (v : option string) : M unit :=
  if JS.truthy v then mret tt
  else throw (AppErr 400 ("Majburiy maydonlar: " +:+ field)).

(** ** createQR *)

Record CreateReq := mkCreateReq {
  c_title : option string;
  c_description : option string
}.

(** The three variables of the allocation loop. *)
Record AllocState := mkAlloc {
  qrId : option string;
  isUnique : bool;
  attempts : nat
}.

Definition allocInit : AllocState :=
  {| qrId := None; isUnique := false; attempts := 0 |}.

Definition allocCond (st : AllocState) : bool :=
  negb (isUnique st) && Nat.ltb (attempts st) 5.

(** One turn of the body of the [while]. *)
Definition allocBody (env : Env) (st : AllocState) : M AllocState :=
  let candidate := generateUniqueId (entropy env (attempts st)) in
  existing ← findOne candidate;
  mret {| qrId := Some candidate;
          isUnique := match existing with
                      | None => true
                      | Some _ => isUnique st
                      end;
          attempts := S (attempts st) |}.

(** [while (!isUnique && attempts < 5) { ... }], unrolled [fuel] times. *)
Fixpoint allocLoop (fuel : nat) (env : Env) (st : AllocState) : M AllocState :=
  if allocCond st then
    match fuel with
    | O => mret st
    | S fuel' => st' ← allocBody env st; allocLoop fuel' env st'
    end
  else mret st.

Definition newQR (env : Env) (i t path : string) (descr : option string) : QR :=
  {| id := i; title := JS.trim t; qrCodePath := path;
     currentContent :=
       emptyContent "empty"
         (Some (if JS.truthy descr then default "" descr
                else "Content hali qo'shilmagan"))
         (now env);
     createdDate := now env; scanCount := 0; lastScanned := None;
     contentHistory := []; isActive := true;
     settings := {| allowTracking := true; customDomain := None;
                    password := None |};
     createdAt := None; updatedAt := None |}.

Definition createdJson (env : Env) (q : QR) : list (string * JVal) :=
  [ ("success", JBool true);
    ("message", JStr "QR code muvaffaqiyatli yaratildi");
    ("qr", JObj [ ("id", JStr (id q));
                  ("title", JStr (title q));
                  ("scanUrl", JStr (scanUrl env q));
                  ("qrImageUrl", JStr (qrImageUrl env q));
                  ("currentContent", JContent (currentContent q));
                  ("createdDate", JDate (createdDate q));
                  ("scanCount", JNum (scanCount q)) ]) ].

Definition createQR_body (env : Env) (req : CreateReq) : M Response :=
  validateRequiredField "title" (c_title req);;
  let t := default "" (c_title req) in
  when (Nat.ltb 200 (String.length t))
    (throw (AppErr 400 "QR title 200 belgidan oshmasligi kerak"));;
  st ← allocLoop 5 env allocInit;
  when (negb (isUnique st))
    (throw (AppErr 500 "Unique ID yaratib bo'lmadi. Qayta urining."));;
  let i := default "" (qrId st) in
  tryCatchRethrow
    (path ← generateQRCode env i;
     saved ← save env None None (newQR env i t path (c_description req));
     mret (RJson 201 (createdJson env saved)))
    (deleteQRCode env i;; mret tt).

Definition createQR (env : Env) (req : CreateReq) : World -> World * Response :=
  catchAsync (createQR_body env req).

(** ** updateQRContent *)

(** [req.file], as the upload middleware leaves it. *)
Record UploadedFile := mkUpload {
  f_filename : string;
  f_originalname : string;
  f_path : string;
  f_size : N;
  f_mimetype : string
}.

Record UpdateReq := mkUpdateReq {
  u_id : string;
  u_contentType : option string;
  u_text : option string;
  u_url : option string;
  u_linkTitle : option string;
  u_contactName : option string;
  u_phone : option string;
  u_email : option string;
  u_company : option string;
  u_description : option string;
  u_file : option UploadedFile
}.

Definition with_text (t : string) (c : Content) : Content :=
  {| ctype := ctype c; text := Some t; url := url c; linkTitle := linkTitle c;
     fileName := fileName c; originalName := originalName c;
     filePath := filePath c; fileSize := fileSize c; mimeType := mimeType c;
     contactName := contactName c; phone := phone c; email := email c;
     company := company c; description := description c;
     lastUpdated := lastUpdated c |}.

Definition with_link (u lt : string) (c : Content) : Content :=
  {| ctype := ctype c; text := text c; url := Some u; linkTitle := Some lt;
     fileName := fileName c; originalName := originalName c;
     filePath := filePath c; fileSize := fileSize c; mimeType := mimeType c;
     contactName := contactName c; phone := phone c; email := email c;
     company := company c; description := description c;
     lastUpdated := lastUpdated c |}.

Definition with_file (f : UploadedFile) (c : Content) : Content :=
  {| ctype := ctype c; text := text c; url := url c; linkTitle := linkTitle c;
     fileName := Some (f_filename f); originalName := Some (f_originalname f);
     filePath := Some (f_path f); fileSize := Some (f_size f);
     mimeType := Some (f_mimetype f);
     contactName := contactName c; phone := phone c; email := email c;
     company := company c; description := description c;
     lastUpdated := lastUpdated c |}.

Definition with_contact (n p e o : option string) (c : Content) : Content :=
  {| ctype := ctype c; text := text c; url := url c; linkTitle := linkTitle c;
     fileName := fileName c; originalName := originalName c;
     filePath := filePath c; fileSize := fileSize c; mimeType := mimeType c;
     contactName := n; phone := p; email := e; company := o;
     description := description c; lastUpdated := lastUpdated c |}.

Definition with_description (d : string) (c : Content) : Content :=
  {| ctype := ctype c; text := text c; url := url c; linkTitle := linkTitle c;
     fileName := fileName c; originalName := originalName c;
     filePath := filePath c; fileSize := fileSize c; mimeType := mimeType c;
     contactName := contactName c; phone := phone c; email := email c;
     company := company c; description := Some d;
     lastUpdated := lastUpdated c |}.

(** [if (v) newContent.k = v.trim()]. *)
Definition trimmedIfGiven (v : option string) : option string :=
  if JS.truthy v then JS.trim <$> v else None.

(** The [case 'text'] of the [switch]. *)
Definition textCase (req : UpdateReq) (newContent : Content) : M Content :=
  let t := default "" (u_text req) in
  when (negb (JS.truthy (u_text req)) || Nat.eqb (String.length (JS.trim t)) 0)
    (throw (AppErr 400 "Text content bo'sh bo'lishi mumkin emas!"));;
  when (Nat.ltb 5000 (String.length t))
    (throw (AppErr 400 "Text 5000 belgidan oshmasligi kerak!"));;
  mret (with_text (JS.trim t) newContent).

Definition linkCase (env : Env) (req : UpdateReq) (newContent : Content) : M Content :=
  let u := default "" (u_url req) in
  when (negb (JS.truthy (u_url req)) || Nat.eqb (String.length (JS.trim u)) 0)
    (throw (AppErr 400 "URL bo'sh bo'lishi mumkin emas!"));;
  validateUrl env (JS.trim u);;
  let lt := JS.trim <$> u_linkTitle req in
  mret (with_link (JS.trim u) (if JS.truthy lt then default "" lt else JS.trim u)
          newContent).

Definition fileCase (req : UpdateReq) (newContent : Content) : M Content :=
  match u_file req with
  | None => throw (AppErr 400 "Fayl yuklash majburiy!")
  | Some f => mret (with_file f newContent)
  end.

Definition contactCase (req : UpdateReq) (newContent : Content) : M Content :=
  when (negb (JS.truthy (u_contactName req)) && negb (JS.truthy (u_phone req))
        && negb (JS.truthy (u_email req)))
    (throw (AppErr 400 "Kamida bitta contact ma'lumoti kerak!"));;
  when (JS.truthy (u_phone req))
    (validatePhone (JS.trim (default "" (u_phone req))));;
  when (JS.truthy (u_email req))
    (validateEmail (JS.trim (default "" (u_email req))));;
  mret (with_contact (trimmedIfGiven (u_contactName req))
          (trimmedIfGiven (u_phone req)) (trimmedIfGiven (u_email req))
          (trimmedIfGiven (u_company req)) newContent).

(** The [switch (contentType)] that validates the fields and fills
    [newContent]. *)
Definition prepareContent (env : Env) (req : UpdateReq) (contentType : string)
    (newContent : Content) : M Content :=
  if String.eqb contentType "text" then textCase req newContent
  else if String.eqb contentType "link" then linkCase env req newContent
  else if String.eqb contentType "file" then fileCase req newContent
  else if String.eqb contentType "contact" then contactCase req newContent
  else if String.eqb contentType "empty"
       then mret (with_description "Content o'chirildi" newContent)
  else throw (AppErr 400 "Noto'g'ri content turi!").

Definition updatedJson (q : QR) : list (string * JVal) :=
  [ ("success", JBool true);
    ("message", JStr "Content muvaffaqiyatli yangilandi");
    ("qr", JObj [ ("id", JStr (id q));
                  ("title", JStr (title q));
                  ("currentContent", JContent (currentContent q));
                  ("scanCount", JNum (scanCount q));
                  ("lastUpdated", JDate (lastUpdated (currentContent q))) ]) ].

(** The old file is removed when the active content is a file with a
    path and the request carries an upload. *)
Definition replacesFile (q : QR) (req : UpdateReq) : bool :=
  String.eqb (ctype (currentContent q)) "file"
  && JS.truthy (filePath (currentContent q))
  && bool_decide (is_Some (u_file req)).

Definition updateQRContent_body (env : Env) (req : UpdateReq) : M Response :=
  found ← findOne (u_id req);
  match found with
  | None => throw (AppErr 404 "QR topilmadi")
  | Some qr =>
      validateRequiredField "contentType" (u_contentType req);;
      let contentType := default "" (u_contentType req) in
      validateContentType contentType;;
      let qr1 := addToHistory env (currentContent qr) qr in
      when (replacesFile qr1 req)
        (deleteFile (filePath (currentContent qr1));; mret tt);;
      let newContent :=
        emptyContent contentType (Some (default "" (u_description req))) (now env) in
      filled ← prepareContent env req contentType newContent;
      saved ← save env None (Some qr) (set_currentContent filled qr1);
      mret (RJson 200 (updatedJson saved))
  end.

Definition updateQRContent (env : Env) (req : UpdateReq) : World -> World * Response :=
  catchAsync (updateQRContent_body env req).

(** ** The scan controller *)

Record ScanReq := mkScanReq {
  s_id : string;
  q_password : QueryVal;
  q_format : QueryVal;
  r_ip : option string;
  r_userAgent : option string;
  r_referer : option string;
  r_country : option string
}.

Definition detectDevice (userAgent : string) : string :=
  let ua := JS.toLowerCase userAgent in
  if JS.includes ua "mobile" || JS.includes ua "android" || JS.includes ua "iphone"
  then "mobile"
  else if JS.includes ua "tablet" || JS.includes ua "ipad" then "tablet"
  else "desktop".

(** [qr.settings?.allowTracking] on a loaded document: a query with
    [.select(fields)] loads the named paths only, and a path that was not
    loaded reads as [undefined]. *)
Definition seenTracking (selection : Selection) (q : QR) : option bool :=
  if selected selection "settings" then Some (allowTracking (settings q)) else None.

(** [recordScanAnalytics]; [tracking] is [qr.settings?.allowTracking]. *)
Definition recordScanAnalytics (env : Env) (qrId : string)
    (tracking : option bool) (req : ScanReq) : M unit :=
  if negb (default false tracking) then mret tt
  else modifyWorld (add_analytics
         {| a_qr := qrId; a_ip := r_ip req; a_userAgent := r_userAgent req;
            a_device := detectDevice
              (if JS.truthy (r_userAgent req) then default "" (r_userAgent req) else "");
            a_referer := r_referer req; a_timestamp := now env;
            a_country := if JS.truthy (r_country req)
                         then default "" (r_country req) else "unknown" |}).

(** [checkQRPassword]. *)
Definition checkQRPassword (q : QR) (providedPassword : QueryVal) : bool :=
  if negb (JS.truthy (password (settings q))) then true
  else query_is providedPassword (default "" (password (settings q))).

Definition isViewable (m : string) : bool :=
  JS.startsWith m "image/" || String.eqb m "application/pdf"
  || JS.startsWith m "text/" || JS.startsWith m "video/"
  || JS.startsWith m "audio/".

(** [handleFileServing]: its own [try]/[catch] turns an exception (a
    missing mime type or size) into the server-error page. *)
Definition handleFileServing (q : QR) (content : Content) : M Response :=
  w ← getWorld;
  if negb (JS.truthy (filePath content))
     || negb (bool_decide (default "" (filePath content) ∈ fs w))
  then mret (RHtml 404 "Fayl Topilmadi" (PgFileMissing (title q) (scanCount q)))
  else
    match mimeType content, fileSize content with
    | Some m, Some size =>
        let disposition := if isViewable m then "inline" else "attachment" in
        mret (RStream (default "" (filePath content)) m size disposition
                (originalName content))
    | _, _ => mret (RHtml 500 "Server Xatoligi" PgServerError)
    end.

Definition nl : string := String (ascii_of_nat 10) EmptyString.
Definition dq : string := String (ascii_of_nat 34) EmptyString.

(** [generateVCard]. *)
Definition generateVCard (content : Content) : string :=
  let vcard := "BEGIN:VCARD" +:+ nl +:+ "VERSION:3.0" +:+ nl in
  let vcard := if JS.truthy (contactName content)
               then vcard +:+ "FN:" +:+ default "" (contactName content) +:+ nl
                    +:+ "N:" +:+ default "" (contactName content) +:+ ";;;;" +:+ nl
               else vcard in
  let vcard := if JS.truthy (phone content)
               then vcard +:+ "TEL;TYPE=CELL:" +:+ default "" (phone content) +:+ nl
               else vcard in
  let vcard := if JS.truthy (email content)
               then vcard +:+ "EMAIL:" +:+ default "" (email content) +:+ nl
               else vcard in
  let vcard := if JS.truthy (company content)
               then vcard +:+ "ORG:" +:+ default "" (company content) +:+ nl
               else vcard in
  vcard +:+ "END:VCARD".

(** [handleContactDisplay]. *)
Definition handleContactDisplay (env : Env) (q : QR) (content : Content)
    (req : ScanReq) : M Response :=
  if query_is (q_format req) "vcard" || query_is (q_format req) "vcf"
  then mret (RDownload "text/vcard; charset=utf-8"
               ("attachment; filename=" +:+ dq
                +:+ (if JS.truthy (contactName content)
                     then default "" (contactName content) else "contact")
                +:+ ".vcf" +:+ dq)
               (generateVCard content))
  else mret (RHtml 200 (title q)
               (PgContact (title q) (scanUrl env q +:+ "?format=vcard")
                  (contactName content) (phone content) (email content)
                  (company content) (description content)
                  (scanCount q) (lastUpdated content))).

(** [scanQR], the handler of [GET /scan/:id]. *)
Definition scanQR_body (env : Env) (req : ScanReq) : M Response :=
  found ← findOneActive (s_id req);
  match found with
  | None => mret (RHtml 404 "QR Topilmadi" (PgQRNotFound (s_id req)))
  | Some qr0 =>
      if negb (checkQRPassword qr0 (q_password req))
      then mret (RHtml 200 "Parol Kerak" (PgPasswordForm (title qr0) (scanCount qr0)))
      else
        qr ← incrementScan env None qr0;
        recordScanAnalytics env (id qr) (seenTracking None qr) req;;
        let content := currentContent qr in
        if String.eqb (ctype content) "empty" then
          mret (RHtml 200 (title qr)
                  (PgEmpty (title qr)
                     (if JS.truthy (description content)
                      then default "" (description content)
                      else "Content tez orada qo'shiladi")
                     (scanCount qr)))
        else if String.eqb (ctype content) "text" then
          mret (RHtml 200 (title qr)
                  (PgText (title qr) (text content)
                     (if JS.truthy (description content)
                      then description content else None)
                     (scanCount qr) (lastUpdated content)))
        else if String.eqb (ctype content) "link" then
          mret (RRedirect (url content))
        else if String.eqb (ctype content) "file" then
          handleFileServing qr content
        else if String.eqb (ctype content) "contact" then
          handleContactDisplay env qr content req
        else throw (AppErr 500 "Noto'g'ri content turi")
  end.

Definition scanQR (env : Env) (req : ScanReq) : World -> World * Response :=
  catchAsync (scanQR_body env req).

(** [getQRScanInfo], the handler of [GET /api/scan-info/:id]: the answer
    for a password-protected record. *)
Definition protectedInfo (q : QR) : list (string * JVal) :=
  [ ("id", JStr (id q));
    ("title", JStr (title q));
    ("contentType", JStr (ctype (currentContent q)));
    ("scanCount", JNum (scanCount q));
    ("createdDate", JDate (createdDate q));
    ("isPasswordProtected", JBool true);
    ("description", JStr "Bu QR code parol bilan himoyalangan") ].

(** The fields every public answer has. *)
Definition publicInfo (q : QR) : list (string * JVal) :=
  [ ("id", JStr (id q));
    ("title", JStr (title q));
    ("contentType", JStr (ctype (currentContent q)));
    ("scanCount", JNum (scanCount q)) ]
  ++ optField "lastScanned" (JDate <$> lastScanned q)
  ++ [ ("createdDate", JDate (createdDate q));
       ("isPasswordProtected", JBool false) ].

(** The fields added by the [switch] on the content type. *)
Definition contentInfo (env : Env) (c : Content) : M (list (string * JVal)) :=
  if String.eqb (ctype c) "text" then
    mret [ ("preview",
            JStr (match text c with
                  | Some t => JS.slice 0 100 t
                              +:+ (if Nat.ltb 100 (String.length t) then "..." else "")
                  | None => "undefined"
                  end)) ]
  else if String.eqb (ctype c) "link" then
    match urlParts env (default "undefined" (url c)) with
    | Some (_, hostname) =>
        mret (optField "linkTitle" (JStr <$> linkTitle c)
              ++ [ ("domain", JStr hostname) ])
    | None => throw (OtherErr "Invalid URL")
    end
  else if String.eqb (ctype c) "file" then
    mret (optField "fileName" (JStr <$> originalName c)
          ++ optField "fileSize" (JNum <$> fileSize c)
          ++ optField "fileType" (JStr <$> mimeType c))
  else if String.eqb (ctype c) "contact" then
    mret (optField "contactName" (JStr <$> contactName c)
          ++ [ ("hasPhone", JBool (JS.truthy (phone c)));
               ("hasEmail", JBool (JS.truthy (email c))) ])
  else mret [].

Definition getQRScanInfo_body (env : Env) (i : string) : M Response :=
  found ← findOneActive i;
  match found with
  | None => throw (AppErr 404 "QR topilmadi")
  | Some qr =>
      if JS.truthy (password (settings qr))
      then mret (RJson 200 [ ("success", JBool true); ("qr", JObj (protectedInfo qr)) ])
      else
        extra ← contentInfo env (currentContent qr);
        let descr := if JS.truthy (description (currentContent qr))
                     then optField "description" (JStr <$> description (currentContent qr))
                     else [] in
        mret (RJson 200 [ ("success", JBool true);
                          ("qr", JObj (publicInfo qr ++ extra ++ descr)) ])
  end.

Definition getQRScanInfo (env : Env) (i : string) : World -> World * Response :=
  catchAsync (getQRScanInfo_body env i).

(** [previewQR], the handler of [GET /preview/:id]. *)
Definition previewPage (q : QR) : M Page :=
  let content := currentContent q in
  if String.eqb (ctype content) "empty" then
    mret (PgPreviewEmpty (title q) (scanCount q))
  else if String.eqb (ctype content) "text" then
    match text content with
    | None => throw (OtherErr "Cannot read properties of undefined")
    | Some t =>
        let textPreview := if Nat.ltb 200 (String.length t)
                           then JS.slice 0 200 t +:+ "..." else t in
        mret (PgPreviewText (title q) textPreview (scanCount q))
    end
  else if String.eqb (ctype content) "link" then
    mret (PgPreviewLink (title q)
            (if JS.truthy (linkTitle content) then linkTitle content else url content)
            (url content) (scanCount q))
  else if String.eqb (ctype content) "file" then
    mret (PgPreviewFile (title q) (originalName content) (fileSize content)
            (mimeType content) (scanCount q))
  else if String.eqb (ctype content) "contact" then
    mret (PgPreviewContact (title q)
            (if JS.truthy (contactName content) then contactName content else None)
            (if JS.truthy (phone content) then phone content else None)
            (if JS.truthy (email content) then email content else None)
            (if JS.truthy (company content) then company content else None)
            (scanCount q))
  else mret PgPreviewBlank.

Definition previewQR_body (i : string) : M Response :=
  found ← findOneActive i;
  match found with
  | None => throw (AppErr 404 "QR topilmadi")
  | Some qr =>
      page ← previewPage qr;
      mret (RHtml 200 (title qr +:+ " - Preview") page)
  end.

Definition previewQR (i : string) : World -> World * Response :=
  catchAsync (previewQR_body i).

(** The paths of [.select('id currentContent scanCount')]. *)
Definition quickSelection : Selection := Some ["id"; "currentContent"; "scanCount"].

(** [quickRedirect], the handler of [GET /r/:id]: the document it counts
    is the one its query loaded, with those three paths. *)
Definition quickRedirect_body (env : Env) (req : ScanReq) : M Response :=
  found ← findOneActive (s_id req);
  match found with
  | None => mret (RPlain 404 "QR topilmadi")
  | Some qr0 =>
      if String.eqb (ctype (currentContent qr0)) "link" then
        qr ← incrementScan env quickSelection qr0;
        recordScanAnalytics env (id qr) (seenTracking quickSelection qr) req;;
        mret (RRedirect (url (currentContent qr)))
      else mret (RRedirect (Some ("/scan/" +:+ s_id req)))
  end.

Definition quickRedirect (env : Env) (req : ScanReq) : World -> World * Response :=
  catchAsync (quickRedirect_body env req).

(** * Further handlers *)

(** ** The QR controller: delete, restore, settings, bulk delete *)

Definition set_isActive (b : bool) (q : QR) : QR :=
  {| id := id q; title := title q; qrCodePath := qrCodePath q;
     currentContent := currentContent q; createdDate := createdDate q;
     scanCount := scanCount q; lastScanned := lastScanned q;
     contentHistory := contentHistory q; isActive := b;
     settings := settings q;
     createdAt := createdAt q; updatedAt := updatedAt q |}.

Definition set_settings (s : Settings) (q : QR) : QR :=
  {| id := id q; title := title q; qrCodePath := qrCodePath q;
     currentContent := currentContent q; createdDate := createdDate q;
     scanCount := scanCount q; lastScanned := lastScanned q;
     contentHistory := contentHistory q; isActive := isActive q;
     settings := s;
     createdAt := createdAt q; updatedAt := updatedAt q |}.

(** [DynamicQR.findOne({ id, isActive: false })]. *)
Definition findOneInactive (i : string) : M (option QR) := fun w =>
  (w, inr (match db w !! i with
           | Some q => if isActive q then None else Some q
           | None => None
           end)).

(** [DynamicQR.deleteOne({ id })]: the store takes it or throws. *)
Definition deleteOne (env : Env) (i : string) : M unit :=
  if storeAccepts env
  then modifyWorld (fun w => set_db (delete i (db w)) w)
  else throw StoreErr.

(** The three statements of a hard delete, as [deleteQR] and
    [bulkDeleteQRs] both have them. *)
Definition hardDelete (env : Env) (qr : QR) (i : string) : M unit :=
  when (String.eqb (ctype (currentContent qr)) "file"
        && JS.truthy (filePath (currentContent qr)))
    (deleteFile (filePath (currentContent qr));; mret tt);;
  deleteQRCode env (id qr);;
  deleteOne env i.

Record DeleteReq := mkDeleteReq {
  d_id : string;
  d_force : QueryVal
}.

(** [deleteQR], the handler of [DELETE /api/qr/:id]. *)
Definition deleteQR_body (env : Env) (req : DeleteReq) : M Response :=
  let forceDelete := query_is (d_force req) "true" in
  found ← findOne (d_id req);
  match found with
  | None => throw (AppErr 404 "QR topilmadi")
  | Some qr =>
      if forceDelete then
        hardDelete env qr (d_id req);;
        mret (RJson 200 [ ("success", JBool true);
                          ("message", JStr "QR to'liq o'chirildi");
                          ("deleted", JBool true) ])
      else
        save env None (Some qr) (set_isActive false qr);;
        mret (RJson 200
                [ ("success", JBool true);
                  ("message", JStr "QR deaktivatsiya qilindi");
                  ("deleted", JBool false);
                  ("note", JStr "QR code ishlashni to'xtatdi, lekin ma'lumotlar saqlanadi") ])
  end.

Definition deleteQR (env : Env) (req : DeleteReq) : World -> World * Response :=
  catchAsync (deleteQR_body env req).

(** [restoreQR], the handler of [POST /api/qr/:id/restore]. *)
Definition restoreQR_body (env : Env) (i : string) : M Response :=
  found ← findOneInactive i;
  match found with
  | None => throw (AppErr 404 "O'chirilgan QR topilmadi")
  | Some qr =>
      saved ← save env None (Some qr) (set_isActive true qr);
      mret (RJson 200
              [ ("success", JBool true);
                ("message", JStr "QR muvaffaqiyatli qayta faollashtirildi");
                ("qr", JObj [ ("id", JStr (id saved));
                              ("title", JStr (title saved));
                              ("scanUrl", JStr (scanUrl env saved));
                              ("isActive", JBool (isActive saved)) ]) ])
  end.

Definition restoreQR (env : Env) (i : string) : World -> World * Response :=
  catchAsync (restoreQR_body env i).

(** A value of [req.body]: absent, a string, or anything else (a number,
    a boolean, [null], an object) with its truthiness. *)
Inductive BodyVal :=
| BUndefined
| BStr (s : string)
| BOther (truthy : bool).

(** [v && typeof v === 'string']. *)
Definition truthyString (v : BodyVal) : option string :=
  match v with
  | BStr s => if String.eqb s "" then None else Some s
  | _ => None
  end.

Record SettingsReq := mkSettingsReq {
  t_id : string;
  t_allowTracking : option bool;
  t_customDomain : BodyVal;
  t_password : BodyVal
}.

(** The block of [updateQRSettings] on [customDomain]; [null] and
    [undefined] are both [None]. *)
Definition newDomain (env : Env) (v : BodyVal) (old : option string)
  : M (option string) :=
  match v with
  | BUndefined => mret old
  | _ => match truthyString v with
         | Some d => validateUrl env ("https://" +:+ d);; mret (Some (JS.trim d))
         | None => mret None
         end
  end.

(** The block of [updateQRSettings] on [password]. *)
Definition newPassword (v : BodyVal) (old : option string) : M (option string) :=
  match v with
  | BUndefined => mret old
  | _ => match truthyString v with
         | Some p =>
             when (Nat.ltb (String.length p) 4)
               (throw (AppErr 400 "Password kamida 4 ta belgidan iborat bo'lishi kerak"));;
             mret (Some p)
         | None => mret None
         end
  end.

(** The settings [updateQRSettings] is about to save. *)
Definition newSettings (env : Env) (req : SettingsReq) (s : Settings) : M Settings :=
  let tracking := default (allowTracking s) (t_allowTracking req) in
  domain ← newDomain env (t_customDomain req) (customDomain s);
  pw ← newPassword (t_password req) (password s);
  mret {| allowTracking := tracking; customDomain := domain; password := pw |}.

Definition settingsJson (s : Settings) : JVal :=
  JObj ([ ("allowTracking", JBool (allowTracking s)) ]
        ++ optField "customDomain" (JStr <$> customDomain s)
        ++ optField "password" (JStr <$> password s)).

(** [updateQRSettings], the handler of [PUT /api/qr/:id/settings]. *)
Definition updateQRSettings_body (env : Env) (req : SettingsReq) : M Response :=
  found ← findOneActive (t_id req);
  match found with
  | None => throw (AppErr 404 "QR topilmadi")
  | Some qr =>
      s ← newSettings env req (settings qr);
      saved ← save env None (Some qr) (set_settings s qr);
      mret (RJson 200 [ ("success", JBool true);
                        ("message", JStr "QR settings yangilandi");
                        ("settings", settingsJson (settings saved)) ])
  end.

Definition updateQRSettings (env : Env) (req : SettingsReq) : World -> World * Response :=
  catchAsync (updateQRSettings_body env req).

(** Why an id of a bulk delete failed: no such record, or an exception. *)
Inductive BulkFailure :=
| BulkNotFound
| BulkThrew (e : Thrown).

(** [results], with [{ id, title }] and [{ id, error }] as pairs. *)
Record BulkResults := mkBulk {
  b_success : list (string * string);
  b_failed : list (string * BulkFailure)
}.

Record BulkReq := mkBulkReq {
  k_qrIds : option (list string);
  k_forceDelete : bool
}.

(** One turn of the [for] loop, with its [try]/[catch]. *)
Definition bulkStep (env : Env) (force : bool) (res : BulkResults) (qrId : string)
  : M BulkResults := fun w =>
  match db w !! qrId with
  | None =>
      (w, inr {| b_success := b_success res;
                 b_failed := b_failed res ++ [(qrId, BulkNotFound)] |})
  | Some qr =>
      match (if force then hardDelete env qr qrId
             else save env None (Some qr) (set_isActive false qr);; mret tt) w with
      | (w', inr _) =>
          (w', inr {| b_success := b_success res ++ [(qrId, title qr)];
                      b_failed := b_failed res |})
      | (w', inl e) =>
          (w', inr {| b_success := b_success res;
                      b_failed := b_failed res ++ [(qrId, BulkThrew e)] |})
      end
  end.

Fixpoint bulkLoop (env : Env) (force : bool) (qrIds : list string)
    (res : BulkResults) : M BulkResults :=
  match qrIds with
  | [] => mret res
  | qrId :: rest => res' ← bulkStep env force res qrId; bulkLoop env force rest res'
  end.

(** [bulkDeleteQRs], the handler of [POST /api/qr/bulk-delete]: its
    answer is the message and the results. *)
Definition bulkDeleteQRs (env : Env) (req : BulkReq)
  : World -> World * (Thrown + (string * BulkResults)) :=
  match k_qrIds req with
  | None => throw (AppErr 400 "QR ID lari majburiy (array)")
  | Some [] => throw (AppErr 400 "QR ID lari majburiy (array)")
  | Some qrIds =>
      when (Nat.ltb 50 (length qrIds))
        (throw (AppErr 400 "Bir vaqtda maksimal 50 ta QR o'chirish mumkin"));;
      res ← bulkLoop env (k_forceDelete req) qrIds {| b_success := []; b_failed := [] |};
      mret (JS.numToString (N.of_nat (length (b_success res))) +:+ " ta QR o'chirildi",
            res)
  end.

(** ** The scan controller: the image *)

(** [serveQRImage], the handler of [GET /qr-image/:id]: the path it
    streams as [image/png]. *)
Definition serveQRImage (i : string) : World -> World * (Thrown + string) :=
  found ← findOne i;
  match found with
  | None => throw (AppErr 404 "QR topilmadi")
  | Some qr =>
      w ← getWorld;
      if bool_decide (qrCodePath qr ∈ fs w) then mret (qrCodePath qr)
      else throw (AppErr 404 "QR rasm fayli topilmadi")
  end.

(** ** The upload middleware *)

(** [getDestinationFolder]. *)
Definition getDestinationFolder (m : string) : string :=
  if JS.startsWith m "image/" then "images"
  else if JS.startsWith m "video/" then "videos"
  else if JS.startsWith m "audio/" then "audios"
  else if String.eqb m "application/pdf" then "pdfs"
  else if JS.includes m "document" || JS.includes m "sheet"
          || JS.includes m "presentation" || JS.includes m "text/"
       then "documents"
  else "others".

(** ** controllers/authController.js *)

Module Auth.

Definition MAX_LOGIN_ATTEMPTS : N := 5.
Definition LOCKOUT_TIME : Z := 15 * 60 * 1000.

(** A value of the [loginAttempts] map. *)
Record Attempt := mkAttempt {
  count : N;
  lastAttempt : N
}.

(** What [login] takes from outside: the clock and the two variables of
    the environment. *)
Record AuthEnv := mkAuthEnv {
  clock : N;
  ADMIN_USERNAME : option string;
  ADMIN_PASSWORD : option string
}.

(** The state is the module-level map; the monad is the one of the
    handlers, over that state. *)
Definition AM (A : Type) : Type :=
  gmap string Attempt -> gmap string Attempt * (Thrown + A).

#[global] Instance AM_ret : MRet AM := fun A a m => (m, inr a).
#[global] Instance AM_bind : MBind AM := fun A B f c m =>
  match c m with
  | (m', inl e) => (m', inl e)
  | (m', inr a) => f a m'
  end.

Definition fail {A} (e : Thrown) : AM A := fun m => (m, inl e).

(** Minutes left, [Math.ceil(ms / 1000 / 60)] for a positive [ms]. *)
Definition ceilMinutes (ms : Z) : Z := (ms + 59999) / 60000.

(** [checkRateLimit]. *)
Definition checkRateLimit (env : AuthEnv) (identifier : string) : AM Attempt := fun m =>
  let attempts := default {| count := 0; lastAttempt := clock env |} (m !! identifier) in
  if (MAX_LOGIN_ATTEMPTS <=? count attempts)%N then
    let timeSinceLastAttempt := (Z.of_N (clock env) - Z.of_N (lastAttempt attempts))%Z in
    if (timeSinceLastAttempt <? LOCKOUT_TIME)%Z then
      (m, inl (AppErr 429
                 ("Juda ko'p noto'g'ri urinish. "
                  +:+ JS.numToString
                        (Z.to_N (ceilMinutes (LOCKOUT_TIME - timeSinceLastAttempt)))
                  +:+ " daqiqadan keyin qayta urining.")))
    else (delete identifier m, inr attempts)
  else (m, inr attempts).

(** [recordLoginAttempt]. *)
Definition recordLoginAttempt (env : AuthEnv) (identifier : string) (success : bool)
  : AM unit := fun m =>
  if success then (delete identifier m, inr tt)
  else
    let attempts := default {| count := 0; lastAttempt := clock env |} (m !! identifier) in
    (<[identifier := {| count := count attempts + 1; lastAttempt := clock env |}]> m,
     inr tt).

(** [validateEnvCredentials]. *)
Definition validateEnvCredentials (env : AuthEnv) : AM (string * string) :=
  if JS.truthy (ADMIN_USERNAME env) && JS.truthy (ADMIN_PASSWORD env)
  then mret (default "" (ADMIN_USERNAME env), default "" (ADMIN_PASSWORD env))
  else fail (AppErr 500 "Server konfiguratsiyasida xatolik: Admin credentials o'rnatilmagan").

Definition bodyTruthy (v : BodyVal) : bool :=
  match v with
  | BUndefined => false
  | BStr s => negb (String.eqb s "")
  | BOther t => t
  end.

(** [validateLoginInput]: the sanitized pair. *)
Definition validateLoginInput (username password : BodyVal) : AM (string * string) :=
  if negb (bodyTruthy username) || negb (bodyTruthy password)
  then fail (AppErr 400 "Username va password majburiy!")
  else
    match username, password with
    | BStr u, BStr p =>
        if Nat.ltb 100 (String.length u) || Nat.ltb 200 (String.length p)
        then fail (AppErr 400 "Username yoki password juda uzun!")
        else mret (JS.toLowerCase (JS.trim u), JS.trim p)
    | _, _ => fail (AppErr 400 "Username va password string bo'lishi kerak!")
    end.

Record LoginReq := mkLoginReq {
  l_username : BodyVal;
  l_password : BodyVal;
  l_ip : option string
}.

(** The session [login] opens: the user name and the login time. *)
Record Session := mkSession {
  s_username : string;
  s_loginTime : N
}.

(** [login], the handler of [POST /api/auth/login]. *)
Definition login_body (env : AuthEnv) (req : LoginReq) : AM Session :=
  '(sanitizedUsername, sanitizedPassword) ←
     validateLoginInput (l_username req) (l_password req);
  let clientIdentifier := if JS.truthy (l_ip req) then default "" (l_ip req)
                          else "unknown" in
  checkRateLimit env clientIdentifier;;
  '(adminUsername, adminPassword) ← validateEnvCredentials env;
  let isValidUsername := String.eqb sanitizedUsername (JS.toLowerCase adminUsername) in
  let isValidPassword := String.eqb sanitizedPassword adminPassword in
  let isAuthenticated := isValidUsername && isValidPassword in
  recordLoginAttempt env clientIdentifier isAuthenticated;;
  if negb isAuthenticated
  then fail (AppErr 401 "Noto'g'ri username yoki password")
  else mret {| s_username := sanitizedUsername; s_loginTime := clock env |}.

Definition login (env : AuthEnv) (req : LoginReq)
  : gmap string Attempt -> gmap string Attempt * (Thrown + Session) :=
  login_body env req.

(** [clearLoginAttempts]: empties the map and reports its size. *)
Definition clearLoginAttempts (m : gmap string Attempt) : gmap string Attempt * nat :=
  (∅, size m).

(** The test of [getLoginStats] for a client that is locked out now. *)
Definition isLocked (env : AuthEnv) (a : Attempt) : bool :=
  (MAX_LOGIN_ATTEMPTS <=? count a)%N
  && (Z.of_N (clock env) - Z.of_N (lastAttempt a) <? LOCKOUT_TIME)%Z.

End Auth.

(** ** utils/qrGenerator.js: the existence test *)

(** [qrExists(qrId)]. *)
Definition qrExists (env : Env) (qrId : string) (w : World) : bool :=
  bool_decide (qrPathOf env qrId ∈ fs w).

(** * Vocabulary of the properties *)

(** A document is stored under its own [id]: the representation
    invariant of the collection. *)
Definition stored (w : World) (i : string) (q : QR) : Prop :=
  db w !! i = Some q ∧ id q = i.

Definition storeWf (w : World) : Prop :=
  ∀ i q, db w !! i = Some q → id q = i.

(** Every stored document keeps at most fifty history entries. *)
Definition historyBounded (w : World) : Prop :=
  ∀ i q, db w !! i = Some q → (length (contentHistory q) ≤ 50)%nat.

(** The candidates of the five possible turns of the allocation loop. *)
Definition candidate (env : Env) (k : nat) : string :=
  generateUniqueId (entropy env k).

Definition candidatesFrom (env : Env) (a n : nat) : list string :=
  candidate env <$> seq a n.

(** The allocation as the specification words it: the first candidate
    that no stored document carries. *)
Fixpoint firstUnused (d : gmap string QR) (cs : list string) : option string :=
  match cs with
  | [] => None
  | c :: rest =>
      match d !! c with
      | None => Some c
      | Some _ => firstUnused d rest
      end
  end.

(** The environment with another source of clock readings and random
    strings for [generateUniqueId]. *)
Definition with_entropy (e : nat → N * string) (env : Env) : Env :=
  {| appRoot := appRoot env; baseUrl := baseUrl env;
     validateFirst := validateFirst env; now := now env;
     storeAccepts := storeAccepts env; entropy := e;
     encoder := encoder env; urlParts := urlParts env |}.

(** What the schema asks of a new record beyond the checks of
    [createQR]: a title that is not blank and a description of at most
    1000 characters. *)
Definition creatable (req : CreateReq) : bool :=
  negb (String.eqb (JS.trim (default "" (c_title req))) "")
  && withinLength 1000 (c_description req).

(** The record [createQR] stores under the id [c]. *)
Definition created (env : Env) (c : string) (req : CreateReq) : QR :=
  set_timestamps (Some (now env)) (Some (now env))
    (newQR env c (default "" (c_title req)) (qrPathOf env c) (c_description req)).

(** [pure m]: [m] may answer or throw, but never changes the world. *)
Definition pure {A} (m : M A) : Prop := ∀ w, fst (m w) = w.

(** [refuses m]: when [m] throws, it throws an [AppError]. *)
Definition refuses {A} (m : M A) : Prop :=
  ∀ w e, snd (m w) = inl e → ∃ code msg, e = AppErr code msg.

(** The world once the old file is gone. *)
Definition afterCleanup (qr : QR) (req : UpdateReq) (w : World) : World :=
  if replacesFile qr req
  then set_fs (fs w ∖ {[default "" (filePath (currentContent qr))]}) w
  else w.

(** The record satisfies its schema, as every document that went
    through [save] does. *)
Definition conforms (q : QR) : Prop := schemaErrors None q = [].

(** Every stored document satisfies its schema. *)
Definition schemaKept (w : World) : Prop :=
  ∀ i q, db w !! i = Some q → conforms q.

(** The invariant of the collection. *)
Definition inv (w : World) : Prop := historyBounded w ∧ storeWf w ∧ schemaKept w.

(** The validators of the three root paths [id], [title] and
    [qrCodePath] pass. *)
Definition rootValid (q : QR) : bool :=
  negb (String.eqb (id q) "")
  && negb (String.eqb (title q) "" || Nat.ltb 200 (String.length (title q)))
  && negb (String.eqb (qrCodePath q) "").

(** A loaded record as [save] stores it after a modification. *)
Definition touched (env : Env) (q : QR) : QR :=
  set_timestamps (createdAt q) (Some (now env)) q.

(** The record after a counted scan. *)
Definition counted (env : Env) (q : QR) : QR :=
  touched env (set_scan (scanCount q + 1) (Some (now env)) q).

(** [keeps m]: [m] preserves the invariant, whether it answers or throws. *)
Definition keeps {A} (m : M A) : Prop := ∀ w, inv w → inv (fst (m w)).

(** The requests the service answers, each with what it takes from
    outside, and the worlds they lead to. *)
Inductive Op :=
| OpCreate (env : Env) (req : CreateReq)
| OpUpdate (env : Env) (req : UpdateReq)
| OpScan (env : Env) (req : ScanReq)
| OpQuickRedirect (env : Env) (req : ScanReq)
| OpPreview (i : string)
| OpScanInfo (env : Env) (i : string).

Definition handle (op : Op) : World → World * Response :=
  match op with
  | OpCreate env req => createQR env req
  | OpUpdate env req => updateQRContent env req
  | OpScan env req => scanQR env req
  | OpQuickRedirect env req => quickRedirect env req
  | OpPreview i => previewQR i
  | OpScanInfo env i => getQRScanInfo env i
  end.

Definition emptyWorld (files : gset string) : World :=
  {| db := ∅; fs := files; analytics := [] |}.

(** The entry [addToHistory] pushes for the content it archives. *)
Definition archived (env : Env) (c : Content) : HistoryEntry :=
  {| h_type := ctype c; h_content := c; changedAt := now env |}.

(** The rule the [case 'text'] applies: something must be left after
    trimming, and the text as submitted must not exceed 5000. *)
Definition textAccepted (t : string) : bool :=
  Nat.leb 1 (String.length (JS.trim t)) && Nat.leb (String.length t) 5000.

(** The source's test for a blob that can be served. *)
Definition blobPresent (w : World) (c : Content) : bool :=
  JS.truthy (filePath c) && bool_decide (default "" (filePath c) ∈ fs w).

(** The mime types shown in place: images, PDF, text, video, audio. *)
Definition viewableFamily (m : string) : Prop :=
  (∃ r, m = "image/" +:+ r) ∨ m = "application/pdf" ∨ (∃ r, m = "text/" +:+ r)
  ∨ (∃ r, m = "video/" +:+ r) ∨ (∃ r, m = "audio/" +:+ r).

(** * Sample data *)

Fixpoint repeatChar (c : ascii) (n : nat) : string :=
  match n with
  | O => EmptyString
  | S k => String c (repeatChar c k)
  end.

Definition sampleEnv : Env :=
  {| appRoot := "/srv/app"; baseUrl := "https://qr.example";
     validateFirst := true; now := 1700000100000; storeAccepts := true;
     entropy := λ k, (1700000000000 + N.of_nat k, "0.4fzyo82mvyr");
     encoder := EncodeOk;
     urlParts := λ _, Some ("https:", "example.org") |}.

(** The same, with a store that refuses the write. *)
Definition refusingEnv : Env :=
  {| appRoot := "/srv/app"; baseUrl := "https://qr.example";
     validateFirst := true; now := 1700000100000; storeAccepts := false;
     entropy := λ k, (1700000000000 + N.of_nat k, "0.4fzyo82mvyr");
     encoder := EncodeOk;
     urlParts := λ _, Some ("https:", "example.org") |}.

(** The same, with the hook running before the validator. *)
Definition hookFirstEnv : Env :=
  {| appRoot := "/srv/app"; baseUrl := "https://qr.example";
     validateFirst := false; now := 1700000100000; storeAccepts := true;
     entropy := λ k, (1700000000000 + N.of_nat k, "0.4fzyo82mvyr");
     encoder := EncodeOk;
     urlParts := λ _, Some ("https:", "example.org") |}.

Definition sampleRecord (i : string) (c : Content) (pw : option string)
    (h : list HistoryEntry) : QR :=
  {| id := i; title := "Menu"; qrCodePath := "/srv/app/uploads/qrcodes/dynamic_qr_" +:+ i +:+ ".png";
     currentContent := c; createdDate := 1700000000000; scanCount := 7;
     lastScanned := Some 1700000050000; contentHistory := h; isActive := true;
     settings := {| allowTracking := true; customDomain := None; password := pw |};
     createdAt := Some 1700000000000; updatedAt := Some 1700000050000 |}.

Definition pdfContent (path : string) : Content :=
  {| ctype := "file"; text := None; url := None; linkTitle := None;
     fileName := Some "menu.pdf"; originalName := Some "menu.pdf";
     filePath := Some path; fileSize := Some 2048;
     mimeType := Some "application/pdf"; contactName := None; phone := None;
     email := None; company := None; description := Some "";
     lastUpdated := 1700000000500 |}.

Definition linkContent : Content :=
  {| ctype := "link"; text := None; url := Some "https://example.org/menu";
     linkTitle := Some "Menu"; fileName := None; originalName := None;
     filePath := None; fileSize := None; mimeType := None;
     contactName := None; phone := None; email := None; company := None;
     description := Some ""; lastUpdated := 1700000000500 |}.

Definition textContent : Content :=
  with_text "secret text" (emptyContent "text" (Some "") 1700000000500).

Definition worldOf (q : QR) (files : list string) : World :=
  {| db := {[ id q := q ]}; fs := list_to_set files; analytics := [] |}.

(** A record whose active file is [B1], beside an uploaded [B2]. *)
Definition recordB1 : QR := sampleRecord "qr1" (pdfContent "/blobs/B1") None [].
Definition worldB1 : World := worldOf recordB1 ["/blobs/B1"; "/blobs/B2"].

Definition uploadB2 : UploadedFile :=
  {| f_filename := "B2"; f_originalname := "wine.pdf"; f_path := "/blobs/B2";
     f_size := 4096; f_mimetype := "application/pdf" |}.

Definition updateOf (ty : string) (t : option string) (f : option UploadedFile)
  : UpdateReq :=
  {| u_id := "qr1"; u_contentType := Some ty; u_text := t; u_url := None;
     u_linkTitle := None; u_contactName := None; u_phone := None;
     u_email := None; u_company := None; u_description := None; u_file := f |}.

Definition scanOf (pw : QueryVal) : ScanReq :=
  {| s_id := "qr1"; q_password := pw; q_format := QAbsent; r_ip := Some "10.0.0.1";
     r_userAgent := Some "Mozilla/5.0 (iPhone)"; r_referer := None;
     r_country := None |}.

(** Records locked with the password [abcd]. *)
Definition lockedLink : QR := sampleRecord "qr1" linkContent (Some "abcd") [].
Definition lockedText : QR := sampleRecord "qr1" textContent (Some "abcd") [].

(** A record whose history is full. *)
Definition fullHistory : list HistoryEntry :=
  (λ k, archived sampleEnv (emptyContent "empty" (Some "") (N.of_nat k)))
    <$> seq 0 50.
Definition recordFull : QR := sampleRecord "qr1" textContent None fullHistory.

(** A collection in which the first [n] candidates of [sampleEnv] are
    taken. *)
Definition takenWorld (n : nat) : World :=
  {| db := list_to_map
             ((λ c, (c, sampleRecord c linkContent None []))
                <$> candidatesFrom sampleEnv 0 n);
     fs := ∅; analytics := [] |}.

Definition menuReq : CreateReq :=
  {| c_title := Some " Menu "; c_description := None |}.

(** A title that is not empty but blank. *)
Definition blankReq : CreateReq :=
  {| c_title := Some "   "; c_description := None |}.

(** A second locked text record: other text, other password, never
    scanned, tracking off. *)
Definition lockedOther : QR :=
  {| id := "qr1"; title := "Menu";
     qrCodePath := "/srv/app/uploads/qrcodes/dynamic_qr_qr1.png";
     currentContent :=
       with_text "another text" (emptyContent "text" (Some "note") 1700000000900);
     createdDate := 1700000000000; scanCount := 7; lastScanned := None;
     contentHistory := []; isActive := true;
     settings := {| allowTracking := false; customDomain := None;
                    password := Some "wxyz" |};
     createdAt := Some 1700000000000; updatedAt := Some 1700000000900 |}.

(** * Vocabulary of the further properties *)

(** The characters of a string. *)
Fixpoint chars (s : string) : list ascii :=
  match s with
  | EmptyString => []
  | String c r => c :: chars r
  end.

(** A character of [[^\s@]]. *)
Definition plainChar (c : ascii) : Prop := JS.is_ws c = false ∧ c ≠ "@"%char.

(** A string of [[^\s@]+]. *)
Definition plainStr (s : string) : Prop := s ≠ "" ∧ Forall plainChar (chars s).

(** A character of [[\d\s\-\(\)]]. *)
Definition phoneCharP (c : ascii) : Prop :=
  (48 ≤ N_of_ascii c ≤ 57)%N ∨ JS.is_ws c = true
  ∨ c = "-"%char ∨ c = "("%char ∨ c = ")"%char.

(** The query for an id finds nothing: no such record, or an inactive one. *)
Definition notResolvable (w : World) (i : string) : Prop :=
  match db w !! i with
  | Some q => isActive q = false
  | None => True
  end.

(** The world after a handler. *)
Definition after {R} (h : World → World * R) (w : World) : World := fst (h w).

(** The files a hard delete removes: the image computed from the id and,
    for a file content, the active file. *)
Definition hardDeleted (env : Env) (qr : QR) : gset string :=
  {[qrPathOf env (id qr)]}
  ∪ (if String.eqb (ctype (currentContent qr)) "file"
        && JS.truthy (filePath (currentContent qr))
     then {[default "" (filePath (currentContent qr))]} else ∅).

(** [req.ip || 'unknown']. *)
Definition clientOf (req : Auth.LoginReq) : string :=
  if JS.truthy (Auth.l_ip req) then default "" (Auth.l_ip req) else "unknown".

(** A request that passes [validateLoginInput]. *)
Definition validLogin (req : Auth.LoginReq) (u p : string) : Prop :=
  Auth.l_username req = BStr u ∧ Auth.l_password req = BStr p
  ∧ u ≠ "" ∧ p ≠ ""
  ∧ (String.length u ≤ 100)%nat ∧ (String.length p ≤ 200)%nat.

(** An environment that passes [validateEnvCredentials]. *)
Definition configured (env : Auth.AuthEnv) (au ap : string) : Prop :=
  Auth.ADMIN_USERNAME env = Some au ∧ Auth.ADMIN_PASSWORD env = Some ap
  ∧ au ≠ "" ∧ ap ≠ "".

(** The comparison [login] makes. *)
Definition credentialsMatch (u p au ap : string) : bool :=
  String.eqb (JS.toLowerCase (JS.trim u)) (JS.toLowerCase au)
  && String.eqb (JS.trim p) ap.

(** The client has five failures, the last one less than fifteen
    minutes ago. *)
Definition lockedOut (env : Auth.AuthEnv) (m : gmap string Auth.Attempt)
    (c : string) : bool :=
  match m !! c with
  | Some a => Auth.isLocked env a
  | None => false
  end.

(** The failures that still count for a client that is not locked out. *)
Definition priorCount (m : gmap string Auth.Attempt) (c : string) : N :=
  match m !! c with
  | Some a => if (Auth.MAX_LOGIN_ATTEMPTS <=? Auth.count a)%N then 0 else Auth.count a
  | None => 0
  end.

Definition attemptsBounded (m : gmap string Auth.Attempt) : Prop :=
  ∀ c a, m !! c = Some a → (1 ≤ Auth.count a ≤ 5)%N.

Definition runLogins (steps : list (Auth.AuthEnv * Auth.LoginReq))
    (m : gmap string Auth.Attempt) : gmap string Auth.Attempt :=
  foldl (λ m s, fst (Auth.login s.1 s.2 m)) m steps.

(** A login of client [c] that is well formed and has wrong credentials. *)
Definition failingLogin (c : string) (s : Auth.AuthEnv * Auth.LoginReq) : Prop :=
  clientOf s.2 = c
  ∧ ∃ u p au ap, validLogin s.2 u p ∧ configured s.1 au ap
                 ∧ credentialsMatch u p au ap = false.

(** The requests of every modelled handler of the two QR controllers. *)
Inductive AdminOp :=
| Public (op : Op)
| AdminDelete (env : Env) (req : DeleteReq)
| AdminRestore (env : Env) (i : string)
| AdminSettings (env : Env) (req : SettingsReq)
| AdminBulkDelete (env : Env) (req : BulkReq)
| ServeImage (i : string).

Definition adminStep (w : World) (op : AdminOp) : World :=
  match op with
  | Public op => fst (handle op w)
  | AdminDelete env req => fst (deleteQR env req w)
  | AdminRestore env i => fst (restoreQR env i w)
  | AdminSettings env req => fst (updateQRSettings env req w)
  | AdminBulkDelete env req => fst (bulkDeleteQRs env req w)
  | ServeImage i => fst (serveQRImage i w)
  end.

Definition adminRun (ops : list AdminOp) (w : World) : World := foldl adminStep w ops.

(** * Further sample data *)


Definition contactUpdate : UpdateReq :=
  {| u_id := "qr1"; u_contentType := Some "contact"; u_text := None;
     u_url := None; u_linkTitle := None; u_contactName := Some " Ann ";
     u_phone := Some "+998 90 123-45-67"; u_email := Some "ann@example.org";
     u_company := Some "ACME"; u_description := None; u_file := None |}.

Definition companyOnlyUpdate : UpdateReq :=
  {| u_id := "qr1"; u_contentType := Some "contact"; u_text := None;
     u_url := None; u_linkTitle := None; u_contactName := None;
     u_phone := None; u_email := None;
     u_company := Some "ACME"; u_description := None; u_file := None |}.

(** A text update whose description has 1001 characters. *)
Definition longDescriptionUpdate : UpdateReq :=
  {| u_id := "qr1"; u_contentType := Some "text"; u_text := Some "hello";
     u_url := None; u_linkTitle := None; u_contactName := None; u_phone := None;
     u_email := None; u_company := None;
     u_description := Some (repeatChar "d" 1001); u_file := None |}.

Definition softDeleteReq : DeleteReq := {| d_id := "qr1"; d_force := QAbsent |}.
Definition hardDeleteReq : DeleteReq := {| d_id := "qr1"; d_force := QStr "true" |}.

Definition passwordReq (p : string) : SettingsReq :=
  {| t_id := "qr1"; t_allowTracking := None; t_customDomain := BUndefined;
     t_password := BStr p |}.

Definition fileUpdate : UpdateReq :=
  {| u_id := "17000000000004fzyo82mv"; u_contentType := Some "file"; u_text := None;
     u_url := None; u_linkTitle := None; u_contactName := None; u_phone := None;
     u_email := None; u_company := None; u_description := None;
     u_file := Some uploadB2 |}.

Definition firstScan : ScanReq :=
  {| s_id := "17000000000004fzyo82mv"; q_password := QAbsent; q_format := QAbsent;
     r_ip := None; r_userAgent := None; r_referer := None; r_country := None |}.

Definition authEnv (t : N) : Auth.AuthEnv :=
  {| Auth.clock := t; Auth.ADMIN_USERNAME := Some "Admin";
     Auth.ADMIN_PASSWORD := Some "s3cret!" |}.

Definition loginOf (u p : string) : Auth.LoginReq :=
  {| Auth.l_username := BStr u; Auth.l_password := BStr p;
     Auth.l_ip := Some "10.0.0.9" |}.

(** Five wrong passwords, a minute apart. *)
Definition fiveFailures : list (Auth.AuthEnv * Auth.LoginReq) :=
  (λ k, (authEnv (1700000000000 + 60000 * N.of_nat k), loginOf "admin" "guess"))
    <$> seq 1 5.

(** An environment whose password ends with a blank. *)
Definition paddedEnv : Auth.AuthEnv :=
  {| Auth.clock := 1700000000000; Auth.ADMIN_USERNAME := Some "Admin";
     Auth.ADMIN_PASSWORD := Some "s3cret! " |}.

(** The locked link record after a soft delete, with its image. *)
Definition inactiveWorld : World :=
  worldOf (set_isActive false lockedLink)
    ["/srv/app/uploads/qrcodes/dynamic_qr_qr1.png"].

Definition bulkReq : BulkReq :=
  {| k_qrIds := Some ["qr1"; "nope"]; k_forceDelete := true |}.

(** * Properties *)

Ltac unfold_M :=
  cbv [mbind M_bind mret M_ret throw when getWorld modifyWorld
       catchAsync tryCatchRethrow] in *.

(** ** The allocation loop *)

Lemma allocLoop_done fuel env st w :
  allocCond st = false → allocLoop fuel env st w = (w, inr st).
Proof. intros H. destruct fuel; simpl; rewrite H; reflexivity. Qed.

Lemma allocLoop_spec env w fuel : ∀ a q,
  (a + fuel = 5)%nat →
  ∃ st, allocLoop fuel env {| qrId := q; isUnique := false; attempts := a |} w
        = (w, inr st)
    ∧ allocCond st = false
    ∧ (attempts st ≤ 5)%nat
    ∧ match firstUnused (db w) (candidatesFrom env a fuel) with
      | Some c => isUnique st = true ∧ qrId st = Some c ∧ db w !! c = None
      | None => isUnique st = false ∧ attempts st = 5%nat
      end.
Proof.
  induction fuel as [|fuel IH]; intros a q Ha.
  - assert (a = 5%nat) as -> by lia.
    eexists. split; [reflexivity|]. repeat split; cbn; lia.
  - assert (Hlt : (a < 5)%nat) by lia.
    assert (Hc : allocCond {| qrId := q; isUnique := false; attempts := a |} = true).
    { unfold allocCond; simpl. apply Nat.ltb_lt in Hlt. rewrite Hlt. reflexivity. }
    cbn [allocLoop]. rewrite Hc.
    unfold allocBody, findOne. unfold_M. cbn [attempts isUnique].
    unfold candidatesFrom. cbn [seq fmap list_fmap firstUnused].
    change (generateUniqueId (entropy env a)) with (candidate env a).
    destruct (db w !! candidate env a) as [old|] eqn:Hdb.
    + destruct (IH (S a) (Some (candidate env a)) ltac:(lia))
        as (st & Hrun & Hcond & Hatt & Hfirst).
      exists st. rewrite Hrun. repeat split; assumption.
    + rewrite allocLoop_done by reflexivity.
      eexists. split; [reflexivity|]. cbn. repeat split; try lia.
      assumption.
Qed.

(** ** Saving *)

Lemma arraySlice_last50 {A} (l : list A) :
  JS.arraySlice (-50) l = drop (length l - 50) l.
Proof.
  unfold JS.arraySlice. cbn [Z.ltb Z.compare].
  f_equal. lia.
Qed.

Lemma preSave_history q :
  contentHistory (preSave q)
  = drop (length (contentHistory q) - 50) (contentHistory q).
Proof.
  unfold preSave. destruct (Nat.ltb_spec 50 (length (contentHistory q))) as [H|H].
  - cbn. apply arraySlice_last50.
  - replace (length (contentHistory q) - 50)%nat with 0%nat by lia. reflexivity.
Qed.

Lemma preSave_small q :
  (length (contentHistory q) ≤ 50)%nat → preSave q = q.
Proof.
  intros H. unfold preSave.
  destruct (Nat.ltb_spec 50 (length (contentHistory q))); [lia|reflexivity].
Qed.

Lemma preSave_id q : id (preSave q) = id q.
Proof. unfold preSave. destruct (Nat.ltb _ _); reflexivity. Qed.

Lemma preSave_content q : currentContent (preSave q) = currentContent q.
Proof. unfold preSave. destruct (Nat.ltb _ _); reflexivity. Qed.

Lemma app_nil_inv {A} (l1 l2 : list A) : l1 ++ l2 = [] → l1 = [] ∧ l2 = [].
Proof. destruct l1; [auto|discriminate]. Qed.

Lemma conforms_length q : conforms q → (length (contentHistory q) ≤ 50)%nat.
Proof.
  unfold conforms, schemaErrors. cbn [selected andb].
  intros H. do 4 (apply app_nil_inv in H as [_ H]).
  apply app_nil_inv in H as [H _]. unfold contentHistoryValid in H.
  destruct (Nat.leb_spec (length (contentHistory q)) 50); [assumption|discriminate].
Qed.

(** Validation does not look at the counters, the flag, the settings or
    the time stamps. *)
Lemma schemaErrors_set_scan sel n t q :
  schemaErrors sel (set_scan n t q) = schemaErrors sel q.
Proof. reflexivity. Qed.

Lemma schemaErrors_set_isActive sel b q :
  schemaErrors sel (set_isActive b q) = schemaErrors sel q.
Proof. reflexivity. Qed.

Lemma schemaErrors_set_settings sel s q :
  schemaErrors sel (set_settings s q) = schemaErrors sel q.
Proof. reflexivity. Qed.

Lemma schemaErrors_set_timestamps sel c u q :
  schemaErrors sel (set_timestamps c u q) = schemaErrors sel q.
Proof. reflexivity. Qed.

Lemma validate_inr sel q q' : validate sel q = inr q' → q' = q ∧ schemaErrors sel q = [].
Proof.
  unfold validate. destruct (schemaErrors sel q); [|discriminate].
  intros [= <-]. auto.
Qed.

Lemma validate_conforms q : conforms q → validate None q = inr q.
Proof. unfold validate, conforms. intros ->. reflexivity. Qed.

Lemma stage_conforms env q : conforms q → stage env None q = inr q.
Proof.
  intros H. unfold stage, preSaveHook. cbn [selected].
  rewrite (preSave_small q (conforms_length q H)), (validate_conforms q H).
  destruct (validateFirst env); reflexivity.
Qed.

Lemma schemaErrors_bound sel q :
  selected sel "contentHistory" = true → schemaErrors sel q = [] →
  (length (contentHistory q) ≤ 50)%nat.
Proof.
  intros Hs H. unfold schemaErrors in H. rewrite Hs in H.
  do 4 (apply app_nil_inv in H as [_ H]).
  apply app_nil_inv in H as [H _]. unfold contentHistoryValid in H.
  destruct (Nat.leb_spec (length (contentHistory q)) 50); [assumption|discriminate].
Qed.

(** Whatever the order of the validators and the hook, a staged document
    is the hook's result, passes the validators of the paths it was
    loaded with, and keeps at most fifty entries. *)
Lemma stage_inr env sel q q' :
  stage env sel q = inr q' →
  q' = preSave q ∧ schemaErrors sel q' = []
  ∧ (length (contentHistory q') ≤ 50)%nat.
Proof.
  unfold stage, preSaveHook.
  destruct (selected sel "contentHistory") eqn:Hsel.
  - destruct (validateFirst env).
    + destruct (validate sel q) as [e|v] eqn:Hv; [discriminate|].
      apply validate_inr in Hv as [_ Hv]. intros [= <-].
      pose proof (schemaErrors_bound sel q Hsel Hv) as Hl.
      rewrite (preSave_small q Hl). auto.
    + intros Hv. apply validate_inr in Hv as [-> Hv].
      split; [reflexivity|]. split; [exact Hv|].
      apply (schemaErrors_bound sel _ Hsel Hv).
  - destruct (validateFirst env); [destruct (validate sel q)|]; discriminate.
Qed.

(** When the hook runs first, nothing is ever rejected for the length of
    its history. *)
Lemma stage_hook_first env q :
  validateFirst env = false → stage env None q = validate None (preSave q).
Proof. intros Hv. unfold stage, preSaveHook. rewrite Hv. reflexivity. Qed.

(** The time stamps are all [timestamps] changes. *)
Lemma timestamps_fields env loaded q staged :
  ∃ c u, timestamps env loaded q staged = set_timestamps c u staged
         ∧ (loaded ≠ None → c = createdAt staged).
Proof.
  unfold timestamps. destruct loaded as [q0|].
  - case_decide.
    + exists (createdAt staged), (updatedAt staged). split; [|reflexivity].
      destruct staged; reflexivity.
    + eauto.
  - eexists _, _. split; [reflexivity|congruence].
Qed.

Lemma timestamps_id env loaded q staged :
  id (timestamps env loaded q staged) = id staged.
Proof. destruct (timestamps_fields env loaded q staged) as (c & u & -> & _). reflexivity. Qed.

Lemma timestamps_history env loaded q staged :
  contentHistory (timestamps env loaded q staged) = contentHistory staged.
Proof. destruct (timestamps_fields env loaded q staged) as (c & u & -> & _). reflexivity. Qed.

Lemma timestamps_modified env q0 q staged :
  q ≠ q0 → timestamps env (Some q0) q staged = touched env staged.
Proof. intros H. unfold timestamps. rewrite decide_False by exact H. reflexivity. Qed.

Lemma timestamps_unmodified env q staged :
  timestamps env (Some q) q staged = staged.
Proof. unfold timestamps. rewrite decide_True by reflexivity. reflexivity. Qed.

(** The ways [save] can end. *)
Lemma save_cases env sel loaded q w :
  (∃ staged, stage env sel q = inr staged ∧ storeAccepts env = true
     ∧ save env sel loaded q w
       = (set_db (<[id staged := timestamps env loaded q staged]> (db w)) w,
          inr (timestamps env loaded q staged)))
  ∨ (∃ e, save env sel loaded q w = (w, inl e)).
Proof.
  unfold save. destruct (stage env sel q) as [e|staged].
  - right. eexists. reflexivity.
  - unfold_M. destruct (storeAccepts env) eqn:Hs; cbn [negb orb].
    + destruct (duplicateKey loaded _ w).
      * right. eexists. reflexivity.
      * left. exists staged. rewrite timestamps_id. auto.
    + right. eexists. reflexivity.
Qed.

(** A loaded document that conforms is stored when the store takes it. *)
Lemma save_ok env q0 q w :
  conforms q → storeAccepts env = true →
  save env None (Some q0) q w
  = (set_db (<[id q := timestamps env (Some q0) q q]> (db w)) w,
     inr (timestamps env (Some q0) q q)).
Proof.
  intros Hc Hs. unfold save. rewrite (stage_conforms env q Hc). unfold_M.
  rewrite Hs. cbn [negb orb duplicateKey]. rewrite timestamps_id. reflexivity.
Qed.

Lemma save_refused env sel loaded q w :
  storeAccepts env = false → ∃ e, save env sel loaded q w = (w, inl e).
Proof.
  intros Hs. unfold save. destruct (stage env sel q); unfold_M; rewrite ?Hs;
    eexists; reflexivity.
Qed.

Lemma entryErrors_nil h : ∀ k,
  entryErrors k h = [] ↔ Forall (λ e, h_type e ∈ contentTypes) h.
Proof.
  induction h as [|e h IH]; intros k; cbn [entryErrors].
  - split; [constructor|reflexivity].
  - rewrite Forall_cons, <- (IH (S k)). case_bool_decide as Hin.
    + cbn. tauto.
    + split; [discriminate|tauto].
Qed.

(** What it takes to satisfy the schema. *)
Lemma conforms_iff q :
  conforms q
  ↔ rootValid q = true ∧ contentErrors (currentContent q) = []
    ∧ (length (contentHistory q) ≤ 50)%nat
    ∧ Forall (λ e, h_type e ∈ contentTypes) (contentHistory q).
Proof.
  unfold conforms, schemaErrors, rootValid, contentHistoryValid.
  cbn [selected andb]. rewrite <- (entryErrors_nil (contentHistory q) 0).
  destruct (String.eqb (id q) ""); cbn [negb andb app];
    [split; [discriminate|intros [[=] _]]|].
  destruct (String.eqb (title q) "" || Nat.ltb 200 (String.length (title q)));
    cbn [negb andb app]; [split; [discriminate|intros [[=] _]]|].
  destruct (String.eqb (qrCodePath q) ""); cbn [negb andb app];
    [split; [discriminate|intros [[=] _]]|].
  destruct (Nat.leb_spec (length (contentHistory q)) 50) as [Hl|Hl].
  - split.
    + intros H. apply app_nil_inv in H as [H1 H2]. auto.
    + intros (_ & -> & _ & H). exact H.
  - split.
    + intros H. apply app_nil_inv in H as [_ H]. discriminate.
    + intros (_ & _ & H & _). lia.
Qed.

Lemma stage_inl env q e :
  stage env None q = inl e → ∃ paths, e = SchemaValidationErr paths.
Proof.
  unfold stage, preSaveHook, validate. cbn [selected].
  destruct (validateFirst env).
  - destruct (schemaErrors None q); [discriminate|]. intros [= <-]. eauto.
  - destruct (schemaErrors None (preSave q)); [discriminate|]. intros [= <-]. eauto.
Qed.

(** The document of an update satisfies the schema when the record did,
    its history has room, and the new content passes its validators. *)
Lemma update_conforms env qr filled :
  conforms qr → (length (contentHistory qr) < 50)%nat →
  contentErrors filled = [] →
  conforms (set_currentContent filled (addToHistory env (currentContent qr) qr)).
Proof.
  rewrite !conforms_iff. intros (Hr & Hc & _ & Hh) Hlen Hf.
  split; [exact Hr|]. split; [exact Hf|].
  cbn [contentHistory set_currentContent addToHistory set_contentHistory].
  split; [rewrite length_app; cbn; lia|].
  apply Forall_app. split; [exact Hh|]. constructor; [|constructor].
  cbn [h_type]. unfold contentErrors in Hc.
  apply app_nil_inv in Hc as [Hc _].
  case_bool_decide; [assumption|discriminate].
Qed.

Lemma schemaErrors_selection sel q : conforms q → schemaErrors sel q = [].
Proof.
  unfold conforms, schemaErrors. cbn [selected andb]. intros H.
  destruct (String.eqb (id q) ""); [discriminate|].
  destruct (String.eqb (title q) "" || Nat.ltb 200 (String.length (title q)));
    [discriminate|].
  destruct (String.eqb (qrCodePath q) ""); [discriminate|].
  cbn [app] in H. apply app_nil_inv in H as [Hc Hh].
  rewrite !andb_false_r, Hc, Hh.
  destruct (selected sel "currentContent"), (selected sel "contentHistory");
    reflexivity.
Qed.

(** On a document loaded with the selection of [quickRedirect] the hook
    cannot read the history: staging always fails. *)
Lemma stage_quickSelection env q :
  ∃ e, stage env quickSelection q = inl e
       ∧ (e = OtherErr "Cannot read properties of undefined (reading 'length')"
          ∨ ∃ paths, e = SchemaValidationErr paths)
       ∧ (conforms q →
          e = OtherErr "Cannot read properties of undefined (reading 'length')").
Proof.
  unfold stage, preSaveHook.
  replace (selected quickSelection "contentHistory") with false
    by (symmetry; vm_compute; reflexivity).
  destruct (validateFirst env); [|eauto 6].
  unfold validate.
  destruct (schemaErrors quickSelection q) as [|p ps] eqn:He; [eauto 6|].
  eexists. split; [reflexivity|]. split; [eauto|].
  intros Hc. rewrite (schemaErrors_selection quickSelection q Hc) in He. discriminate.
Qed.

(** ** Creation, step by step *)

Lemma firstUnused_spec d cs c :
  firstUnused d cs = Some c →
  ∃ k, cs !! k = Some c ∧ d !! c = None
       ∧ ∀ j c', (j < k)%nat → cs !! j = Some c' → is_Some (d !! c').
Proof.
  revert c. induction cs as [|x cs IH]; intros c; cbn [firstUnused]; [discriminate|].
  destruct (d !! x) as [old|] eqn:Hx.
  - intros H. destruct (IH c H) as (k & Hk & Hc & Hj).
    exists (S k). split; [exact Hk|]. split; [exact Hc|].
    intros [|j] c' Hlt Hc'.
    + injection Hc' as <-. rewrite Hx. eauto.
    + apply (Hj j c'); [lia|exact Hc'].
  - intros [= <-]. exists 0%nat. split; [reflexivity|]. split; [exact Hx|].
    intros j c' Hlt. lia.
Qed.

Lemma firstUnused_None d cs :
  firstUnused d cs = None → ∀ k c, cs !! k = Some c → is_Some (d !! c).
Proof.
  induction cs as [|x cs IH]; cbn [firstUnused]; intros H k c Hk; [discriminate|].
  destruct (d !! x) as [old|] eqn:Hx; [|discriminate].
  destruct k as [|k]; [injection Hk as <-; rewrite Hx; eauto|].
  apply (IH H k c Hk).
Qed.

Lemma candidatesFrom_lookup env n k :
  (k < n)%nat → candidatesFrom env 0 n !! k = Some (candidate env k).
Proof.
  intros Hk. unfold candidatesFrom. rewrite list_lookup_fmap, lookup_seq_lt by exact Hk.
  reflexivity.
Qed.

Lemma candidatesFrom_lookup_Some env n k c :
  candidatesFrom env 0 n !! k = Some c → (k < n)%nat ∧ c = candidate env k.
Proof.
  unfold candidatesFrom. rewrite list_lookup_fmap.
  destruct (seq 0 n !! k) as [j|] eqn:Hj; [|discriminate].
  apply lookup_seq in Hj as [-> Hlt]. intros [= <-]. auto.
Qed.

Lemma append_nonempty_l s t : s ≠ "" → s +:+ t ≠ "".
Proof. destruct s; [congruence|discriminate]. Qed.

Lemma append_nonempty_r s t : t ≠ "" → s +:+ t ≠ "".
Proof. intros Ht. destruct s; [exact Ht|discriminate]. Qed.

Lemma numToString_nonempty n : JS.numToString n ≠ "".
Proof.
  unfold JS.numToString, NilZero.string_of_uint.
  destruct (N.to_uint n); discriminate.
Qed.

Lemma candidate_nonempty env k : candidate env k ≠ "".
Proof. apply append_nonempty_l, numToString_nonempty. Qed.

Lemma qrPathOf_nonempty env i : qrPathOf env i ≠ "".
Proof. unfold qrPathOf. apply append_nonempty_r. discriminate. Qed.

Lemma trimStart_length s : (String.length (JS.trimStart s) ≤ String.length s)%nat.
Proof.
  induction s as [|c r IH]; cbn; [lia|]. destruct (JS.is_ws c); cbn; lia.
Qed.

Lemma trimEnd_length s : (String.length (JS.trimEnd s) ≤ String.length s)%nat.
Proof.
  induction s as [|c r IH]; [cbn; lia|].
  cbn [JS.trimEnd]. destruct (JS.trimEnd r) as [|d r'].
  - destruct (JS.is_ws c); cbn; lia.
  - cbn in *. lia.
Qed.

Lemma trim_length s : (String.length (JS.trim s) ≤ String.length s)%nat.
Proof.
  unfold JS.trim. pose proof (trimEnd_length (JS.trimStart s)).
  pose proof (trimStart_length s). lia.
Qed.

Lemma eqb_nonempty s : s ≠ "" → String.eqb s "" = false.
Proof. intros H. destruct (String.eqb_spec s ""); [contradiction|reflexivity]. Qed.

(** What the validators say of a new record. *)
Lemma newQR_errors env c req :
  c ≠ "" → (String.length (default "" (c_title req)) ≤ 200)%nat →
  let q := newQR env c (default "" (c_title req)) (qrPathOf env c) (c_description req) in
  if creatable req then conforms q else schemaErrors None q ≠ [].
Proof.
  intros Hc Hlen q. unfold creatable, conforms, schemaErrors, contentErrors.
  cbn [selected andb q newQR id title qrCodePath currentContent contentHistory
       emptyContent ctype text url linkTitle contactName phone email company
       description withinLength entryErrors contentHistoryValid length Nat.leb].
  rewrite (eqb_nonempty c Hc), (eqb_nonempty _ (qrPathOf_nonempty env c)).
  assert (Ht : Nat.ltb 200 (String.length (JS.trim (default "" (c_title req)))) = false).
  { apply Nat.ltb_ge. pose proof (trim_length (default "" (c_title req))). lia. }
  rewrite Ht, orb_false_r.
  replace (bool_decide ("empty" ∈ contentTypes)) with true by (symmetry; vm_compute; reflexivity).
  assert (Hd : Nat.leb (String.length
                 (if JS.truthy (c_description req) then default "" (c_description req)
                  else "Content hali qo'shilmagan")) 1000
               = withinLength 1000 (c_description req)).
  { destruct (c_description req) as [d|]; [|reflexivity]. cbn.
    destruct (String.eqb_spec d "") as [->|]; reflexivity. }
  rewrite Hd.
  destruct (String.eqb (JS.trim (default "" (c_title req))) "");
    destruct (withinLength 1000 (c_description req)); cbn; congruence.
Qed.

Lemma stage_new env q :
  contentHistory q = [] →
  stage env None q = validate None q.
Proof.
  intros Hh. unfold stage, preSaveHook, preSave. rewrite Hh. cbn [selected length Nat.ltb Nat.leb].
  destruct (validateFirst env); [|reflexivity].
  destruct (validate None q) as [e|v] eqn:Hv; [reflexivity|].
  apply validate_inr in Hv as [-> _]. reflexivity.
Qed.

Lemma difference_union_same (p : string) (s : gset string) :
  ({[p]} ∪ s) ∖ {[p]} = s ∖ {[p]}.
Proof.
  apply leibniz_equiv. intros x.
  rewrite !elem_of_difference, elem_of_union, elem_of_singleton. tauto.
Qed.

Lemma difference_absent (p : string) (s : gset string) : p ∉ s → s ∖ {[p]} = s.
Proof.
  intros Hp. apply leibniz_equiv. intros x.
  rewrite elem_of_difference, elem_of_singleton.
  split; [tauto|]. intros Hx. split; [exact Hx|]. intros ->. contradiction.
Qed.

Lemma unlinkIfExists_run p w :
  ∃ b, unlinkIfExists p w = (set_fs (fs w ∖ {[p]}) w, inr b).
Proof.
  unfold unlinkIfExists. case_decide as Hin; [eauto|].
  exists false. rewrite (difference_absent p (fs w) Hin). destruct w; reflexivity.
Qed.

(** [createQR] once the title has passed its two checks and the loop has
    found [c]: the image, the validators, the store, and the [catch]
    that removes the image again. *)
Lemma createQR_run env req w c :
  JS.truthy (c_title req) = true →
  (String.length (default "" (c_title req)) ≤ 200)%nat →
  firstUnused (db w) (candidatesFrom env 0 5) = Some c →
  let path := qrPathOf env c in
  let q0 := newQR env c (default "" (c_title req)) path (c_description req) in
  createQR env req w =
    match encoder env with
    | EncodeOk =>
        if creatable req
        then if storeAccepts env
             then (set_db (<[c := created env c req]> (db w))
                     (set_fs ({[path]} ∪ fs w) w),
                   RJson 201 (createdJson env (created env c req)))
             else (set_fs (fs w ∖ {[path]}) w, RFailed StoreErr)
        else (set_fs (fs w ∖ {[path]}) w,
              RFailed (SchemaValidationErr (schemaErrors None q0)))
    | EncodeFails _ =>
        (set_fs (fs w ∖ {[path]}) w, RFailed (OtherErr "QR code yaratib bo'lmadi"))
    end.
Proof.
  intros Ht Hlen Hfirst path q0.
  destruct (allocLoop_spec env w 5 0 None eq_refl) as (st & Hrun & _ & _ & Hf).
  fold allocInit in Hrun. rewrite Hfirst in Hf. destruct Hf as (Hu & Hq & Hfree).
  destruct (firstUnused_spec _ _ _ Hfirst) as (k & Hk & _ & _).
  apply candidatesFrom_lookup_Some in Hk as [_ Hck].
  assert (Hc : c ≠ "") by (rewrite Hck; apply candidate_nonempty).
  pose proof (newQR_errors env c req Hc Hlen) as Hval. cbv zeta in Hval.
  fold path in Hval. fold q0 in Hval.
  unfold createQR, createQR_body, validateRequiredField. rewrite Ht.
  pose proof Hlen as Hlen'. apply Nat.ltb_ge in Hlen'. rewrite Hlen'.
  unfold_M. rewrite Hrun, Hu, Hq. cbn [negb]. change (default "" (Some c)) with c.
  unfold generateQRCode, deleteQRCode. fold path.
  destruct (encoder env) as [|partialFile].
  - unfold_M. fold q0. unfold save.
    rewrite (stage_new env q0) by reflexivity.
    destruct (creatable req).
    + rewrite (validate_conforms q0 Hval). unfold_M.
      cbn [duplicateKey timestamps id set_timestamps createdAt q0 newQR db set_fs].
      rewrite Hfree.
      replace (bool_decide (is_Some (@None QR))) with false
        by (symmetry; apply bool_decide_eq_false_2; intros [x Hx]; discriminate).
      rewrite orb_false_r.
      destruct (storeAccepts env); cbn [negb].
      * reflexivity.
      * destruct (unlinkIfExists_run path (set_fs ({[path]} ∪ fs w) w)) as [b ->].
        cbn [fs set_fs]. rewrite difference_union_same. reflexivity.
    + unfold validate. destruct (schemaErrors None q0) as [|p ps] eqn:He; [contradiction|].
      unfold_M.
      destruct (unlinkIfExists_run path (set_fs ({[path]} ∪ fs w) w)) as [b ->].
      cbn [fs set_fs]. rewrite difference_union_same. reflexivity.
  - unfold_M. destruct partialFile.
    + destruct (unlinkIfExists_run path (set_fs ({[path]} ∪ fs w) w)) as [b ->].
      cbn [fs set_fs]. rewrite difference_union_same. reflexivity.
    + destruct (unlinkIfExists_run path w) as [b ->]. reflexivity.
Qed.

Lemma allocLoop_entropy env e' w fuel : ∀ st,
  (attempts st + fuel ≤ 5)%nat →
  (∀ k, (k < 5)%nat → e' k = entropy env k) →
  allocLoop fuel (with_entropy e' env) st w = allocLoop fuel env st w.
Proof.
  induction fuel as [|fuel IH]; intros st Ha He; cbn [allocLoop]; [reflexivity|].
  destruct (allocCond st); [|reflexivity].
  unfold allocBody, findOne. unfold_M.
  cbn [entropy with_entropy]. rewrite (He (attempts st)) by lia.
  apply IH; [cbn; lia|exact He].
Qed.

(** ** Identifier allocation *)

(** C6. [createQR] draws its candidates from [generateUniqueId] (the
    decimal clock reading followed by nine characters of the random
    base-36 string) and looks each one up in the collection, at most five
    times: what it does depends on the first five draws only.  It goes
    on with the first candidate that no stored document carries, which
    becomes the id of the record it stores, and it never answers with the
    exhaustion error then; when all five are taken it fails with the
    status-500 error and changes nothing. *)
Theorem allocator_first_unused_within_five env req w :
  JS.truthy (c_title req) = true →
  (String.length (default "" (c_title req)) ≤ 200)%nat →
  (∀ k, candidate env k
        = JS.numToString (fst (entropy env k)) +:+ JS.slice 2 11 (snd (entropy env k)))
  ∧ (∀ e', (∀ k, (k < 5)%nat → e' k = entropy env k) →
       createQR (with_entropy e' env) req w = createQR env req w)
  ∧ match firstUnused (db w) (candidatesFrom env 0 5) with
    | Some c =>
        (∃ k, (k < 5)%nat ∧ c = candidate env k ∧ db w !! c = None
              ∧ ∀ j, (j < k)%nat → is_Some (db w !! candidate env j))
        ∧ snd (createQR env req w)
          ≠ RFailed (AppErr 500 "Unique ID yaratib bo'lmadi. Qayta urining.")
        ∧ (encoder env = EncodeOk → creatable req = true → storeAccepts env = true →
           ∃ w' q, createQR env req w = (w', RJson 201 (createdJson env q))
                   ∧ id q = c ∧ db w' = <[c := q]> (db w))
    | None =>
        (∀ k, (k < 5)%nat → is_Some (db w !! candidate env k))
        ∧ createQR env req w
          = (w, RFailed (AppErr 500 "Unique ID yaratib bo'lmadi. Qayta urining."))
    end.
Proof.
  intros Ht Hlen. split; [reflexivity|]. split.
  { intros e' He. unfold createQR, createQR_body. unfold_M.
    destruct (validateRequiredField "title" (c_title req) w) as [w0 [e|u]]; [reflexivity|].
    destruct (Nat.ltb 200 _); [reflexivity|].
    rewrite (allocLoop_entropy env e' w0 5 allocInit) by (cbn; first [lia|exact He]).
    reflexivity. }
  destruct (firstUnused (db w) (candidatesFrom env 0 5)) as [c|] eqn:Hfirst.
  - pose proof (createQR_run env req w c Ht Hlen Hfirst) as Hrun. cbv zeta in Hrun.
    split; [|split].
    + destruct (firstUnused_spec _ _ _ Hfirst) as (k & Hk & Hfree & Hbefore).
      apply candidatesFrom_lookup_Some in Hk as [Hk5 Hck].
      exists k. split; [exact Hk5|]. split; [exact Hck|]. split; [exact Hfree|].
      intros j Hj. apply (Hbefore j); [exact Hj|].
      apply candidatesFrom_lookup. lia.
    + rewrite Hrun. destruct (encoder env); [|discriminate].
      destruct (creatable req); [|discriminate].
      destruct (storeAccepts env); discriminate.
    + intros He Hc Hs. rewrite Hrun, He, Hc, Hs.
      eexists _, _. split; [reflexivity|]. split; reflexivity.
  - split.
    + intros k Hk. apply (firstUnused_None _ _ Hfirst k).
      apply candidatesFrom_lookup. exact Hk.
    + destruct (allocLoop_spec env w 5 0 None eq_refl) as (st & Hrun & _ & _ & Hf).
      fold allocInit in Hrun. rewrite Hfirst in Hf. destruct Hf as [Hu _].
      unfold createQR, createQR_body, validateRequiredField. rewrite Ht.
      apply Nat.ltb_ge in Hlen. rewrite Hlen.
      unfold_M. rewrite Hrun, Hu. reflexivity.
Qed.

(** ** Creation *)

(** C8. [createQR] writes the image before it saves the record, and its
    [catch] removes the image again: when the encoder fails (with or
    without a partial file) or the save is refused, by the validators of
    the schema or by the store, no record is stored and no image is left
    at the record's path; when all succeed, the stored record carries
    the path of an image that exists. *)
Theorem creation_binds_image_before_commit env req w c :
  JS.truthy (c_title req) = true →
  (String.length (default "" (c_title req)) ≤ 200)%nat →
  firstUnused (db w) (candidatesFrom env 0 5) = Some c →
  let path := qrPathOf env c in
  let q := created env c req in
  let '(w', r) := createQR env req w in
  match encoder env, creatable req, storeAccepts env with
  | EncodeOk, true, true =>
      r = RJson 201 (createdJson env q)
      ∧ db w' = <[c := q]> (db w)
      ∧ qrCodePath q = path ∧ path ∈ fs w'
  | _, _, _ =>
      (∃ e, r = RFailed e) ∧ db w' = db w ∧ path ∉ fs w'
  end.
Proof.
  intros Ht Hlen Hfirst path q.
  rewrite (createQR_run env req w c Ht Hlen Hfirst). cbv zeta. fold path. fold q.
  assert (G1 : path ∈ {[path]} ∪ fs w).
  { apply elem_of_union. left. apply elem_of_singleton. reflexivity. }
  assert (G2 : path ∉ fs w ∖ {[path]}).
  { rewrite elem_of_difference, elem_of_singleton. tauto. }
  destruct (encoder env) as [|partialFile].
  - destruct (creatable req).
    + destruct (storeAccepts env); cbn [db fs set_db set_fs].
      * repeat split. exact G1.
      * split; [eauto|]. split; [reflexivity|exact G2].
    + cbn [db fs set_db set_fs]. split; [eauto|]. split; [reflexivity|exact G2].
  - cbn [db fs set_db set_fs]. split; [eauto|]. split; [reflexivity|exact G2].
Qed.

(** ** Computations that leave the world alone *)

Lemma pure_ret {A} (a : A) : pure (mret a).
Proof. intros w. reflexivity. Qed.

Lemma pure_throw {A} e : pure (@throw A e).
Proof. intros w. reflexivity. Qed.

Lemma pure_bind {A B} (m : M A) (f : A → M B) :
  pure m → (∀ a, pure (f a)) → pure (m ≫= f).
Proof.
  intros Hm Hf w. unfold_M. specialize (Hm w).
  destruct (m w) as [w' [e|a]]; cbn in *; subst; [reflexivity|apply Hf].
Qed.

Lemma pure_when b (m : M unit) : pure m → pure (when b m).
Proof. intros H. destruct b; [exact H|apply pure_ret]. Qed.

Lemma pure_findOne i : pure (findOne i).
Proof. intros w. reflexivity. Qed.

Lemma pure_findOneActive i : pure (findOneActive i).
Proof. intros w. reflexivity. Qed.

Lemma pure_getWorld : pure getWorld.
Proof. intros w. reflexivity. Qed.

Lemma pure_catchAsync (m : M Response) w : pure m → fst (catchAsync m w) = w.
Proof.
  intros H. unfold catchAsync. specialize (H w).
  destruct (m w) as [w' [e|r]]; exact H.
Qed.

Ltac pure_step :=
  first
    [ apply pure_bind; [|intros ?]
    | apply pure_ret | apply pure_throw | apply pure_when
    | apply pure_findOne | apply pure_findOneActive | apply pure_getWorld
    | progress cbv zeta
    | match goal with
      | |- pure (if ?b then _ else _) => destruct b
      | |- pure (match ?o with _ => _ end) => destruct o
      end ].

Ltac pure_tac := repeat pure_step.

Lemma pure_validateRequiredField f v : pure (validateRequiredField f v).
Proof. unfold validateRequiredField. pure_tac. Qed.

Lemma pure_validateContentType t : pure (validateContentType t).
Proof. unfold validateContentType. pure_tac. Qed.

Lemma pure_validateUrl env u : pure (validateUrl env u).
Proof. unfold validateUrl. pure_tac. Qed.

Lemma pure_validatePhone p : pure (validatePhone p).
Proof. unfold validatePhone. pure_tac. Qed.

Lemma pure_validateEmail e : pure (validateEmail e).
Proof. unfold validateEmail. pure_tac. Qed.

Lemma pure_prepareContent env req t c : pure (prepareContent env req t c).
Proof.
  unfold prepareContent, textCase, linkCase, fileCase, contactCase.
  pure_tac; first [apply pure_validateUrl | apply pure_validatePhone
                  | apply pure_validateEmail].
Qed.

Lemma pure_previewPage q : pure (previewPage q).
Proof. unfold previewPage. pure_tac. Qed.

Lemma pure_contentInfo env c : pure (contentInfo env c).
Proof. unfold contentInfo. pure_tac. Qed.

Lemma pure_handleFileServing q c : pure (handleFileServing q c).
Proof. unfold handleFileServing. pure_tac. Qed.

Lemma pure_handleContactDisplay env q c req :
  pure (handleContactDisplay env q c req).
Proof. unfold handleContactDisplay. pure_tac. Qed.

(** ** The update engine, step by step *)

Lemma set_fs_same w : set_fs (fs w) w = w.
Proof. destruct w; reflexivity. Qed.

Lemma deleteFile_run (p : string) w :
  p ≠ "" →
  ∃ b, deleteFile (Some p) w = (set_fs (fs w ∖ {[p]}) w, inr b).
Proof.
  intros Hp. unfold deleteFile, JS.truthy, unlinkIfExists.
  destruct (String.eqb_spec p "") as [->|_]; [congruence|]. cbn [negb].
  case_decide as Hin.
  - eexists; reflexivity.
  - exists false. f_equal.
    replace (fs w ∖ {[p]}) with (fs w); [symmetry; apply set_fs_same|].
    apply leibniz_equiv. intros x. rewrite elem_of_difference, elem_of_singleton.
    split; [intros Hx|intros [Hx _]; exact Hx].
    split; [exact Hx|intros ->; contradiction].
Qed.

Lemma truthy_Some o :
  JS.truthy o = true → ∃ s, o = Some s ∧ s ≠ "".
Proof.
  destruct o as [s|]; [|discriminate]. cbn.
  destruct (String.eqb_spec s ""); [discriminate|]. eauto.
Qed.

Lemma truthy_intro s : s ≠ "" → JS.truthy (Some s) = true.
Proof. intros H. cbn. destruct (String.eqb_spec s ""); [contradiction|reflexivity]. Qed.

(** What [updateQRContent] does to a stored record once the content type
    has passed [validateContentType]: archive, remove the old file,
    validate the fields, save. *)
Lemma addToHistory_modified env c filled qr :
  set_currentContent filled (addToHistory env c qr) ≠ qr.
Proof.
  intros E. apply (f_equal (λ q, length (contentHistory q))) in E.
  cbn in E. rewrite length_app in E. cbn in E. lia.
Qed.

Lemma update_run env req w qr ct :
  db w !! u_id req = Some qr →
  u_contentType req = Some ct → ct ≠ "" → ct ∈ allowedTypes →
  let qr1 := addToHistory env (currentContent qr) qr in
  let w1 := afterCleanup qr req w in
  updateQRContent env req w =
    match snd (prepareContent env req ct
                 (emptyContent ct (Some (default "" (u_description req))) (now env))
                 w1) with
    | inl e => (w1, RFailed e)
    | inr filled =>
        match stage env None (set_currentContent filled qr1) with
        | inl e => (w1, RFailed e)
        | inr staged =>
            if storeAccepts env
            then (set_db (<[id staged := touched env staged]> (db w1)) w1,
                  RJson 200 (updatedJson (touched env staged)))
            else (w1, RFailed StoreErr)
        end
    end.
Proof.
  intros Hdb Hct Hne Hin qr1 w1.
  unfold updateQRContent, updateQRContent_body, findOne.
  unfold_M. rewrite Hdb.
  unfold validateRequiredField, validateContentType. rewrite Hct.
  rewrite (truthy_intro ct Hne). change (default "" (Some ct)) with ct.
  rewrite bool_decide_eq_true_2 by exact Hin.
  unfold_M.
  change (replacesFile (addToHistory env (currentContent qr) qr) req)
    with (replacesFile qr req).
  change (currentContent (addToHistory env (currentContent qr) qr))
    with (currentContent qr).
  assert (Hw1 : ∃ u,
    (if replacesFile qr req
     then λ w0, let (w', s) := deleteFile (filePath (currentContent qr)) w0 in
                match s with inl e => (w', inl e) | inr _ => (w', inr ()) end
     else λ w0, (w0, inr ())) w = (w1, inr u)).
  { unfold w1, afterCleanup. destruct (replacesFile qr req) eqn:Hr; [|eauto].
    unfold replacesFile in Hr.
    apply andb_true_iff in Hr as [Hr _]. apply andb_true_iff in Hr as [_ Hr].
    destruct (truthy_Some _ Hr) as (p & Hp & Hpne). rewrite Hp.
    change (default "" (Some p)) with p.
    destruct (deleteFile_run p w Hpne) as [b ->]. eauto. }
  destruct Hw1 as [u Hw1]. unfold M in *. rewrite Hw1.
  pose proof (pure_prepareContent env req ct
    (emptyContent ct (Some (default "" (u_description req))) (now env)) w1) as Hpure.
  destruct (prepareContent env req ct _ w1) as [w2 [e|filled]]; cbn in Hpure; subst w2;
    cbn [snd]; [reflexivity|].
  unfold save. fold qr1.
  destruct (stage env None (set_currentContent filled qr1)) as [e|staged]; [reflexivity|].
  unfold_M. cbn [duplicateKey]. rewrite orb_false_r.
  rewrite (timestamps_modified env qr (set_currentContent filled qr1) staged)
    by apply addToHistory_modified.
  destruct (storeAccepts env); reflexivity.
Qed.

Lemma allowed_nonempty ct : ct ∈ allowedTypes → ct ≠ "".
Proof.
  unfold allowedTypes. intros H ->.
  repeat (apply elem_of_cons in H as [H|H]; [discriminate|]).
  apply elem_of_nil in H. exact H.
Qed.

Lemma update_unknown env req w :
  db w !! u_id req = None →
  updateQRContent env req w = (w, RFailed (AppErr 404 "QR topilmadi")).
Proof.
  intros H. unfold updateQRContent, updateQRContent_body, findOne. unfold_M.
  rewrite H. reflexivity.
Qed.

Lemma update_bad_type env req w qr :
  db w !! u_id req = Some qr →
  (∀ ct, u_contentType req = Some ct → ct ∉ allowedTypes) →
  ∃ msg, updateQRContent env req w = (w, RFailed (AppErr 400 msg)).
Proof.
  intros Hdb Hbad. unfold updateQRContent, updateQRContent_body, findOne. unfold_M.
  rewrite Hdb. unfold validateRequiredField, validateContentType.
  destruct (JS.truthy (u_contentType req)) eqn:Ht; [|eexists; reflexivity].
  destruct (truthy_Some _ Ht) as (ct & Hct & _). rewrite Hct.
  change (default "" (Some ct)) with ct.
  rewrite bool_decide_eq_false_2 by (apply Hbad; exact Hct).
  eexists; reflexivity.
Qed.

(** The request names a known content type, or it does not. *)
Lemma type_known_or_not req :
  (∃ ct, u_contentType req = Some ct ∧ ct ∈ allowedTypes)
  ∨ (∀ ct, u_contentType req = Some ct → ct ∉ allowedTypes).
Proof.
  destruct (u_contentType req) as [ct|].
  - destruct (decide (ct ∈ allowedTypes)) as [H|H]; [left; eauto|].
    right. intros ? [= <-]. exact H.
  - right. discriminate.
Qed.

Lemma afterCleanup_db qr req w : db (afterCleanup qr req w) = db w.
Proof. unfold afterCleanup. destruct (replacesFile qr req); reflexivity. Qed.

Lemma afterCleanup_analytics qr req w :
  analytics (afterCleanup qr req w) = analytics w.
Proof. unfold afterCleanup. destruct (replacesFile qr req); reflexivity. Qed.

Lemma refuses_ret {A} (a : A) : refuses (mret a).
Proof. intros w e [=]. Qed.

Lemma refuses_throw {A} code msg : refuses (@throw A (AppErr code msg)).
Proof. intros w e [= <-]. eauto. Qed.

Lemma refuses_bind {A B} (m : M A) (f : A → M B) :
  refuses m → (∀ a, refuses (f a)) → refuses (m ≫= f).
Proof.
  intros Hm Hf w e. unfold_M. specialize (Hm w).
  destruct (m w) as [w' [e'|a]]; cbn in *; [intros [= <-]; apply Hm; reflexivity|].
  apply Hf.
Qed.

Lemma refuses_when b (m : M unit) : refuses m → refuses (when b m).
Proof. intros H. destruct b; [exact H|apply refuses_ret]. Qed.

Ltac refuses_step :=
  first
    [ apply refuses_bind; [|intros ?]
    | apply refuses_ret | apply refuses_throw | apply refuses_when
    | progress cbv zeta
    | match goal with
      | |- refuses (if ?b then _ else _) => destruct b
      | |- refuses (match ?o with _ => _ end) => destruct o
      end ].

Lemma prepareContent_throws env req ct c w e :
  snd (prepareContent env req ct c w) = inl e → ∃ code msg, e = AppErr code msg.
Proof.
  revert w e. change (refuses (prepareContent env req ct c)).
  unfold prepareContent, textCase, linkCase, fileCase, contactCase,
    validateUrl, validatePhone, validateEmail.
  repeat refuses_step.
Qed.

(** ** The invariant of the collection *)

Lemma inv_db w w' : db w' = db w → inv w → inv w'.
Proof.
  intros E (Hb & Hw & Hk).
  split; [|split]; intros i q; rewrite E; [apply Hb|apply Hw|apply Hk].
Qed.

Lemma inv_insert q w :
  conforms q → inv w →
  inv (set_db (<[id q := q]> (db w)) w).
Proof.
  intros Hc (Hb & Hw & Hk).
  split; [|split]; intros i r; cbn; rewrite lookup_insert; case_decide as E.
  - intros [= <-]. apply conforms_length, Hc.
  - apply Hb.
  - intros [= <-]. exact E.
  - apply Hw.
  - intros [= <-]. exact Hc.
  - apply Hk.
Qed.

Lemma keeps_pure {A} (m : M A) : pure m → keeps m.
Proof. intros H w Hi. rewrite H. exact Hi. Qed.

Lemma keeps_bind {A B} (m : M A) (f : A → M B) :
  keeps m → (∀ a, keeps (f a)) → keeps (m ≫= f).
Proof.
  intros Hm Hf w Hi. unfold_M. specialize (Hm w Hi).
  destruct (m w) as [w' [e|a]]; cbn in *; [exact Hm|apply Hf, Hm].
Qed.

Lemma keeps_when b (m : M unit) : keeps m → keeps (when b m).
Proof. intros H. destruct b; [exact H|apply keeps_pure, pure_ret]. Qed.

Lemma keeps_modify_fs (f : gset string → gset string) :
  keeps (modifyWorld (λ w, set_fs (f (fs w)) w)).
Proof. intros w Hi. cbn. revert Hi. apply inv_db. reflexivity. Qed.

Lemma keeps_save env loaded q : keeps (save env None loaded q).
Proof.
  intros w Hi.
  destruct (save_cases env None loaded q w) as [(staged & Hst & _ & ->)|[e ->]];
    [|exact Hi].
  destruct (timestamps_fields env loaded q staged) as (c & u & -> & _).
  cbn [fst]. change (id staged) with (id (set_timestamps c u staged)).
  apply inv_insert; [|exact Hi]. apply (stage_inr _ _ _ _ Hst).
Qed.

(** A save of a document loaded with the selection of [quickRedirect]
    always fails. *)
Lemma pure_save_quick env loaded q : pure (save env quickSelection loaded q).
Proof.
  intros w. unfold save.
  destruct (stage_quickSelection env q) as (e & -> & _). reflexivity.
Qed.

Lemma keeps_unlinkIfExists p : keeps (unlinkIfExists p).
Proof.
  intros w Hi. unfold unlinkIfExists. case_decide; [|exact Hi].
  cbn. revert Hi. apply inv_db. reflexivity.
Qed.

Lemma keeps_deleteFile p : keeps (deleteFile p).
Proof.
  unfold deleteFile. destruct p as [path|]; [|apply keeps_pure, pure_ret].
  destruct (JS.truthy (Some path));
    [apply keeps_unlinkIfExists|apply keeps_pure, pure_ret].
Qed.

Lemma keeps_generateQRCode env i : keeps (generateQRCode env i).
Proof.
  unfold generateQRCode. destruct (encoder env) as [|partialFile].
  - apply keeps_bind; [|intros; apply keeps_pure, pure_ret].
    apply (keeps_modify_fs (λ s, {[qrPathOf env i]} ∪ s)).
  - apply keeps_bind; [|intros; apply keeps_pure, pure_throw].
    apply keeps_when. apply (keeps_modify_fs (λ s, {[qrPathOf env i]} ∪ s)).
Qed.

Lemma keeps_recordScanAnalytics env i t req :
  keeps (recordScanAnalytics env i t req).
Proof.
  unfold recordScanAnalytics. destruct (negb _); [apply keeps_pure, pure_ret|].
  intros w Hi. cbn. revert Hi. apply inv_db. reflexivity.
Qed.

Lemma keeps_tryCatchRethrow {A} (body : M A) (handler : M unit) :
  keeps body → keeps handler → keeps (tryCatchRethrow body handler).
Proof.
  intros Hb Hh w Hi. unfold tryCatchRethrow. specialize (Hb w Hi).
  destruct (body w) as [w' [e|a]]; cbn in *; [|exact Hb].
  specialize (Hh w' Hb). destruct (handler w') as [w'' [e'|u]]; exact Hh.
Qed.

Lemma keeps_catchAsync (m : M Response) w :
  keeps m → inv w → inv (fst (catchAsync m w)).
Proof.
  intros H Hi. unfold catchAsync. specialize (H w Hi).
  destruct (m w) as [w' [e|r]]; exact H.
Qed.

Lemma pure_allocLoop env fuel : ∀ st, pure (allocLoop fuel env st).
Proof.
  induction fuel as [|fuel IH]; intros st; cbn [allocLoop];
    destruct (allocCond st); try apply pure_ret.
  apply pure_bind; [|exact IH]. unfold allocBody. pure_tac.
Qed.

Ltac keeps_step :=
  first
    [ apply keeps_save | apply keeps_pure, pure_save_quick
    | apply keeps_deleteFile | apply keeps_unlinkIfExists
    | apply keeps_generateQRCode | apply keeps_recordScanAnalytics
    | apply keeps_tryCatchRethrow
    | apply keeps_pure;
      first [ apply pure_ret | apply pure_throw | apply pure_findOne
            | apply pure_findOneActive | apply pure_allocLoop
            | apply pure_validateRequiredField | apply pure_validateContentType
            | apply pure_prepareContent | apply pure_handleFileServing
            | apply pure_handleContactDisplay | apply pure_getWorld ]
    | apply keeps_when
    | apply keeps_bind; [|intros ?]
    | progress cbv zeta
    | match goal with
      | |- keeps (if ?b then _ else _) => destruct b
      | |- keeps (match ?o with _ => _ end) => destruct o
      end ].

Lemma keeps_createQR env req : keeps (createQR_body env req).
Proof. unfold createQR_body, deleteQRCode. repeat keeps_step. Qed.

Lemma keeps_updateQRContent env req : keeps (updateQRContent_body env req).
Proof. unfold updateQRContent_body. repeat keeps_step. Qed.

Lemma keeps_scanQR env req : keeps (scanQR_body env req).
Proof. unfold scanQR_body, incrementScan. repeat keeps_step. Qed.

Lemma keeps_quickRedirect env req : keeps (quickRedirect_body env req).
Proof. unfold quickRedirect_body, incrementScan. repeat keeps_step. Qed.

(** ** Histories stay bounded *)

Lemma inv_empty files : inv (emptyWorld files).
Proof. split; [|split]; intros i q; cbn; rewrite lookup_empty; discriminate. Qed.

Lemma inv_handle op w : inv w → inv (fst (handle op w)).
Proof.
  intros Hi. destruct op; cbn [handle].
  - apply keeps_catchAsync; [apply keeps_createQR|exact Hi].
  - apply keeps_catchAsync; [apply keeps_updateQRContent|exact Hi].
  - apply keeps_catchAsync; [apply keeps_scanQR|exact Hi].
  - apply keeps_catchAsync; [apply keeps_quickRedirect|exact Hi].
  - unfold previewQR. rewrite pure_catchAsync; [exact Hi|].
    unfold previewQR_body. pure_tac. apply pure_previewPage.
  - unfold getQRScanInfo. rewrite pure_catchAsync; [exact Hi|].
    unfold getQRScanInfo_body. pure_tac. apply pure_contentInfo.
Qed.

(** An update that is answered with status 200 had a known content type. *)
Lemma update_accepted_type env req w w' qr body :
  db w !! u_id req = Some qr →
  updateQRContent env req w = (w', RJson 200 body) →
  ∃ ct, u_contentType req = Some ct ∧ ct ≠ "" ∧ ct ∈ allowedTypes.
Proof.
  intros Hdb. unfold updateQRContent, updateQRContent_body, findOne.
  unfold_M. rewrite Hdb. unfold validateRequiredField, validateContentType.
  destruct (JS.truthy (u_contentType req)) eqn:Ht; [|discriminate].
  destruct (truthy_Some _ Ht) as (ct & -> & Hne).
  change (default "" (Some ct)) with ct.
  destruct (bool_decide (ct ∈ allowedTypes)) eqn:Hin; [|discriminate].
  intros _. exists ct. apply bool_decide_eq_true_1 in Hin. auto.
Qed.

Lemma full_history_errors q :
  (50 < length (contentHistory q))%nat → "contentHistory" ∈ schemaErrors None q.
Proof.
  intros H. unfold schemaErrors. cbn [selected andb].
  do 4 (apply elem_of_app; right). apply elem_of_app. left.
  unfold contentHistoryValid.
  destruct (Nat.leb_spec (length (contentHistory q)) 50); [lia|].
  apply elem_of_cons. left. reflexivity.
Qed.

(** C3, as the code has it. The validator of [contentHistory] refuses
    more than fifty entries and the hook would cut them down to the last
    fifty, but the library validates before it calls the hook: once a
    record has fifty entries every content update is refused, by the
    controller for its fields or else by the validator of
    [contentHistory], and the collection stays as it was, the oldest
    entry included.  Only if the hook ran first would an accepted update
    drop the oldest entry and keep the fifty newest. *)
Theorem full_history_refuses_every_update env req w qr :
  stored w (u_id req) qr →
  length (contentHistory qr) = 50%nat →
  let '(w', r) := updateQRContent env req w in
  (validateFirst env = true →
     db w' = db w
     ∧ ∃ e, r = RFailed e
            ∧ ((∃ code msg, e = AppErr code msg)
               ∨ ∃ paths, e = SchemaValidationErr paths ∧ "contentHistory" ∈ paths))
  ∧ (validateFirst env = false →
     ∀ body, r = RJson 200 body →
       ∃ q', db w' !! u_id req = Some q'
             ∧ contentHistory q'
               = drop 1 (contentHistory qr) ++ [archived env (currentContent qr)]
             ∧ length (contentHistory q') = 50%nat).
Proof.
  intros [Hdb Hid] Hlen.
  destruct (type_known_or_not req) as [(ct & Hct & Hin)|Hbad].
  2:{ destruct (update_bad_type env req w qr Hdb Hbad) as [msg ->].
      split; [intros _; split; [reflexivity|]; eauto 8|discriminate]. }
  rewrite (update_run env req w qr ct Hdb Hct (allowed_nonempty ct Hin) Hin).
  cbv zeta.
  destruct (snd (prepareContent _ _ _ _ _)) as [e|filled] eqn:Hprep.
  { apply prepareContent_throws in Hprep as (code & msg & ->).
    split; [intros _; split; [apply afterCleanup_db|]; eauto 8|discriminate]. }
  set (q1 := set_currentContent filled (addToHistory env (currentContent qr) qr)).
  assert (H51 : length (contentHistory q1) = 51%nat).
  { unfold q1. cbn. rewrite length_app, Hlen. reflexivity. }
  destruct (validateFirst env) eqn:Hv.
  - unfold stage. rewrite Hv.
    pose proof (full_history_errors q1 ltac:(lia)) as Hin'.
    unfold validate. destruct (schemaErrors None q1) as [|p ps] eqn:He.
    { apply elem_of_nil in Hin' as []. }
    split; [intros _|discriminate].
    split; [apply afterCleanup_db|]. eexists. split; [reflexivity|].
    right. eexists. split; [reflexivity|exact Hin'].
  - rewrite (stage_hook_first env q1 Hv).
    destruct (validate None (preSave q1)) as [e|staged] eqn:Hval;
      [split; discriminate|].
    apply validate_inr in Hval as [-> _].
    destruct (storeAccepts env); [|split; discriminate].
    split; [discriminate|].
    intros _ body _. exists (touched env (preSave q1)). cbn [db set_db].
    rewrite preSave_id. change (id q1) with (id qr). rewrite Hid, lookup_insert_eq.
    split; [reflexivity|].
    assert (Hh : contentHistory (touched env (preSave q1))
                 = drop 1 (contentHistory qr) ++ [archived env (currentContent qr)]).
    { change (contentHistory (touched env (preSave q1)))
        with (contentHistory (preSave q1)).
      rewrite preSave_history, H51. unfold q1. cbn [contentHistory set_currentContent
        addToHistory set_contentHistory].
      change (51 - 50)%nat with 1%nat. rewrite drop_app_le by lia. reflexivity. }
    split; [exact Hh|]. rewrite Hh, length_app, length_drop, Hlen. reflexivity.
Qed.

(** ** The update engine and the blob it replaces *)


(** C1, as the code has it. When the stored content is a file with a
    path and the request names a known content type and carries an
    upload, [updateQRContent] removes the old file right after archiving
    the old content, before it validates the fields and before it
    saves: the old file is gone afterwards whatever the outcome, and
    when the update is not answered with status 200 the stored record is
    the one from before, which still names the removed file. *)
Theorem old_blob_deleted_before_commit env req w qr ct p :
  stored w (u_id req) qr →
  u_contentType req = Some ct → ct ∈ allowedTypes →
  ctype (currentContent qr) = "file" →
  filePath (currentContent qr) = Some p → p ≠ "" →
  is_Some (u_file req) →
  let '(w', r) := updateQRContent env req w in
  fs w' = (fs w ∖ {[p]}) ∧ (p ∉ fs w')
  ∧ ((∀ body, r ≠ RJson 200 body) → db w' = db w ∧ stored w' (u_id req) qr).
Proof.
  intros [Hdb Hid] Hct Hin Hty Hp Hpne Hfile.
  rewrite (update_run env req w qr ct Hdb Hct (allowed_nonempty ct Hin) Hin).
  cbv zeta.
  assert (Hr : replacesFile qr req = true).
  { unfold replacesFile. rewrite Hty, Hp, (truthy_intro p Hpne).
    rewrite bool_decide_eq_true_2 by exact Hfile. reflexivity. }
  assert (Hw1 : afterCleanup qr req w = set_fs (fs w ∖ {[p]}) w).
  { unfold afterCleanup. rewrite Hr, Hp. reflexivity. }
  rewrite Hw1.
  assert (Hgone : p ∉ fs w ∖ {[p]}).
  { intros [_ Hn]%elem_of_difference. apply Hn, elem_of_singleton. reflexivity. }
  destruct (snd (prepareContent _ _ _ _ _)) as [e|filled].
  { cbn. repeat split; auto. }
  destruct (stage env None _) as [e|staged].
  { cbn. repeat split; auto. }
  destruct (storeAccepts env).
  - cbn. repeat split; auto; exfalso; eapply H; reflexivity.
  - cbn. repeat split; auto.
Qed.

(** ** The password gate *)

(** C2. When the record's password is set and the request brings no
    password, another string, or a value that is not a string, [scanQR]
    leaves the world as it was (no count, no scan date, no analytics
    record), and for an active record its answer is the password form. *)
Theorem password_gate_before_counting env req w qr pw :
  stored w (s_id req) qr →
  password (settings qr) = Some pw → pw ≠ "" →
  q_password req ≠ QStr pw →
  fst (scanQR env req w) = w
  ∧ (isActive qr = true →
     scanQR env req w
     = (w, RHtml 200 "Parol Kerak" (PgPasswordForm (title qr) (scanCount qr)))).
Proof.
  intros [Hdb _] Hpw Hne Hq.
  assert (Hc : checkQRPassword qr (q_password req) = false).
  { unfold checkQRPassword. rewrite Hpw, (truthy_intro pw Hne). cbn.
    destruct (q_password req) as [|s|]; try reflexivity.
    cbn. destruct (String.eqb_spec s pw) as [->|]; [contradiction|reflexivity]. }
  unfold scanQR, scanQR_body, findOneActive. unfold_M. rewrite Hdb.
  destruct (isActive qr).
  - rewrite Hc. split; reflexivity.
  - split; [reflexivity|discriminate].
Qed.

(** ** Preview *)

(** C4. [previewQR] never changes the world, however often it runs:
    the counters, the scan date and the history of every record are
    afterwards what they were, and a second preview answers as the
    first. *)
Theorem preview_is_pure_read i w n :
  Nat.iter n (λ v, fst (previewQR i v)) w = w
  ∧ previewQR i (fst (previewQR i w)) = previewQR i w
  ∧ ∀ q, db w !! i = Some q →
      db (Nat.iter n (λ v, fst (previewQR i v)) w) !! i = Some q.
Proof.
  assert (P : ∀ v, fst (previewQR i v) = v).
  { intros v. unfold previewQR. apply pure_catchAsync.
    unfold previewQR_body. pure_tac. apply pure_previewPage. }
  assert (I : Nat.iter n (λ v, fst (previewQR i v)) w = w).
  { induction n as [|n IH]; [reflexivity|]. rewrite Nat.iter_succ, IH. apply P. }
  split; [exact I|]. split; [rewrite P; reflexivity|].
  intros q Hq. rewrite I. exact Hq.
Qed.

(** ** Text content *)

Lemma textCase_run req c w :
  let t := default "" (u_text req) in
  textCase req c w =
    if textAccepted t then (w, inr (with_text (JS.trim t) c))
    else (w, inl (AppErr 400
                    (if Nat.eqb (String.length (JS.trim t)) 0
                     then "Text content bo'sh bo'lishi mumkin emas!"
                     else "Text 5000 belgidan oshmasligi kerak!"))).
Proof.
  intros t. unfold textCase, textAccepted. fold t.
  assert (Hempty : JS.truthy (u_text req) = false →
                   String.length (JS.trim t) = 0%nat).
  { unfold t. destruct (u_text req) as [s|]; cbn; [|reflexivity].
    destruct (String.eqb_spec s "") as [->|]; [reflexivity|discriminate]. }
  unfold_M.
  destruct (String.length (JS.trim t)) as [|k] eqn:Hk.
  - rewrite orb_true_r. reflexivity.
  - destruct (JS.truthy (u_text req)); [|specialize (Hempty eq_refl); discriminate].
    cbn [negb orb Nat.eqb Nat.leb andb].
    destruct (Nat.ltb_spec 5000 (String.length t)) as [H|H];
      destruct (Nat.leb_spec (String.length t) 5000) as [H'|H']; try lia;
      reflexivity.
Qed.

Lemma text_content_errors t d now :
  (String.length t ≤ 5000)%nat → (String.length d ≤ 1000)%nat →
  contentErrors (with_text t (emptyContent "text" (Some d) now)) = [].
Proof.
  intros Ht Hd. unfold contentErrors.
  cbn [with_text emptyContent ctype text url linkTitle contactName phone email
       company description withinLength].
  apply Nat.leb_le in Ht, Hd. rewrite Ht, Hd. reflexivity.
Qed.

(** C5, as the code has it. For a stored record, a [text] update is
    refused with status 400 exactly when the text is empty after trimming
    or has more than 5000 characters before trimming; when the store takes
    the write, the stored record satisfies its schema with room in its
    history, and the description of the request has at most 1000
    characters, it is answered with status 200 exactly in the other
    case; and the text an accepted update stores is the trimmed one. *)
Theorem text_update_accepted_iff env req w qr :
  stored w (u_id req) qr →
  u_contentType req = Some "text" →
  let t := default "" (u_text req) in
  let '(w', r) := updateQRContent env req w in
  ((∃ msg, r = RFailed (AppErr 400 msg))
     ↔ ¬ ((1 ≤ String.length (JS.trim t))%nat ∧ (String.length t ≤ 5000)%nat))
  ∧ (storeAccepts env = true → conforms qr →
     (length (contentHistory qr) < 50)%nat →
     (String.length (default "" (u_description req)) ≤ 1000)%nat →
     ((∃ body, r = RJson 200 body)
        ↔ ((1 ≤ String.length (JS.trim t))%nat ∧ (String.length t ≤ 5000)%nat)))
  ∧ (∀ body, r = RJson 200 body →
       ∃ q', db w' !! u_id req = Some q'
             ∧ ctype (currentContent q') = "text"
             ∧ text (currentContent q') = Some (JS.trim t)).
Proof.
  intros [Hdb Hid] Hct t.
  assert (Hin : "text" ∈ allowedTypes) by (apply elem_of_cons; left; reflexivity).
  rewrite (update_run env req w qr "text" Hdb Hct (allowed_nonempty _ Hin) Hin).
  cbv zeta. unfold prepareContent. cbn [String.eqb Ascii.eqb Bool.eqb].
  rewrite textCase_run. fold t. cbv zeta.
  assert (Hok : textAccepted t = true
                ↔ (1 ≤ String.length (JS.trim t))%nat ∧ (String.length t ≤ 5000)%nat).
  { unfold textAccepted. rewrite andb_true_iff, !Nat.leb_le. reflexivity. }
  destruct (textAccepted t) eqn:Hacc; cbn [snd].
  - destruct Hok as [Hok _]. specialize (Hok eq_refl).
    destruct (stage env None _) as [e|staged] eqn:Hst.
    + destruct (stage_inl _ _ _ Hst) as [paths ->].
      split; [split; [intros [msg [=]]|tauto]|].
      split; [|intros body [=]].
      intros _ Hc Hroom Hd. exfalso.
      rewrite stage_conforms in Hst; [discriminate|].
      apply update_conforms; [exact Hc|exact Hroom|].
      apply text_content_errors; [|exact Hd].
      pose proof (trim_length t). lia.
    + apply stage_inr in Hst as [Hq' _].
      destruct (storeAccepts env).
      * split; [split; [intros [msg [=]]|tauto]|].
        split; [intros _ _ _ _; split; eauto|].
        intros body _. exists (touched env staged). cbn [db set_db].
        assert (Hk : id staged = u_id req) by (rewrite Hq', preSave_id; exact Hid).
        rewrite Hk, lookup_insert_eq.
        change (currentContent (touched env staged)) with (currentContent staged).
        rewrite Hq', preSave_content. auto.
      * split; [split; [intros [msg [=]]|tauto]|].
        split; [discriminate|]. intros body [=].
  - assert (Hno : ¬ ((1 ≤ String.length (JS.trim t))%nat
                     ∧ (String.length t ≤ 5000)%nat)).
    { intros H. apply Hok in H. discriminate. }
    split; [split; [intros _; exact Hno|intros _; eauto]|].
    split; [|intros body [=]].
    intros _ _ _ _. split; [intros [body [=]]|intros H; contradiction].
Qed.

(** ** Serving a file *)

Lemma prefix_app p : ∀ s, String.prefix p s = true ↔ ∃ r, s = p +:+ r.
Proof.
  induction p as [|a p IH]; intros s.
  - destruct s; cbn; split; eauto.
  - destruct s as [|b s]; cbn.
    + split; [discriminate|intros [r [=]]].
    + destruct (ascii_dec a b) as [->|Hne].
      * rewrite IH. split; intros [r Hr]; exists r; [rewrite Hr; reflexivity|].
        injection Hr as ->. reflexivity.
      * split; [discriminate|]. intros [r [= E _]]. congruence.
Qed.

Lemma isViewable_family m : isViewable m = true ↔ viewableFamily m.
Proof.
  unfold isViewable, viewableFamily, JS.startsWith.
  rewrite !orb_true_iff, !prefix_app, String.eqb_eq. tauto.
Qed.

Lemma set_scan_modified t q : set_scan (scanCount q + 1) t q ≠ q.
Proof.
  intros E. apply (f_equal scanCount) in E. cbn in E. lia.
Qed.

Lemma incrementScan_run env qr w :
  storeAccepts env = true → conforms qr →
  incrementScan env None qr w
  = (set_db (<[id qr := counted env qr]> (db w)) w, inr (counted env qr)).
Proof.
  intros Hs Hc. unfold incrementScan. rewrite save_ok by assumption.
  rewrite timestamps_modified by apply set_scan_modified. reflexivity.
Qed.

(** C7. A counted scan of a record whose content is a file (with its
    mime type and size) counts the scan and then either streams the file,
    shown in place exactly for the image, PDF, text, video and audio
    types and offered as a download otherwise, or, when the record names
    no file or the file does not exist, answers with the missing-file
    page, which is not the page of a missing record. *)
Theorem file_scan_streams_or_reports_missing_blob env req w qr m size :
  stored w (s_id req) qr → isActive qr = true →
  checkQRPassword qr (q_password req) = true →
  storeAccepts env = true → conforms qr →
  ctype (currentContent qr) = "file" →
  mimeType (currentContent qr) = Some m →
  fileSize (currentContent qr) = Some size →
  let '(w', r) := scanQR env req w in
  db w' = <[s_id req := counted env qr]> (db w)
  ∧ (if blobPresent w (currentContent qr)
     then ∃ disposition,
            r = RStream (default "" (filePath (currentContent qr))) m size
                  disposition (originalName (currentContent qr))
            ∧ (disposition = "inline" ↔ viewableFamily m)
            ∧ (disposition = "attachment" ↔ ¬ viewableFamily m)
     else r = RHtml 404 "Fayl Topilmadi" (PgFileMissing (title qr) (scanCount qr + 1))
          ∧ r ≠ RHtml 404 "QR Topilmadi" (PgQRNotFound (s_id req))).
Proof.
  intros [Hdb Hid] Hact Hpw Hs Hl Hty Hm Hsz.
  unfold scanQR, scanQR_body, findOneActive. unfold_M.
  rewrite Hdb, Hact, Hpw. cbn [negb].
  rewrite incrementScan_run by assumption.
  set (qr' := counted env qr).
  set (w1 := set_db _ w).
  assert (Hfs : ∀ t, fs (fst (recordScanAnalytics env (id qr') t req w1)) = fs w
                     ∧ db (fst (recordScanAnalytics env (id qr') t req w1)) = db w1
                     ∧ ∃ u, snd (recordScanAnalytics env (id qr') t req w1) = inr u).
  { intros t. unfold recordScanAnalytics. destruct (negb _); cbn; eauto. }
  destruct (Hfs (seenTracking None qr')) as (Hf & Hd & u & Hu).
  destruct (recordScanAnalytics env (id qr') _ req w1) as [w2 s]; cbn in Hf, Hd, Hu.
  subst s. change (currentContent qr') with (currentContent qr).
  rewrite Hty. cbn [String.eqb Ascii.eqb Bool.eqb].
  unfold handleFileServing. unfold_M. rewrite Hf, Hm, Hsz.
  fold (blobPresent w (currentContent qr)).
  rewrite <- negb_andb. fold (blobPresent w (currentContent qr)).
  assert (Hdb2 : db w2 = <[s_id req := qr']> (db w)).
  { rewrite Hd. unfold w1. cbn. rewrite Hid. reflexivity. }
  destruct (blobPresent w (currentContent qr)); cbn [negb];
    (split; [exact Hdb2|]).
  - eexists. split; [reflexivity|].
    destruct (isViewable m) eqn:Hv.
    + apply isViewable_family in Hv. split; [tauto|]. split; [discriminate|tauto].
    + assert (¬ viewableFamily m).
      { intros H. apply isViewable_family in H. congruence. }
      split; [|tauto]. split; [discriminate|tauto].
  - split; [reflexivity|discriminate].
Qed.

(** ** The short redirect *)

(** C9, as the code has it. [quickRedirect] never looks at the record's
    password or at a password in the request, and for a content that is
    not a link it redirects to the scan page and changes nothing.  For
    a link it calls [incrementScan] on the document its query loaded,
    with the paths [id], [currentContent] and [scanCount] only: the
    hook of [save] reads the length of a history that is not there, the
    save fails, and the request ends in an error with nothing counted
    and no redirect. *)
Theorem quick_redirect_link_fails_before_counting env req w :
  fst (quickRedirect env req w) = w
  ∧ ∀ qr, stored w (s_id req) qr → isActive qr = true →
      if String.eqb (ctype (currentContent qr)) "link"
      then ∃ e, snd (quickRedirect env req w) = RFailed e
                ∧ (e = OtherErr "Cannot read properties of undefined (reading 'length')"
                   ∨ ∃ paths, e = SchemaValidationErr paths)
                ∧ (conforms qr →
                   e = OtherErr "Cannot read properties of undefined (reading 'length')")
      else snd (quickRedirect env req w) = RRedirect (Some ("/scan/" +:+ s_id req)).
Proof.
  assert (G : ∀ qr, db w !! s_id req = Some qr → isActive qr = true →
    quickRedirect env req w
    = if String.eqb (ctype (currentContent qr)) "link"
      then match stage env quickSelection
                   (set_scan (scanCount qr + 1) (Some (now env)) qr) with
           | inl e => (w, RFailed e)
           | inr _ => quickRedirect env req w
           end
      else (w, RRedirect (Some ("/scan/" +:+ s_id req)))).
  { intros qr Hdb Hact.
    unfold quickRedirect, quickRedirect_body, findOneActive. unfold_M.
    rewrite Hdb, Hact.
    destruct (String.eqb (ctype (currentContent qr)) "link"); [|reflexivity].
    unfold incrementScan, save.
    destruct (stage_quickSelection env (set_scan (scanCount qr + 1) (Some (now env)) qr))
      as (e & -> & _). reflexivity. }
  split.
  - destruct (db w !! s_id req) as [qr|] eqn:Hdb.
    + destruct (isActive qr) eqn:Hact.
      * rewrite (G qr eq_refl Hact).
        destruct (String.eqb (ctype (currentContent qr)) "link"); [|reflexivity].
        destruct (stage_quickSelection env
                    (set_scan (scanCount qr + 1) (Some (now env)) qr)) as (e & -> & _).
        reflexivity.
      * unfold quickRedirect, quickRedirect_body, findOneActive. unfold_M.
        rewrite Hdb, Hact. reflexivity.
    + unfold quickRedirect, quickRedirect_body, findOneActive. unfold_M.
      rewrite Hdb. reflexivity.
  - intros qr [Hdb _] Hact. rewrite (G qr Hdb Hact).
    destruct (String.eqb (ctype (currentContent qr)) "link"); [|reflexivity].
    destruct (stage_quickSelection env
                (set_scan (scanCount qr + 1) (Some (now env)) qr)) as (e & -> & Hor & Hc).
    exists e. split; [reflexivity|]. split; [exact Hor|]. exact Hc.
Qed.

(** ** Public information about a protected record *)

(** C10, as the code has it. For an active record with a password, the
    answer of [getQRScanInfo] is made of the id, the title, the content
    type, the scan count, the creation date, the flag and one fixed
    notice under [description]: two protected records that agree on
    those five fields get the same answer, whatever their content, their
    last scan date and their password. *)
Theorem protected_info_shows_no_content env i w qr :
  stored w i qr → isActive qr = true →
  JS.truthy (password (settings qr)) = true →
  getQRScanInfo env i w
  = (w, RJson 200
          [ ("success", JBool true);
            ("qr", JObj [ ("id", JStr i);
                          ("title", JStr (title qr));
                          ("contentType", JStr (ctype (currentContent qr)));
                          ("scanCount", JNum (scanCount qr));
                          ("createdDate", JDate (createdDate qr));
                          ("isPasswordProtected", JBool true);
                          ("description", JStr "Bu QR code parol bilan himoyalangan") ]) ])
  ∧ ∀ env2 w2 qr2,
      stored w2 i qr2 → isActive qr2 = true →
      JS.truthy (password (settings qr2)) = true →
      title qr2 = title qr →
      ctype (currentContent qr2) = ctype (currentContent qr) →
      scanCount qr2 = scanCount qr → createdDate qr2 = createdDate qr →
      snd (getQRScanInfo env2 i w2) = snd (getQRScanInfo env i w).
Proof.
  intros Hst Hact Hpw.
  assert (G : ∀ e v q, stored v i q → isActive q = true →
                JS.truthy (password (settings q)) = true →
                getQRScanInfo e i v
                = (v, RJson 200 [ ("success", JBool true);
                                  ("qr", JObj (protectedInfo q)) ])).
  { intros e v q [Hdb _] Ha Hp.
    unfold getQRScanInfo, getQRScanInfo_body, findOneActive. unfold_M.
    rewrite Hdb, Ha, Hp. reflexivity. }
  split.
  - rewrite (G env w qr Hst Hact Hpw). unfold protectedInfo.
    destruct Hst as [_ ->]. reflexivity.
  - intros env2 w2 qr2 Hst2 Hact2 Hpw2 Ht Hc Hn Hd.
    rewrite (G env w qr Hst Hact Hpw), (G env2 w2 qr2 Hst2 Hact2 Hpw2).
    unfold protectedInfo. cbn [snd].
    destruct Hst as [_ ->]. destruct Hst2 as [_ ->].
    rewrite Ht, Hc, Hn, Hd. reflexivity.
Qed.

(** ** Further properties of the update engine *)

Lemma afterCleanup_no_upload qr req w :
  u_file req = None → afterCleanup qr req w = w.
Proof.
  intros H. unfold afterCleanup, replacesFile. rewrite H.
  rewrite bool_decide_eq_false_2 by (intros [x [=]]).
  rewrite andb_false_r. reflexivity.
Qed.

(** X1. An update that is not answered with status 200 stores nothing:
    the collection and the analytics log are what they were, whatever
    made it fail (unknown id, unknown type, a field that does not
    validate, a full history, a store that refuses). *)
Theorem update_refused_stores_nothing env req w :
  let '(w', r) := updateQRContent env req w in
  (∀ body, r ≠ RJson 200 body) →
  db w' = db w ∧ analytics w' = analytics w.
Proof.
  destruct (db w !! u_id req) as [qr|] eqn:Hdb.
  2:{ rewrite update_unknown by exact Hdb. auto. }
  destruct (type_known_or_not req) as [(ct & Hct & Hin)|Hbad].
  2:{ destruct (update_bad_type env req w qr Hdb Hbad) as [msg ->]. auto. }
  rewrite (update_run env req w qr ct Hdb Hct (allowed_nonempty ct Hin) Hin).
  cbv zeta.
  destruct (snd (prepareContent _ _ _ _ _)) as [e|filled].
  { intros _. split; [apply afterCleanup_db|apply afterCleanup_analytics]. }
  destruct (stage env None _) as [e|staged].
  { intros _. split; [apply afterCleanup_db|apply afterCleanup_analytics]. }
  destruct (storeAccepts env).
  - intros H. exfalso. eapply H. reflexivity.
  - intros _. split; [apply afterCleanup_db|apply afterCleanup_analytics].
Qed.

(** X2. Without an upload [updateQRContent] never touches the file
    system: in particular, replacing a file content by a text, a link, a
    contact or nothing leaves the old file where it was. *)
Theorem update_without_upload_keeps_files env req w :
  u_file req = None →
  fs (after (updateQRContent env req) w) = fs w.
Proof.
  intros Hf. unfold after.
  destruct (db w !! u_id req) as [qr|] eqn:Hdb.
  2:{ rewrite update_unknown by exact Hdb. reflexivity. }
  destruct (type_known_or_not req) as [(ct & Hct & Hin)|Hbad].
  2:{ destruct (update_bad_type env req w qr Hdb Hbad) as [msg ->]. reflexivity. }
  rewrite (update_run env req w qr ct Hdb Hct (allowed_nonempty ct Hin) Hin).
  cbv zeta. rewrite (afterCleanup_no_upload qr req w Hf).
  destruct (snd (prepareContent _ _ _ _ _)) as [e|filled]; [reflexivity|].
  destruct (stage env None _) as [e|staged]; [reflexivity|].
  destruct (storeAccepts env); reflexivity.
Qed.



(** What an accepted update stores. *)
Lemma update_accepted env req w w' qr body :
  stored w (u_id req) qr →
  updateQRContent env req w = (w', RJson 200 body) →
  ∃ ct filled,
    u_contentType req = Some ct ∧ ct ∈ allowedTypes
    ∧ snd (prepareContent env req ct
             (emptyContent ct (Some (default "" (u_description req))) (now env))
             (afterCleanup qr req w)) = inr filled
    ∧ w' = set_db (<[u_id req :=
                      touched env
                        (preSave (set_currentContent filled
                                    (addToHistory env (currentContent qr) qr)))]>
                     (db w))
             (afterCleanup qr req w)
    ∧ body = updatedJson
               (touched env
                  (preSave (set_currentContent filled
                              (addToHistory env (currentContent qr) qr)))).
Proof.
  intros [Hdb Hid] Hrun.
  destruct (update_accepted_type _ _ _ _ _ _ Hdb Hrun) as (ct & Hct & Hne & Hin).
  rewrite (update_run env req w qr ct Hdb Hct Hne Hin) in Hrun. cbv zeta in Hrun.
  exists ct.
  destruct (snd (prepareContent _ _ _ _ _)) as [e|filled]; [discriminate|].
  exists filled.
  destruct (stage env None _) as [e|staged] eqn:Hst; [discriminate|].
  destruct (storeAccepts env); [|discriminate].
  apply stage_inr in Hst as [-> _].
  injection Hrun as <- <-.
  rewrite preSave_id. cbn [id set_currentContent addToHistory set_contentHistory].
  rewrite Hid, afterCleanup_db. auto.
Qed.


(** X26. An accepted update never stores what the schema forbids: the
    record it stores satisfies the schema, so its description has at most
    1000 characters, its link title at most 200, its contact name at most
    100, its company at most 200, the address of a link starts with
    [http://] or [https://] and goes on, and its history has at most
    fifty entries. *)
Theorem accepted_update_satisfies_the_schema env req w w' qr body :
  stored w (u_id req) qr →
  updateQRContent env req w = (w', RJson 200 body) →
  ∃ q', db w' !! u_id req = Some q' ∧ conforms q'
    ∧ withinLength 1000 (description (currentContent q')) = true
    ∧ withinLength 200 (linkTitle (currentContent q')) = true
    ∧ withinLength 100 (contactName (currentContent q')) = true
    ∧ withinLength 200 (company (currentContent q')) = true
    ∧ (∀ u, ctype (currentContent q') = "link" → url (currentContent q') = Some u →
         urlRegex u = true)
    ∧ (length (contentHistory q') ≤ 50)%nat.
Proof.
  intros [Hdb Hid] Hrun.
  destruct (update_accepted_type _ _ _ _ _ _ Hdb Hrun) as (ct & Hct & Hne & Hin).
  rewrite (update_run env req w qr ct Hdb Hct Hne Hin) in Hrun. cbv zeta in Hrun.
  destruct (snd (prepareContent _ _ _ _ _)) as [e|filled]; [discriminate|].
  destruct (stage env None _) as [e|staged] eqn:Hst; [discriminate|].
  destruct (storeAccepts env); [|discriminate].
  apply stage_inr in Hst as (Hq & Hc & Hl).
  injection Hrun as <- _.
  assert (Hk : id staged = u_id req) by (rewrite Hq, preSave_id; exact Hid).
  exists (touched env staged). cbn [db set_db]. rewrite Hk, lookup_insert_eq.
  split; [reflexivity|]. split; [exact Hc|].
  change (currentContent (touched env staged)) with (currentContent staged).
  change (contentHistory (touched env staged)) with (contentHistory staged).
  apply conforms_iff in Hc as (_ & Hc & _ & _).
  unfold contentErrors in Hc.
  apply app_nil_inv in Hc as [_ Hc]. apply app_nil_inv in Hc as [_ Hc].
  apply app_nil_inv in Hc as [Hurl Hc]. apply app_nil_inv in Hc as [Hlt Hc].
  apply app_nil_inv in Hc as [Hcn Hc]. apply app_nil_inv in Hc as [_ Hc].
  apply app_nil_inv in Hc as [_ Hc]. apply app_nil_inv in Hc as [Hco Hd].
  split; [destruct (withinLength 1000 _); [reflexivity|discriminate]|].
  split; [destruct (withinLength 200 (linkTitle _)); [reflexivity|discriminate]|].
  split; [destruct (withinLength 100 _); [reflexivity|discriminate]|].
  split; [destruct (withinLength 200 (company _)); [reflexivity|discriminate]|].
  split; [|exact Hl].
  intros u Hty Hu. rewrite Hu, Hty in Hurl. cbn [String.eqb Ascii.eqb Bool.eqb andb] in Hurl.
  destruct (urlRegex u); [reflexivity|discriminate].
Qed.

(** ** Links and contacts *)



Lemma no_ws_at_spec c : no_ws_at c = true ↔ plainChar c.
Proof.
  unfold no_ws_at, plainChar. rewrite andb_true_iff, !negb_true_iff.
  destruct (Ascii.eqb_spec c "@"); intuition congruence.
Qed.

Lemma plainRun_spec s : plainRun s = true ↔ plainStr s.
Proof.
  unfold plainStr. induction s as [|c r IH]; cbn [plainRun chars].
  - split; [discriminate|intros [H _]; congruence].
  - destruct r as [|d r'].
    + rewrite no_ws_at_spec. cbn [chars]. split.
      * intros H. split; [discriminate|]. constructor; [exact H|constructor].
      * intros [_ H]. inversion H; assumption.
    + rewrite andb_true_iff, no_ws_at_spec, IH. split.
      * intros [H1 [_ H2]]. split; [discriminate|constructor; assumption].
      * intros [_ H]. inversion H; subst. split; [assumption|].
        split; [discriminate|assumption].
Qed.

Lemma dottedRun_spec s : ∀ seen,
  dottedRun seen s = true
  ↔ ∃ b c, s = b +:+ "." +:+ c ∧ Forall plainChar (chars b)
           ∧ (seen = true ∨ b ≠ "") ∧ plainStr c.
Proof.
  induction s as [|ch r IH]; intros seen; cbn [dottedRun].
  - split; [discriminate|]. intros (b & c & E & _). destruct b; discriminate.
  - rewrite orb_true_iff, !andb_true_iff, Ascii.eqb_eq, plainRun_spec,
      no_ws_at_spec, IH.
    split.
    + intros [[[-> ->] Hc]|[Hch (b & c & -> & Hb & _ & Hc)]].
      * exists "", r. split; [reflexivity|]. split; [constructor|].
        split; [left; reflexivity|exact Hc].
      * exists (String ch b), c. split; [reflexivity|].
        split; [constructor; assumption|]. split; [right; discriminate|exact Hc].
    + intros (b & c & E & Hb & Hs & Hc). destruct b as [|b0 b].
      * injection E as -> ->. left. destruct Hs as [->|Hs]; [auto|congruence].
      * injection E as -> ->. right. inversion Hb; subst.
        split; [assumption|]. exists b, c. auto.
Qed.

(** X6. [validateEmail] accepts exactly the strings [a@b.c] whose three
    parts are non-empty and hold neither white space nor [@] (the dots
    among them are free, so [b] and [c] may contain more dots). *)
Theorem email_accepted_iff_local_at_domain_dot_tld s w :
  validateEmail s w = (w, inr tt)
  ↔ ∃ a b c, s = a +:+ "@" +:+ b +:+ "." +:+ c
             ∧ plainStr a ∧ plainStr b ∧ plainStr c.
Proof.
  assert (G : ∀ t seen,
    emailRegex seen t = true
    ↔ ∃ a d, t = a +:+ "@" +:+ d ∧ Forall plainChar (chars a)
             ∧ (seen = true ∨ a ≠ "") ∧ dottedRun false d = true).
  { induction t as [|ch r IH]; intros seen; cbn [emailRegex].
    - split; [discriminate|]. intros (a & d & E & _). destruct a; discriminate.
    - destruct (Ascii.eqb_spec ch "@") as [->|Hne].
      + rewrite andb_true_iff. split.
        * intros [-> Hd]. exists "", r. split; [reflexivity|].
          split; [constructor|]. split; [left; reflexivity|exact Hd].
        * intros (a & d & E & Ha & Hs & Hd). destruct a as [|a0 a].
          -- injection E as ->. destruct Hs as [->|Hs]; [auto|congruence].
          -- injection E as <- _. inversion Ha as [|? ? [_ Hx] _]. congruence.
      + rewrite andb_true_iff, no_ws_at_spec, IH. split.
        * intros [Hch (a & d & -> & Ha & _ & Hd)].
          exists (String ch a), d. split; [reflexivity|].
          split; [constructor; assumption|]. split; [right; discriminate|exact Hd].
        * intros (a & d & E & Ha & Hs & Hd). destruct a as [|a0 a].
          -- injection E as -> _. congruence.
          -- injection E as -> ->. inversion Ha; subst.
             split; [assumption|]. exists a, d. auto. }
  unfold validateEmail.
  assert (R : (if emailRegex false s then mret tt
               else throw (AppErr 400 "Noto'g'ri email format")) w = (w, inr tt)
              ↔ emailRegex false s = true).
  { destruct (emailRegex false s); cbn; split; auto; discriminate. }
  rewrite R, G. split.
  - intros (a & d & -> & Ha & [Hs|Hs] & Hd); [discriminate|].
    apply dottedRun_spec in Hd as (b & c & -> & Hb & [Hs'|Hs'] & Hc); [discriminate|].
    exists a, b, c. split; [reflexivity|]. unfold plainStr. auto.
  - intros (a & b & c & -> & [Ha1 Ha2] & [Hb1 Hb2] & Hc).
    exists a, (b +:+ "." +:+ c). split; [reflexivity|]. split; [exact Ha2|].
    split; [right; exact Ha1|].
    apply dottedRun_spec. exists b, c. auto.
Qed.

Lemma phoneChar_spec c : phoneChar c = true ↔ phoneCharP c.
Proof.
  unfold phoneChar, phoneCharP.
  rewrite !orb_true_iff, andb_true_iff, !N.leb_le, !Ascii.eqb_eq. tauto.
Qed.

Lemma allPhoneChars_spec s : allPhoneChars s = true ↔ Forall phoneCharP (chars s).
Proof.
  induction s as [|c r IH]; cbn [allPhoneChars chars].
  - split; [constructor|reflexivity].
  - rewrite andb_true_iff, phoneChar_spec, IH. split.
    + intros [H1 H2]. constructor; assumption.
    + intros H. inversion H; auto.
Qed.

Lemma plus_is_no_phone_char : ¬ phoneCharP "+"%char.
Proof.
  intros H. apply phoneChar_spec in H. vm_compute in H. discriminate.
Qed.

(** X7. [validatePhone] accepts exactly an optional [+] followed by 7 to
    20 characters that are digits, white space, hyphens or parentheses. *)
Theorem phone_accepted_iff_seven_to_twenty_phone_chars s w :
  validatePhone s w = (w, inr tt)
  ↔ ∃ body, (s = body ∨ s = "+" +:+ body)
            ∧ (7 ≤ String.length body ≤ 20)%nat
            ∧ Forall phoneCharP (chars body).
Proof.
  unfold validatePhone.
  assert (R : (if phoneRegex s then mret tt
               else throw (AppErr 400 "Noto'g'ri telefon format")) w = (w, inr tt)
              ↔ phoneRegex s = true).
  { destruct (phoneRegex s); cbn; split; auto; discriminate. }
  rewrite R. unfold phoneRegex.
  rewrite !andb_true_iff, !Nat.leb_le, allPhoneChars_spec. split.
  - intros [[Hall H7] H20]. eexists. split; [|split; [split; eassumption|exact Hall]].
    destruct s as [|c r]; [left; reflexivity|].
    destruct (Ascii.eqb_spec c "+") as [->|_]; [right|left]; reflexivity.
  - intros (body & [-> | ->] & [H7 H20] & Hall).
    + destruct body as [|c r]; [cbn in H7; lia|].
      destruct (Ascii.eqb_spec c "+") as [->|_]; [|auto].
      inversion Hall as [|? ? Hc _]. destruct (plus_is_no_phone_char Hc).
    + cbn. auto.
Qed.

(** ** Contacts *)

Lemma trimmedIfGiven_Some v t :
  trimmedIfGiven v = Some t → ∃ raw, v = Some raw ∧ raw ≠ "" ∧ t = JS.trim raw.
Proof.
  unfold trimmedIfGiven. destruct (JS.truthy v) eqn:H; [|discriminate].
  destruct (truthy_Some _ H) as (raw & -> & Hne). cbn. intros [= <-]. eauto.
Qed.

(** X5. A [contact] update needs a name, a phone or an e-mail: a request
    with none of them (a company alone, say) is refused with status 400.
    An accepted one stores the trimmed fields that were given, a phone
    that matches the phone pattern and an e-mail that matches the e-mail
    pattern. *)
Theorem contact_needs_name_phone_or_email env req w qr :
  stored w (u_id req) qr →
  u_contentType req = Some "contact" →
  let '(w', r) := updateQRContent env req w in
  (JS.truthy (u_contactName req) = false → JS.truthy (u_phone req) = false →
   JS.truthy (u_email req) = false →
   r = RFailed (AppErr 400 "Kamida bitta contact ma'lumoti kerak!") ∧ db w' = db w)
  ∧ (∀ body, r = RJson 200 body →
     ∃ q', db w' !! u_id req = Some q'
       ∧ (JS.truthy (u_contactName req) = true ∨ JS.truthy (u_phone req) = true
          ∨ JS.truthy (u_email req) = true)
       ∧ contactName (currentContent q') = trimmedIfGiven (u_contactName req)
       ∧ phone (currentContent q') = trimmedIfGiven (u_phone req)
       ∧ email (currentContent q') = trimmedIfGiven (u_email req)
       ∧ company (currentContent q') = trimmedIfGiven (u_company req)
       ∧ (∀ p, phone (currentContent q') = Some p → phoneRegex p = true)
       ∧ (∀ e, email (currentContent q') = Some e → emailRegex false e = true)).
Proof.
  intros Hst Hct.
  destruct (updateQRContent env req w) as [w' r] eqn:Hrun. split.
  - intros Hn Hp He. destruct Hst as [Hdb _].
    assert (Hin : "contact" ∈ allowedTypes)
      by (apply (bool_decide_unpack _); vm_compute; exact I).
    rewrite (update_run env req w qr "contact" Hdb Hct (allowed_nonempty _ Hin) Hin)
      in Hrun.
    cbv zeta in Hrun. revert Hrun. unfold prepareContent.
    cbn [String.eqb Ascii.eqb Bool.eqb]. unfold contactCase. unfold_M.
    rewrite Hn, Hp, He. cbn. intros [= <- <-].
    split; [reflexivity|apply afterCleanup_db].
  - intros body ->.
    destruct (update_accepted env req w w' qr body Hst Hrun)
      as (ct & filled & Hct' & _ & Hprep & -> & _).
    rewrite Hct in Hct'. injection Hct' as <-.
    revert Hprep. unfold prepareContent. cbn [String.eqb Ascii.eqb Bool.eqb].
    unfold contactCase, validatePhone, validateEmail. unfold_M.
    destruct (negb (JS.truthy (u_contactName req)) && negb (JS.truthy (u_phone req))
              && negb (JS.truthy (u_email req))) eqn:Hany; [discriminate|].
    assert (Hsome : JS.truthy (u_contactName req) = true ∨ JS.truthy (u_phone req) = true
                    ∨ JS.truthy (u_email req) = true).
    { destruct (JS.truthy (u_contactName req)), (JS.truthy (u_phone req)),
        (JS.truthy (u_email req)); auto; discriminate. }
    assert (Hph : ∀ p, trimmedIfGiven (u_phone req) = Some p →
                  JS.truthy (u_phone req) = true
                  ∧ p = JS.trim (default "" (u_phone req))).
    { intros p Hp. destruct (trimmedIfGiven_Some _ _ Hp) as (raw & E & Hne & ->).
      rewrite E. split; [apply truthy_intro; exact Hne|reflexivity]. }
    assert (Hem : ∀ e, trimmedIfGiven (u_email req) = Some e →
                  JS.truthy (u_email req) = true
                  ∧ e = JS.trim (default "" (u_email req))).
    { intros e He. destruct (trimmedIfGiven_Some _ _ He) as (raw & E & Hne & ->).
      rewrite E. split; [apply truthy_intro; exact Hne|reflexivity]. }
    destruct (JS.truthy (u_phone req)) eqn:Htp;
      [destruct (phoneRegex (JS.trim (default "" (u_phone req)))) eqn:Hpr;
         [|discriminate]|];
      (destruct (JS.truthy (u_email req)) eqn:Hte;
       [destruct (emailRegex false (JS.trim (default "" (u_email req)))) eqn:Her;
          [|discriminate]|]);
      cbn; intros [= <-];
      (eexists; cbn [db set_db]; rewrite lookup_insert_eq;
       split; [reflexivity|];
       change (currentContent (touched env ?q)) with (currentContent q);
       rewrite preSave_content;
       cbn [currentContent set_currentContent contactName phone email company
            with_contact];
       split; [exact Hsome|];
       split; [reflexivity|]; split; [reflexivity|]; split; [reflexivity|];
       split; [reflexivity|]; split;
       [intros p Hp; destruct (Hph p Hp) as [? ->]; first [assumption|discriminate]
       |intros e He; destruct (Hem e He) as [? ->]; first [assumption|discriminate]]).
Qed.

(** ** Records that cannot be resolved *)

Lemma findOneActive_none w i :
  notResolvable w i → findOneActive i w = (w, inr None).
Proof.
  unfold notResolvable, findOneActive. destruct (db w !! i) as [q|]; [|reflexivity].
  intros ->. reflexivity.
Qed.

(** X8. For an id that names no record or an inactive (soft-deleted)
    one, the four public endpoints answer "not found" and change
    nothing: no count, no scan date, no analytics; the image endpoint
    does not look at the activity flag and still serves the image of an
    inactive record whose file exists. *)
Theorem inactive_records_are_not_resolved env req w :
  notResolvable w (s_id req) →
  scanQR env req w = (w, RHtml 404 "QR Topilmadi" (PgQRNotFound (s_id req)))
  ∧ quickRedirect env req w = (w, RPlain 404 "QR topilmadi")
  ∧ previewQR (s_id req) w = (w, RFailed (AppErr 404 "QR topilmadi"))
  ∧ getQRScanInfo env (s_id req) w = (w, RFailed (AppErr 404 "QR topilmadi"))
  ∧ ∀ q, db w !! s_id req = Some q → qrCodePath q ∈ fs w →
         serveQRImage (s_id req) w = (w, inr (qrCodePath q)).
Proof.
  intros H. pose proof (findOneActive_none w (s_id req) H) as F.
  repeat split.
  - unfold scanQR, scanQR_body. unfold_M. rewrite F. reflexivity.
  - unfold quickRedirect, quickRedirect_body. unfold_M. rewrite F. reflexivity.
  - unfold previewQR, previewQR_body. unfold_M. rewrite F. reflexivity.
  - unfold getQRScanInfo, getQRScanInfo_body. unfold_M. rewrite F. reflexivity.
  - intros q Hq Hin. unfold serveQRImage, findOne. unfold_M. rewrite Hq.
    rewrite bool_decide_eq_true_2 by exact Hin. reflexivity.
Qed.

(** ** Soft delete and restore *)

Lemma restored_back env1 env2 q :
  isActive q = true →
  touched env2 (set_isActive true (touched env1 (set_isActive false q)))
  = touched env2 q.
Proof. destruct q; cbn. intros ->. reflexivity. Qed.

Lemma set_isActive_modified b q : isActive q = negb b → set_isActive b q ≠ q.
Proof.
  intros H E. apply (f_equal isActive) in E. cbn in E. rewrite H in E.
  destruct b; discriminate.
Qed.

Lemma world_eq w w' :
  db w' = db w → fs w' = fs w → analytics w' = analytics w → w' = w.
Proof. destruct w, w'; cbn. intros -> -> ->. reflexivity. Qed.

Lemma softDelete_run env req w qr :
  stored w (d_id req) qr → isActive qr = true →
  query_is (d_force req) "true" = false →
  storeAccepts env = true → conforms qr →
  ∃ body, deleteQR env req w
          = (set_db (<[d_id req := touched env (set_isActive false qr)]> (db w)) w,
             RJson 200 body).
Proof.
  intros [Hdb Hid] Ha Hf Hs Hl.
  unfold deleteQR, deleteQR_body, findOne. unfold_M. rewrite Hdb, Hf.
  rewrite save_ok by assumption.
  rewrite timestamps_modified by (apply set_isActive_modified; exact Ha).
  cbn. rewrite Hid. eexists. reflexivity.
Qed.

Lemma restore_run env i w qr :
  stored w i qr → isActive qr = false →
  storeAccepts env = true → conforms qr →
  ∃ body, restoreQR env i w
          = (set_db (<[i := touched env (set_isActive true qr)]> (db w)) w,
             RJson 200 body).
Proof.
  intros [Hdb Hid] Ha Hs Hl.
  unfold restoreQR, restoreQR_body, findOneInactive. unfold_M. rewrite Hdb, Ha.
  rewrite save_ok by assumption.
  rewrite timestamps_modified by (apply set_isActive_modified; exact Ha).
  cbn. rewrite Hid. eexists. reflexivity.
Qed.

(** X9. A soft delete only clears the activity flag (and stamps the
    record), so the record is no longer resolved and no file is touched;
    restoring it afterwards gives back the world as it was before the
    delete but for the [updatedAt] stamp of the record, which is the time
    of the restore; restoring a record that is active is refused with
    status 404 and changes nothing. *)
Theorem soft_delete_then_restore_changes_only_updatedAt env1 env2 req w qr :
  stored w (d_id req) qr → isActive qr = true →
  query_is (d_force req) "true" = false →
  storeAccepts env1 = true → storeAccepts env2 = true →
  conforms qr →
  db (after (deleteQR env1 req) w) !! d_id req
  = Some (touched env1 (set_isActive false qr))
  ∧ notResolvable (after (deleteQR env1 req) w) (d_id req)
  ∧ fs (after (deleteQR env1 req) w) = fs w
  ∧ after (restoreQR env2 (d_id req)) (after (deleteQR env1 req) w)
    = set_db (<[d_id req := touched env2 qr]> (db w)) w
  ∧ restoreQR env2 (d_id req) w
    = (w, RFailed (AppErr 404 "O'chirilgan QR topilmadi")).
Proof.
  intros Hst Ha Hf Hs1 Hs2 Hl.
  destruct (softDelete_run env1 req w qr Hst Ha Hf Hs1 Hl) as [body Hdel].
  unfold after. rewrite Hdel. cbn [fst db set_db fs].
  split; [apply lookup_insert_eq|].
  split; [unfold notResolvable; cbn; rewrite lookup_insert_eq; reflexivity|].
  split; [reflexivity|]. split.
  - assert (Hst' : stored (set_db (<[d_id req := touched env1 (set_isActive false qr)]>
                                     (db w)) w)
                     (d_id req) (touched env1 (set_isActive false qr))).
    { split; [apply lookup_insert_eq|apply Hst]. }
    destruct (restore_run env2 (d_id req) _ _ Hst' eq_refl Hs2 Hl) as [body2 ->].
    cbn [fst]. unfold set_db. cbn [db fs analytics].
    rewrite restored_back by exact Ha.
    rewrite insert_insert_eq. reflexivity.
  - destruct Hst as [Hdb _].
    unfold restoreQR, restoreQR_body, findOneInactive. unfold_M.
    rewrite Hdb, Ha. reflexivity.
Qed.

(** ** Hard delete *)

Lemma unlink_fs p w : fs (fst (unlinkIfExists p w)) = fs w ∖ {[p]}.
Proof.
  unfold unlinkIfExists. case_decide as Hin; [reflexivity|]. cbn.
  apply leibniz_equiv. intros x. rewrite elem_of_difference, elem_of_singleton.
  split; [intros Hx; split; [exact Hx|intros ->; contradiction]|tauto].
Qed.

Lemma unlink_rest p w :
  db (fst (unlinkIfExists p w)) = db w
  ∧ analytics (fst (unlinkIfExists p w)) = analytics w
  ∧ ∃ b, snd (unlinkIfExists p w) = inr b.
Proof. unfold unlinkIfExists. case_decide; cbn; eauto. Qed.

Lemma hardDelete_run env qr i w :
  ∃ w1, fs w1 = fs w ∖ hardDeleted env qr ∧ db w1 = db w
        ∧ analytics w1 = analytics w
        ∧ hardDelete env qr i w
          = if storeAccepts env then (set_db (delete i (db w1)) w1, inr tt)
            else (w1, inl StoreErr).
Proof.
  unfold hardDelete, hardDeleted, deleteQRCode, deleteOne. unfold_M.
  destruct (String.eqb (ctype (currentContent qr)) "file"
            && JS.truthy (filePath (currentContent qr))) eqn:Hfile.
  - apply andb_true_iff in Hfile as [_ Ht].
    destruct (truthy_Some _ Ht) as (p & Hp & Hne). rewrite Hp.
    change (default "" (Some p)) with p.
    destruct (deleteFile_run p w Hne) as [b ->].
    pose proof (unlink_fs (qrPathOf env (id qr)) (set_fs (fs w ∖ {[p]}) w)) as Hfs.
    destruct (unlink_rest (qrPathOf env (id qr)) (set_fs (fs w ∖ {[p]}) w))
      as (Hd & Han & b' & Hb).
    destruct (unlinkIfExists _ _) as [w1 s]. cbn in Hfs, Hd, Han, Hb. subst s.
    exists w1. split.
    { rewrite Hfs. apply leibniz_equiv. intros x.
      rewrite !elem_of_difference, elem_of_union, !elem_of_singleton. tauto. }
    split; [exact Hd|]. split; [exact Han|].
    destruct (storeAccepts env); reflexivity.
  - pose proof (unlink_fs (qrPathOf env (id qr)) w) as Hfs.
    destruct (unlink_rest (qrPathOf env (id qr)) w) as (Hd & Han & b' & Hb).
    destruct (unlinkIfExists _ _) as [w1 s]. cbn in Hfs, Hd, Han, Hb. subst s.
    exists w1. split.
    { rewrite Hfs. apply leibniz_equiv. intros x.
      rewrite !elem_of_difference, elem_of_union, elem_of_singleton, elem_of_empty.
      tauto. }
    split; [exact Hd|]. split; [exact Han|].
    destruct (storeAccepts env); reflexivity.
Qed.

(** X10. A hard delete removes the image computed from the id and the
    active file of a file content, then the record; it removes no other
    file, so the files that only the history names stay behind; and the
    files are removed first: when the store then refuses the delete, the
    record is still stored and its files are gone. *)
Theorem hard_delete_removes_record_image_and_active_file env req w qr :
  stored w (d_id req) qr → query_is (d_force req) "true" = true →
  let '(w', r) := deleteQR env req w in
  fs w' = fs w ∖ hardDeleted env qr
  ∧ (qrPathOf env (d_id req) ∉ fs w')
  ∧ (∀ x, x ∈ fs w → x ∉ hardDeleted env qr → x ∈ fs w')
  ∧ (if storeAccepts env
     then db w' = delete (d_id req) (db w) ∧ notResolvable w' (d_id req)
          ∧ ∃ body, r = RJson 200 body
     else db w' = db w ∧ r = RFailed StoreErr).
Proof.
  intros [Hdb Hid] Hf.
  unfold deleteQR, deleteQR_body, findOne. unfold_M. rewrite Hdb, Hf.
  destruct (hardDelete_run env qr (d_id req) w) as (w1 & Hfs & Hd & _ & ->).
  assert (Himg : qrPathOf env (d_id req) ∉ fs w ∖ hardDeleted env qr).
  { intros [_ Hn]%elem_of_difference. apply Hn. unfold hardDeleted.
    apply elem_of_union_l, elem_of_singleton. rewrite Hid. reflexivity. }
  assert (Hkeep : ∀ x, x ∈ fs w → x ∉ hardDeleted env qr →
                       x ∈ fs w ∖ hardDeleted env qr).
  { intros x H1 H2. apply elem_of_difference. auto. }
  destruct (storeAccepts env); cbn; rewrite Hfs, Hd.
  - split; [reflexivity|]. split; [exact Himg|]. split; [exact Hkeep|].
    split; [reflexivity|]. split; [|eexists; reflexivity].
    unfold notResolvable. cbn. rewrite lookup_delete_eq. exact I.
  - split; [reflexivity|]. split; [exact Himg|]. split; [exact Hkeep|].
    split; reflexivity.
Qed.

(** ** Settings *)

Lemma newDomain_run env v old w :
  (∃ msg, newDomain env v old w = (w, inl (AppErr 400 msg)))
  ∨ (∃ d, newDomain env v old w = (w, inr d) ∧ (v = BUndefined → d = old)).
Proof.
  unfold newDomain, validateUrl. unfold_M.
  destruct v as [|dom|t]; cbn [truthyString].
  - right. eauto.
  - destruct (String.eqb dom ""); [right; eexists; split; [reflexivity|discriminate]|].
    destruct (urlParts env ("https://" +:+ dom)) as [[protocol host]|];
      [|left; eexists; reflexivity].
    destruct (bool_decide (protocol ∈ ["http:"; "https:"]));
      [|left; eexists; reflexivity].
    right. eexists. split; [reflexivity|discriminate].
  - right. eexists. split; [reflexivity|discriminate].
Qed.

Lemma newPassword_run v old w :
  newPassword v old w =
    match v with
    | BUndefined => (w, inr old)
    | BStr p =>
        if String.eqb p "" then (w, inr None)
        else if Nat.ltb (String.length p) 4
             then (w, inl (AppErr 400 "Password kamida 4 ta belgidan iborat bo'lishi kerak"))
             else (w, inr (Some p))
    | BOther _ => (w, inr None)
    end.
Proof.
  unfold newPassword. unfold_M. destruct v as [|p|t]; cbn [truthyString]; try reflexivity.
  destruct (String.eqb p ""); [reflexivity|].
  destruct (Nat.ltb (String.length p) 4); reflexivity.
Qed.

(** X11. [updateQRSettings] refuses a password of one to three
    characters with status 400 and stores nothing, whatever else the
    request asks for. *)
Theorem short_password_is_refused env req w qr p :
  stored w (t_id req) qr → isActive qr = true →
  t_password req = BStr p → (1 ≤ String.length p < 4)%nat →
  ∃ msg, updateQRSettings env req w = (w, RFailed (AppErr 400 msg)).
Proof.
  intros [Hdb _] Ha Hp [H1 H4].
  unfold updateQRSettings, updateQRSettings_body, findOneActive, newSettings.
  unfold_M. rewrite Hdb, Ha.
  destruct (newDomain_run env (t_customDomain req) (customDomain (settings qr)) w)
    as [[msg ->]|(d & -> & _)]; [eexists; reflexivity|].
  rewrite newPassword_run, Hp.
  destruct (String.eqb_spec p "") as [->|_]; [cbn in H1; lia|].
  apply Nat.ltb_lt in H4. rewrite H4. eexists. reflexivity.
Qed.

(** ** Counting scans *)

(** The analytics record of a scan. *)
Lemma recordScanAnalytics_run env i t req w :
  recordScanAnalytics env i t req w
  = if default false t
    then (add_analytics
            {| a_qr := i; a_ip := r_ip req; a_userAgent := r_userAgent req;
               a_device := detectDevice
                 (if JS.truthy (r_userAgent req) then default "" (r_userAgent req)
                  else "");
               a_referer := r_referer req; a_timestamp := now env;
               a_country := if JS.truthy (r_country req)
                            then default "" (r_country req) else "unknown" |} w,
          inr tt)
    else (w, inr tt).
Proof. unfold recordScanAnalytics. destruct (default false t); reflexivity. Qed.

(** The [switch] of [scanQR] only reads. *)
Lemma scanQR_counted env req w qr :
  stored w (s_id req) qr → isActive qr = true →
  checkQRPassword qr (q_password req) = true →
  storeAccepts env = true → conforms qr →
  ∃ w2, fst (scanQR env req w) = w2
    ∧ db w2 = <[s_id req := counted env qr]> (db w)
    ∧ fs w2 = fs w
    ∧ recordScanAnalytics env (s_id req) (Some (allowTracking (settings qr))) req
        (set_db (<[s_id req := counted env qr]> (db w)) w)
      = (w2, inr tt).
Proof.
  intros [Hdb Hid] Hact Hpw Hs Hl.
  unfold scanQR, scanQR_body, findOneActive. unfold_M.
  rewrite Hdb, Hact, Hpw. cbn [negb].
  rewrite incrementScan_run by assumption.
  set (qr' := counted env qr).
  change (id qr') with (id qr). change (seenTracking None qr')
    with (Some (allowTracking (settings qr))).
  rewrite Hid.
  set (w1 := set_db _ w).
  assert (R : ∃ w2, recordScanAnalytics env (s_id req)
                      (Some (allowTracking (settings qr))) req w1 = (w2, inr tt)
                    ∧ db w2 = db w1 ∧ fs w2 = fs w).
  { rewrite recordScanAnalytics_run. destruct (default false _); eexists; eauto. }
  destruct R as (w2 & -> & Hd2 & Hf2).
  exists w2. split; [|split; [exact Hd2|split; [exact Hf2|reflexivity]]].
  change (currentContent qr') with (currentContent qr).
  repeat match goal with
         | |- context [if String.eqb ?a ?b then _ else _] => destruct (String.eqb a b)
         end; try reflexivity.
  - pose proof (pure_handleFileServing qr' (currentContent qr) w2) as P.
    destruct (handleFileServing qr' (currentContent qr) w2) as [w3 [e|r]]; exact P.
  - pose proof (pure_handleContactDisplay env qr' (currentContent qr) req w2) as P.
    destruct (handleContactDisplay env qr' (currentContent qr) req w2) as [w3 [e|r]];
      exact P.
Qed.

(** X12. Every scan of an active record that passes the password check
    is counted exactly once, whatever the content and whatever the
    answer turns out to be (a page, a redirect, a stream, a missing file,
    even an unknown content type): the stored count grows by one, the scan
    date is the time of the scan, no file is touched, and one analytics
    record is logged when tracking is on and none when it is off. *)
Theorem every_answered_scan_is_counted_once env req w qr :
  stored w (s_id req) qr → isActive qr = true →
  checkQRPassword qr (q_password req) = true →
  storeAccepts env = true → conforms qr →
  let w' := after (scanQR env req) w in
  db w' = <[s_id req := counted env qr]> (db w)
  ∧ fs w' = fs w
  ∧ (if allowTracking (settings qr)
     then ∃ a, analytics w' = analytics w ++ [a]
               ∧ a_qr a = s_id req ∧ a_timestamp a = now env
     else analytics w' = analytics w).
Proof.
  intros Hst Hact Hpw Hs Hl w'.
  destruct (scanQR_counted env req w qr Hst Hact Hpw Hs Hl) as (w2 & E & Hd & Hf & Hr).
  unfold w', after. rewrite E. split; [exact Hd|]. split; [exact Hf|].
  rewrite recordScanAnalytics_run in Hr. cbn [default from_option] in Hr.
  destruct (allowTracking (settings qr)); cbn in Hr; injection Hr as <-.
  - eexists. split; [reflexivity|]. split; reflexivity.
  - reflexivity.
Qed.

(** X13. Setting a password of at least four characters locks the
    record: from then on a scan without that exact password gets the
    password form and is not counted, and a scan with it is counted. *)
Theorem password_set_then_gate env req w qr p :
  stored w (t_id req) qr → isActive qr = true →
  t_password req = BStr p → (4 ≤ String.length p)%nat →
  t_customDomain req = BUndefined →
  storeAccepts env = true → conforms qr →
  let w1 := after (updateQRSettings env req) w in
  (∃ q1, db w1 !! t_id req = Some q1 ∧ password (settings q1) = Some p
         ∧ currentContent q1 = currentContent qr ∧ scanCount q1 = scanCount qr)
  ∧ (∀ env2 sreq, s_id sreq = t_id req → q_password sreq ≠ QStr p →
       scanQR env2 sreq w1
       = (w1, RHtml 200 "Parol Kerak" (PgPasswordForm (title qr) (scanCount qr))))
  ∧ (∀ env2 sreq, s_id sreq = t_id req → q_password sreq = QStr p →
       storeAccepts env2 = true →
       ∃ q2, db (after (scanQR env2 sreq) w1) !! t_id req = Some q2
             ∧ scanCount q2 = scanCount qr + 1).
Proof.
  intros [Hdb Hid] Ha Hp H4 Hdom Hs Hl w1.
  assert (Hne : p ≠ "") by (intros ->; cbn in H4; lia).
  set (s1 := {| allowTracking := default (allowTracking (settings qr)) (t_allowTracking req);
                customDomain := customDomain (settings qr); password := Some p |}).
  destruct (timestamps_fields env (Some qr) (set_settings s1 qr) (set_settings s1 qr))
    as (c & u & Hts & _).
  set (q1 := set_timestamps c u (set_settings s1 qr)).
  assert (E : ∃ body, updateQRSettings env req w
                      = (set_db (<[t_id req := q1]> (db w)) w, RJson 200 body)).
  { unfold updateQRSettings, updateQRSettings_body, findOneActive, newSettings.
    unfold_M. rewrite Hdb, Ha, Hdom. cbn [newDomain]. unfold_M.
    rewrite newPassword_run, Hp.
    destruct (String.eqb_spec p "") as [?|_]; [contradiction|].
    apply Nat.ltb_ge in H4. rewrite H4.
    fold s1. rewrite save_ok by assumption. rewrite Hts. fold q1.
    cbn. rewrite Hid. eexists. reflexivity. }
  destruct E as [body E].
  assert (Hw1 : w1 = set_db (<[t_id req := q1]> (db w)) w)
    by (unfold w1, after; rewrite E; reflexivity).
  assert (Hst1 : stored w1 (t_id req) q1).
  { rewrite Hw1. split; [apply lookup_insert_eq|exact Hid]. }
  split; [exists q1; repeat split; apply Hst1|]. split.
  - intros env2 sreq Hi Hq. destruct Hst1 as [Hdb1 _].
    unfold scanQR, scanQR_body, findOneActive. unfold_M.
    rewrite Hi, Hdb1. change (isActive q1) with (isActive qr). rewrite Ha.
    assert (Hc : checkQRPassword q1 (q_password sreq) = false).
    { unfold checkQRPassword. cbn. destruct (String.eqb_spec p ""); [contradiction|].
      cbn. destruct (q_password sreq) as [|s|]; try reflexivity.
      cbn. destruct (String.eqb_spec s p) as [->|]; [contradiction|reflexivity]. }
    rewrite Hc. reflexivity.
  - intros env2 sreq Hi Hq Hs2.
    assert (Hc : checkQRPassword q1 (q_password sreq) = true).
    { unfold checkQRPassword. cbn. destruct (String.eqb_spec p ""); [contradiction|].
      cbn. rewrite Hq. cbn. apply String.eqb_refl. }
    rewrite <- Hi in Hst1.
    destruct (scanQR_counted env2 sreq w1 q1 Hst1 Ha Hc Hs2 Hl)
      as (w2 & E2 & Hd2 & _).
    unfold after. rewrite E2, Hd2, Hi, lookup_insert_eq.
    eexists. split; reflexivity.
Qed.

(** ** Bulk delete *)

Lemma bulkStep_run env force res qrId w :
  ∃ w' res', bulkStep env force res qrId w = (w', inr res')
    ∧ (b_success res').*1 ++ (b_failed res').*1
      ≡ₚ (b_success res).*1 ++ (b_failed res).*1 ++ [qrId].
Proof.
  unfold bulkStep. destruct (db w !! qrId) as [qr|].
  - destruct ((if force then hardDelete env qr qrId
               else save env None (Some qr) (set_isActive false qr);; mret ()) w) as [w' [e|u]];
      eexists _, _; (split; [reflexivity|]); cbn [b_success b_failed];
      rewrite !fmap_app; cbn; [rewrite !(assoc app); reflexivity|].
    rewrite <- !(assoc app). apply Permutation_app_head, Permutation_app_comm.
  - eexists _, _. split; [reflexivity|]. cbn [b_success b_failed].
    rewrite !fmap_app. cbn. rewrite !(assoc app). reflexivity.
Qed.

Lemma bulkLoop_run env force ids : ∀ res w,
  ∃ w' res', bulkLoop env force ids res w = (w', inr res')
    ∧ (b_success res').*1 ++ (b_failed res').*1
      ≡ₚ (b_success res).*1 ++ (b_failed res).*1 ++ ids.
Proof.
  induction ids as [|i ids IH]; intros res w; cbn [bulkLoop].
  - eexists _, _. split; [reflexivity|]. rewrite app_nil_r. reflexivity.
  - unfold_M. destruct (bulkStep_run env force res i w) as (w1 & res1 & -> & P1).
    destruct (IH res1 w1) as (w' & res' & -> & P).
    eexists _, _. split; [reflexivity|]. rewrite P.
    rewrite (assoc app), P1, <- !(assoc app). reflexivity.
Qed.

(** X14. [bulkDeleteQRs] refuses a missing or empty list and a list of
    more than fifty ids with status 400, touching nothing; otherwise it
    goes through the whole list and always answers: every id of the
    request ends up exactly once in [success] or in [failed] (an id that
    names no record, or whose delete throws, fails without stopping the
    others), and the message counts the successes. *)
Theorem bulk_delete_sorts_every_id env req w :
  match k_qrIds req with
  | None | Some [] =>
      bulkDeleteQRs env req w = (w, inl (AppErr 400 "QR ID lari majburiy (array)"))
  | Some ids =>
      if Nat.ltb 50 (length ids)
      then bulkDeleteQRs env req w
           = (w, inl (AppErr 400 "Bir vaqtda maksimal 50 ta QR o'chirish mumkin"))
      else ∃ w' res,
             bulkDeleteQRs env req w
             = (w', inr (JS.numToString (N.of_nat (length (b_success res)))
                         +:+ " ta QR o'chirildi", res))
             ∧ (b_success res).*1 ++ (b_failed res).*1 ≡ₚ ids
             ∧ (length (b_success res) + length (b_failed res) = length ids)%nat
  end.
Proof.
  unfold bulkDeleteQRs. destruct (k_qrIds req) as [[|i ids]|]; try reflexivity.
  unfold_M. destruct (Nat.ltb 50 (length (i :: ids))); [reflexivity|].
  destruct (bulkLoop_run env (k_forceDelete req) (i :: ids)
              {| b_success := []; b_failed := [] |} w) as (w' & res & -> & P).
  exists w', res. split; [reflexivity|]. cbn in P. split; [exact P|].
  apply Permutation_length in P. rewrite length_app, !length_fmap in P. exact P.
Qed.

(** ** Creation *)

(** X15. [createQR] refuses a missing or empty title, and a title of
    more than 200 characters as submitted (before trimming), with status
    400, and then does nothing at all: no id is looked up, no image is
    written, no record is stored. *)
Theorem create_refuses_bad_title env req w :
  (JS.truthy (c_title req) = false →
   createQR env req w = (w, RFailed (AppErr 400 "Majburiy maydonlar: title")))
  ∧ (∀ t, c_title req = Some t → (200 < String.length t)%nat →
     createQR env req w
     = (w, RFailed (AppErr 400 "QR title 200 belgidan oshmasligi kerak"))).
Proof.
  split.
  - intros H. unfold createQR, createQR_body, validateRequiredField. rewrite H.
    reflexivity.
  - intros t Ht Hl. unfold createQR, createQR_body, validateRequiredField.
    rewrite Ht. change (default "" (Some t)) with t.
    assert (Hne : t ≠ "") by (intros ->; cbn in Hl; lia).
    rewrite (truthy_intro t Hne). apply Nat.ltb_lt in Hl. unfold_M. rewrite Hl.
    reflexivity.
Qed.

Lemma scanQR_file_stream env req w qr p m size :
  stored w (s_id req) qr → isActive qr = true →
  checkQRPassword qr (q_password req) = true →
  storeAccepts env = true → conforms qr →
  ctype (currentContent qr) = "file" →
  mimeType (currentContent qr) = Some m → fileSize (currentContent qr) = Some size →
  filePath (currentContent qr) = Some p → p ≠ "" → p ∈ fs w →
  snd (scanQR env req w)
  = RStream p m size (if isViewable m then "inline" else "attachment")
      (originalName (currentContent qr)).
Proof.
  intros [Hdb Hid] Hact Hpw Hs Hl Hty Hm Hsz Hp Hpne Hpin.
  unfold scanQR, scanQR_body, findOneActive. unfold_M.
  rewrite Hdb, Hact, Hpw. cbn [negb].
  rewrite incrementScan_run by assumption.
  set (qr' := counted env qr).
  set (w1 := set_db _ w).
  rewrite recordScanAnalytics_run.
  assert (R : ∃ w2, (if default false (seenTracking None qr')
                     then (add_analytics
                             {| a_qr := id qr'; a_ip := r_ip req;
                                a_userAgent := r_userAgent req;
                                a_device := detectDevice
                                  (if JS.truthy (r_userAgent req)
                                   then default "" (r_userAgent req) else "");
                                a_referer := r_referer req; a_timestamp := now env;
                                a_country := if JS.truthy (r_country req)
                                             then default "" (r_country req)
                                             else "unknown" |} w1, inr ())
                     else (w1, inr ())) = (w2, @inr Thrown unit ()) ∧ fs w2 = fs w).
  { destruct (default false _); eexists; eauto. }
  destruct R as (w2 & -> & Hf2).
  change (currentContent qr') with (currentContent qr).
  rewrite Hty. cbn [String.eqb Ascii.eqb Bool.eqb].
  unfold handleFileServing. unfold_M. rewrite Hf2, Hm, Hsz, Hp.
  rewrite (truthy_intro p Hpne). change (default "" (Some p)) with p.
  rewrite bool_decide_eq_true_2 by exact Hpin. reflexivity.
Qed.

Lemma file_content_errors f d now :
  (String.length d ≤ 1000)%nat →
  contentErrors (with_file f (emptyContent "file" (Some d) now)) = [].
Proof.
  intros Hd. unfold contentErrors.
  cbn [with_file emptyContent ctype text url linkTitle contactName phone email
       company description withinLength].
  apply Nat.leb_le in Hd. rewrite Hd. reflexivity.
Qed.

(** X16. From creation to the first scan: a record that was just
    created (with a title that is not blank and descriptions within the
    schema's 1000 characters), then given an uploaded file that exists,
    answers its first scan with the stream of that file (its path, mime
    type, size and original name; shown in place when the type is
    viewable), and that scan makes its count one. *)
Theorem create_upload_scan_streams_the_file env1 env2 env3 creq ureq sreq w c f :
  JS.truthy (c_title creq) = true →
  (String.length (default "" (c_title creq)) ≤ 200)%nat →
  creatable creq = true →
  firstUnused (db w) (candidatesFrom env1 0 5) = Some c →
  encoder env1 = EncodeOk → storeAccepts env1 = true →
  u_id ureq = c → u_contentType ureq = Some "file" → u_file ureq = Some f →
  (String.length (default "" (u_description ureq)) ≤ 1000)%nat →
  f_path f ≠ "" → f_path f ∈ fs w →
  storeAccepts env2 = true →
  s_id sreq = c → storeAccepts env3 = true →
  let w1 := after (createQR env1 creq) w in
  let w2 := after (updateQRContent env2 ureq) w1 in
  let '(w3, r) := scanQR env3 sreq w2 in
  r = RStream (f_path f) (f_mimetype f) (f_size f)
        (if isViewable (f_mimetype f) then "inline" else "attachment")
        (Some (f_originalname f))
  ∧ ∃ q3, db w3 !! c = Some q3 ∧ scanCount q3 = 1
          ∧ lastScanned q3 = Some (now env3)
          ∧ qrCodePath q3 = qrPathOf env1 c ∧ qrCodePath q3 ∈ fs w3.
Proof.
  intros Ht Hlen Hok Hfirst He Hs1 Hu Hty Hf Hdescr Hpne Hpin Hs2 Hsid Hs3 w1 w2.
  pose proof (createQR_run env1 creq w c Ht Hlen Hfirst) as Hc. cbv zeta in Hc.
  rewrite He, Hok, Hs1 in Hc.
  set (q0 := created env1 c creq) in *.
  assert (Hc0 : c ≠ "").
  { destruct (firstUnused_spec _ _ _ Hfirst) as (k & Hk & _ & _).
    apply candidatesFrom_lookup_Some in Hk as [_ ->]. apply candidate_nonempty. }
  assert (Hq0 : conforms q0).
  { pose proof (newQR_errors env1 c creq Hc0 Hlen) as Hn. cbv zeta in Hn.
    rewrite Hok in Hn. exact Hn. }
  assert (Hw1 : w1 = set_db (<[c := q0]> (db w)) (set_fs ({[qrPathOf env1 c]} ∪ fs w) w))
    by (unfold w1, after; rewrite Hc; reflexivity).
  clearbody w1. subst w1.
  set (w1 := set_db (<[c := q0]> (db w)) (set_fs ({[qrPathOf env1 c]} ∪ fs w) w)) in *.
  assert (Hin : "file" ∈ allowedTypes)
    by (apply (bool_decide_unpack _); vm_compute; exact I).
  assert (Hdb1 : db w1 !! u_id ureq = Some q0)
    by (rewrite Hu; apply lookup_insert_eq).
  set (filled := with_file f (emptyContent "file"
                                (Some (default "" (u_description ureq))) (now env2))).
  set (q1 := set_currentContent filled (addToHistory env2 (currentContent q0) q0)).
  assert (Hq1 : conforms q1).
  { apply update_conforms; [exact Hq0|cbn; lia|].
    apply file_content_errors. exact Hdescr. }
  assert (Hup : updateQRContent env2 ureq w1
                = (set_db (<[c := touched env2 q1]> (db w1)) w1,
                   RJson 200 (updatedJson (touched env2 q1)))).
  { rewrite (update_run env2 ureq w1 q0 "file" Hdb1 Hty (allowed_nonempty _ Hin) Hin).
    cbv zeta.
    assert (Hclean : afterCleanup q0 ureq w1 = w1) by reflexivity.
    rewrite Hclean.
    assert (Hprep : snd (prepareContent env2 ureq "file"
                           (emptyContent "file" (Some (default "" (u_description ureq)))
                              (now env2)) w1) = inr filled).
    { unfold prepareContent. cbn [String.eqb Ascii.eqb Bool.eqb].
      unfold fileCase. rewrite Hf. reflexivity. }
    rewrite Hprep. fold q1.
    rewrite (stage_conforms env2 q1 Hq1), Hs2. reflexivity. }
  assert (Hw2 : w2 = set_db (<[c := touched env2 q1]> (db w1)) w1)
    by (unfold w2, after; rewrite Hup; reflexivity).
  clearbody w2. subst w2.
  set (w2 := set_db (<[c := touched env2 q1]> (db w1)) w1) in *.
  assert (Hst2 : stored w2 (s_id sreq) (touched env2 q1)).
  { rewrite Hsid. split; [apply lookup_insert_eq|reflexivity]. }
  assert (Hl1 : conforms (touched env2 q1)) by exact Hq1.
  assert (Hpin2 : f_path f ∈ fs w2).
  { unfold w2, w1. cbn. apply elem_of_union. right. exact Hpin. }
  pose proof (scanQR_file_stream env3 sreq w2 (touched env2 q1) (f_path f)
                (f_mimetype f) (f_size f)
                Hst2 eq_refl eq_refl Hs3 Hl1 eq_refl eq_refl eq_refl eq_refl
                Hpne Hpin2) as Hr.
  destruct (scanQR_counted env3 sreq w2 (touched env2 q1) Hst2 eq_refl eq_refl Hs3 Hl1)
    as (w3' & E3 & Hd3 & Hf3 & _).
  destruct (scanQR env3 sreq w2) as [w3 r]. cbn [fst snd] in *. subst w3' r.
  split; [reflexivity|].
  eexists. split; [rewrite Hd3, Hsid; apply lookup_insert_eq|].
  split; [reflexivity|]. split; [reflexivity|]. split; [reflexivity|].
  rewrite Hf3. unfold w2, w1. cbn.
  apply elem_of_union. left. apply elem_of_singleton. reflexivity.
Qed.

(** ** Devices and folders *)

Lemma lower_idem c : JS.lower (JS.lower c) = JS.lower c.
Proof. destruct c as [[] [] [] [] [] [] [] []]; reflexivity. Qed.

Lemma toLowerCase_idem s : JS.toLowerCase (JS.toLowerCase s) = JS.toLowerCase s.
Proof.
  induction s as [|c r IH]; [reflexivity|]. cbn. rewrite lower_idem, IH. reflexivity.
Qed.

(** X17. [detectDevice] gives one of three classes and does not depend
    on the case of the user agent; the phone tokens are tried first, so
    a user agent that mentions both a tablet token and a phone token
    (an iPad announcing [Mobile], an Android tablet) counts as mobile. *)
Theorem detect_device_prefers_mobile ua :
  (detectDevice ua = "mobile" ∨ detectDevice ua = "tablet"
   ∨ detectDevice ua = "desktop")
  ∧ detectDevice (JS.toLowerCase ua) = detectDevice ua
  ∧ (∀ token, token ∈ ["mobile"; "android"; "iphone"] →
       JS.includes (JS.toLowerCase ua) token = true → detectDevice ua = "mobile").
Proof.
  split; [|split].
  - unfold detectDevice. destruct (_ || _ || _); [auto|].
    destruct (_ || _); auto.
  - unfold detectDevice. rewrite toLowerCase_idem. reflexivity.
  - intros token Hin Hinc. unfold detectDevice.
    repeat (apply elem_of_cons in Hin as [->|Hin];
            [rewrite Hinc, ?orb_true_r; reflexivity|]).
    apply elem_of_nil in Hin as [].
Qed.

Lemma includes_prefix s sub : String.prefix sub s = true → JS.includes s sub = true.
Proof. intros H. destruct s; cbn [JS.includes]; rewrite H; reflexivity. Qed.

Lemma prefix_first p q s c d :
  c ≠ d → String.prefix (String c p) s = true → String.prefix (String d q) s = false.
Proof.
  intros Hne. destruct s as [|e s]; cbn; [discriminate|].
  destruct (ascii_dec c e) as [->|]; [|discriminate].
  intros _. destruct (ascii_dec d e) as [->|]; [contradiction|reflexivity].
Qed.

(** X18. Where the upload middleware files a type and how the scan
    serves it agree: what is filed under [images], [videos], [audios] or
    [pdfs] is always shown in place, what is filed under [others] is
    always offered as a download, and a [text/...] type is filed under
    [documents] and shown in place. *)
Theorem destination_folder_and_disposition_agree m :
  (getDestinationFolder m ∈ ["images"; "videos"; "audios"; "pdfs"] →
   isViewable m = true)
  ∧ (getDestinationFolder m = "others" → isViewable m = false)
  ∧ (JS.startsWith m "text/" = true →
     getDestinationFolder m = "documents" ∧ isViewable m = true).
Proof.
  unfold getDestinationFolder, isViewable, JS.startsWith.
  split; [|split].
  - destruct (String.prefix "image/" m); [reflexivity|].
    destruct (String.prefix "video/" m); [rewrite !orb_true_r; reflexivity|].
    destruct (String.prefix "audio/" m); [rewrite !orb_true_r; reflexivity|].
    destruct (String.eqb m "application/pdf"); [reflexivity|].
    destruct (_ || _ || _ || _); intros H;
      repeat (apply elem_of_cons in H as [H|H]; [discriminate|]);
      apply elem_of_nil in H as [].
  - destruct (String.prefix "image/" m); [discriminate|].
    destruct (String.prefix "video/" m); [discriminate|].
    destruct (String.prefix "audio/" m); [discriminate|].
    destruct (String.eqb m "application/pdf"); [discriminate|].
    destruct (String.prefix "text/" m) eqn:Ht.
    + rewrite (includes_prefix m "text/" Ht), !orb_true_r. discriminate.
    + reflexivity.
  - intros Ht. rewrite Ht, (includes_prefix m "text/" Ht), !orb_true_r.
    rewrite (prefix_first "ext/" "mage/" m "t" "i") by (discriminate || exact Ht).
    rewrite (prefix_first "ext/" "ideo/" m "t" "v") by (discriminate || exact Ht).
    rewrite (prefix_first "ext/" "udio/" m "t" "a") by (discriminate || exact Ht).
    destruct (String.eqb_spec m "application/pdf") as [->|_]; [discriminate|].
    split; reflexivity.
Qed.

(** ** Login attempts *)

Ltac unfold_AM :=
  cbv [mbind Auth.AM_bind mret Auth.AM_ret Auth.fail] in *.

Lemma validateLoginInput_run req u p m :
  validLogin req u p →
  Auth.validateLoginInput (Auth.l_username req) (Auth.l_password req) m
  = (m, inr (JS.toLowerCase (JS.trim u), JS.trim p)).
Proof.
  intros (-> & -> & Hu & Hp & Hlu & Hlp).
  unfold Auth.validateLoginInput, Auth.bodyTruthy.
  destruct (String.eqb_spec u ""); [contradiction|].
  destruct (String.eqb_spec p ""); [contradiction|]. cbn [negb orb].
  apply Nat.ltb_ge in Hlu, Hlp. rewrite Hlu, Hlp. reflexivity.
Qed.

Lemma validateLoginInput_state u p m :
  fst (Auth.validateLoginInput u p m) = m.
Proof.
  unfold Auth.validateLoginInput. unfold_AM.
  destruct (negb _ || negb _); [reflexivity|].
  destruct u, p; try reflexivity. destruct (_ || _); reflexivity.
Qed.

Lemma checkRateLimit_run env c m :
  if lockedOut env m c
  then ∃ msg, Auth.checkRateLimit env c m = (m, inl (AppErr 429 msg))
  else ∃ a m', Auth.checkRateLimit env c m = (m', inr a)
               ∧ (m' = m ∨ m' = delete c m)
               ∧ default 0%N (Auth.count <$> m' !! c) = priorCount m c
               ∧ (priorCount m c < 5)%N.
Proof.
  unfold lockedOut, Auth.checkRateLimit, priorCount, Auth.isLocked,
    Auth.MAX_LOGIN_ATTEMPTS.
  destruct (m !! c) as [a|] eqn:Hm; cbv [default from_option Datatypes.id].
  - destruct (N.leb_spec 5 (Auth.count a)) as [H5|H5]; cbn [andb].
    + destruct (_ <? _)%Z; [eexists; reflexivity|].
      eexists _, _. split; [reflexivity|]. split; [right; reflexivity|].
      rewrite lookup_delete_eq. cbn. split; [reflexivity|lia].
    + eexists _, _. split; [reflexivity|]. split; [left; reflexivity|].
      rewrite Hm. cbn. split; [reflexivity|exact H5].
  - cbn. eexists _, _. split; [reflexivity|]. split; [left; reflexivity|].
    rewrite Hm. cbn. split; [reflexivity|lia].
Qed.

(** What [login] does with a well-formed request. *)
Lemma login_run env req m u p au ap :
  validLogin req u p → configured env au ap →
  lockedOut env m (clientOf req) = false →
  Auth.login env req m
  = if credentialsMatch u p au ap
    then (delete (clientOf req) m,
          inr {| Auth.s_username := JS.toLowerCase (JS.trim u);
                 Auth.s_loginTime := Auth.clock env |})
    else (<[clientOf req := {| Auth.count := priorCount m (clientOf req) + 1;
                               Auth.lastAttempt := Auth.clock env |}]> m,
          inl (AppErr 401 "Noto'g'ri username yoki password")).
Proof.
  intros Hv (Hau & Hap & Haune & Hapne) Hlock.
  unfold Auth.login, Auth.login_body. unfold_AM.
  rewrite (validateLoginInput_run req u p m Hv).
  fold (clientOf req).
  pose proof (checkRateLimit_run env (clientOf req) m) as Hc. rewrite Hlock in Hc.
  destruct Hc as (a & m' & -> & Hm' & Hcount & _).
  unfold Auth.validateEnvCredentials. rewrite Hau, Hap.
  rewrite (truthy_intro au Haune), (truthy_intro ap Hapne). unfold_AM. cbn [andb].
  change (default "" (Some au)) with au. change (default "" (Some ap)) with ap.
  fold (credentialsMatch u p au ap).
  unfold Auth.recordLoginAttempt.
  destruct (credentialsMatch u p au ap); cbn [negb].
  - f_equal. destruct Hm' as [->| ->]; [reflexivity|]. apply delete_delete_eq.
  - f_equal.
    assert (Hd : default {| Auth.count := 0; Auth.lastAttempt := Auth.clock env |}
                   (m' !! clientOf req)
                 = {| Auth.count := priorCount m (clientOf req);
                      Auth.lastAttempt :=
                        Auth.lastAttempt
                          (default {| Auth.count := 0;
                                      Auth.lastAttempt := Auth.clock env |}
                             (m' !! clientOf req)) |}).
    { rewrite <- Hcount. destruct (m' !! clientOf req) as [[]|]; reflexivity. }
    rewrite Hd. cbn [Auth.count].
    destruct Hm' as [->| ->]; [reflexivity|]. apply insert_delete_eq.
Qed.

(** X19. A client with five failures is refused with status 429 during
    the fifteen minutes after the last of them, whatever it sends, the
    right credentials included; the refusal changes nothing, so it does
    not prolong the lockout. *)
Theorem locked_client_is_refused_whatever_it_sends env req m u p :
  validLogin req u p →
  lockedOut env m (clientOf req) = true →
  ∃ msg, Auth.login env req m = (m, inl (AppErr 429 msg)).
Proof.
  intros Hv Hlock. unfold Auth.login, Auth.login_body. unfold_AM.
  rewrite (validateLoginInput_run req u p m Hv). fold (clientOf req).
  pose proof (checkRateLimit_run env (clientOf req) m) as Hc. rewrite Hlock in Hc.
  destruct Hc as [msg ->]. eexists. reflexivity.
Qed.

(** X20. For a well-formed request of a client that is not locked out,
    [login] opens a session exactly when the user name, trimmed and
    without regard to case, is the configured one and the trimmed
    password is the configured one; a success forgets the client's
    failures, a failure is answered with status 401 and counted: one
    more than before, or one when an expired lockout was just lifted. *)
Theorem login_succeeds_iff_credentials_match env req m u p au ap :
  validLogin req u p → configured env au ap →
  lockedOut env m (clientOf req) = false →
  let '(m', r) := Auth.login env req m in
  ((∃ s, r = inr s) ↔ (JS.toLowerCase (JS.trim u) = JS.toLowerCase au
                        ∧ JS.trim p = ap))
  ∧ (∀ s, r = inr s → m' = delete (clientOf req) m
                      ∧ Auth.s_username s = JS.toLowerCase (JS.trim u))
  ∧ ((∀ s, r ≠ inr s) →
     r = inl (AppErr 401 "Noto'g'ri username yoki password")
     ∧ m' !! clientOf req
       = Some {| Auth.count := priorCount m (clientOf req) + 1;
                 Auth.lastAttempt := Auth.clock env |}
     ∧ ∀ c, c ≠ clientOf req → m' !! c = m !! c).
Proof.
  intros Hv Hc Hl. rewrite (login_run env req m u p au ap Hv Hc Hl).
  assert (Hm : credentialsMatch u p au ap = true
               ↔ JS.toLowerCase (JS.trim u) = JS.toLowerCase au ∧ JS.trim p = ap).
  { unfold credentialsMatch. rewrite andb_true_iff, !String.eqb_eq. reflexivity. }
  destruct (credentialsMatch u p au ap).
  - split; [split; [intros _; apply Hm; reflexivity|eauto]|].
    split; [intros s [= <-]; auto|]. intros H. exfalso. eapply H. reflexivity.
  - split; [split; [intros [s [=]]|intros H; apply Hm in H; discriminate]|].
    split; [intros s [=]|]. intros _. split; [reflexivity|].
    split; [apply lookup_insert_eq|]. intros c Hne. apply lookup_insert_ne. congruence.
Qed.

Lemma bounded_delete m c : attemptsBounded m → attemptsBounded (delete c m).
Proof.
  intros H c' a. rewrite lookup_delete. case_decide; [discriminate|apply H].
Qed.

Lemma bounded_insert m c a :
  (1 ≤ Auth.count a ≤ 5)%N → attemptsBounded m → attemptsBounded (<[c := a]> m).
Proof.
  intros Ha H c' a'. rewrite lookup_insert. case_decide; [intros [= <-]; exact Ha|apply H].
Qed.

Lemma login_keeps_bound env req m :
  attemptsBounded m → attemptsBounded (fst (Auth.login env req m)).
Proof.
  intros Hb. unfold Auth.login, Auth.login_body. unfold_AM.
  pose proof (validateLoginInput_state (Auth.l_username req) (Auth.l_password req) m)
    as Hv.
  destruct (Auth.validateLoginInput _ _ m) as [m0 [e|[su sp]]]; cbn in Hv; subst m0;
    [exact Hb|].
  fold (clientOf req).
  pose proof (checkRateLimit_run env (clientOf req) m) as Hc.
  destruct (lockedOut env m (clientOf req)).
  { destruct Hc as [msg ->]. exact Hb. }
  destruct Hc as (a & m' & -> & Hm' & Hcount & Hlt).
  assert (Hb' : attemptsBounded m').
  { destruct Hm' as [->| ->]; [exact Hb|apply bounded_delete, Hb]. }
  unfold Auth.validateEnvCredentials.
  destruct (JS.truthy _ && JS.truthy _); unfold_AM; [|exact Hb'].
  unfold Auth.recordLoginAttempt.
  destruct (String.eqb _ _ && String.eqb _ _); cbn [negb fst].
  - apply bounded_delete, Hb'.
  - apply bounded_insert; [|exact Hb']. cbn [Auth.count].
    assert (E : Auth.count (default {| Auth.count := 0;
                                       Auth.lastAttempt := Auth.clock env |}
                              (m' !! clientOf req))
                = priorCount m (clientOf req)).
    { rewrite <- Hcount. destruct (m' !! clientOf req); reflexivity. }
    rewrite E. lia.
Qed.

(** X21. The failure counter of a client never exceeds five (and an
    entry of the map always has at least one failure): whatever logins
    arrive, well formed or not, with whatever clocks, starting from the
    empty map or from any map within the bound. *)
Theorem failed_attempts_never_exceed_five steps :
  attemptsBounded (runLogins steps ∅)
  ∧ ∀ m, attemptsBounded m → attemptsBounded (runLogins steps m).
Proof.
  assert (G : ∀ m, attemptsBounded m → attemptsBounded (runLogins steps m)).
  { induction steps as [|[env req] steps IH]; intros m Hb; [exact Hb|].
    cbn. apply IH, login_keeps_bound, Hb. }
  split; [|exact G]. apply G. intros c a. rewrite lookup_empty. discriminate.
Qed.

Lemma failures_accumulate c steps : ∀ m,
  Forall (failingLogin c) steps → steps ≠ [] →
  (priorCount m c + N.of_nat (length steps) ≤ 5)%N →
  (∀ a, m !! c = Some a → (Auth.count a < 5)%N) →
  ∃ env, last steps.*1 = Some env
    ∧ runLogins steps m !! c
      = Some {| Auth.count := priorCount m c + N.of_nat (length steps);
                Auth.lastAttempt := Auth.clock env |}.
Proof.
  induction steps as [|[env req] steps IH]; intros m Hf Hne Hsum Hlt; [congruence|].
  apply Forall_cons in Hf as [(Hc & u & p & au & ap & Hv & Hcfg & Hmis) Hf].
  cbn in Hc, Hv, Hcfg. subst c.
  assert (Hlock : lockedOut env m (clientOf req) = false).
  { unfold lockedOut, Auth.isLocked, Auth.MAX_LOGIN_ATTEMPTS.
    destruct (m !! clientOf req) as [a|] eqn:Hm; [|reflexivity].
    specialize (Hlt a eq_refl).
    destruct (N.leb_spec 5 (Auth.count a)); [lia|reflexivity]. }
  cbn [runLogins foldl fst snd].
  rewrite (login_run env req m u p au ap Hv Hcfg Hlock), Hmis. cbn [fst].
  set (m1 := <[clientOf req := _]> m).
  assert (Hm1 : m1 !! clientOf req
                = Some {| Auth.count := priorCount m (clientOf req) + 1;
                          Auth.lastAttempt := Auth.clock env |})
    by apply lookup_insert_eq.
  destruct steps as [|s steps'].
  - exists env. split; [reflexivity|]. cbn. rewrite Hm1. do 2 f_equal.
  - cbn [length] in Hsum.
    assert (Hp1 : priorCount m1 (clientOf req) = (priorCount m (clientOf req) + 1)%N).
    { unfold priorCount at 1. rewrite Hm1. cbn [Auth.count].
      unfold Auth.MAX_LOGIN_ATTEMPTS.
      destruct (N.leb_spec 5 (priorCount m (clientOf req) + 1)); [lia|reflexivity]. }
    destruct (IH m1 Hf ltac:(discriminate)) as (env' & Hlast & Hres).
    + rewrite Hp1. cbn [length]. lia.
    + intros a. rewrite Hm1. intros [= <-]. cbn. lia.
    + exists env'. split; [exact Hlast|].
      fold (runLogins (s :: steps') m1). rewrite Hres, Hp1. do 2 f_equal.
      cbn [length]. lia.
Qed.

(** X22. Five failed logins in a row lock a client that had none: the
    sixth request within fifteen minutes of the fifth is refused with
    status 429 even with the right credentials, and the first request
    after those fifteen minutes with the right credentials opens a
    session and clears the counter.  The failures may lie any time
    apart. *)
Theorem five_failures_lock_for_fifteen_minutes c steps m env req u p au ap :
  m !! c = None →
  Forall (failingLogin c) steps → length steps = 5%nat →
  clientOf req = c → validLogin req u p → configured env au ap →
  credentialsMatch u p au ap = true →
  ∃ env5, last steps.*1 = Some env5
    ∧ runLogins steps m !! c
      = Some {| Auth.count := 5; Auth.lastAttempt := Auth.clock env5 |}
    ∧ if (Z.of_N (Auth.clock env) - Z.of_N (Auth.clock env5) <? 15 * 60 * 1000)%Z
      then ∃ msg, Auth.login env req (runLogins steps m)
                  = (runLogins steps m, inl (AppErr 429 msg))
      else Auth.login env req (runLogins steps m)
           = (delete c (runLogins steps m),
              inr {| Auth.s_username := JS.toLowerCase (JS.trim u);
                     Auth.s_loginTime := Auth.clock env |}).
Proof.
  intros Hnone Hf Hlen Hc Hv Hcfg Hmatch.
  assert (Hp0 : priorCount m c = 0%N) by (unfold priorCount; rewrite Hnone; reflexivity).
  destruct (failures_accumulate c steps m Hf) as (env5 & Hlast & Hres).
  { intros ->. discriminate. }
  { rewrite Hp0, Hlen. cbn. lia. }
  { intros a. rewrite Hnone. discriminate. }
  rewrite Hp0, Hlen in Hres. cbn in Hres.
  exists env5. split; [exact Hlast|]. split; [exact Hres|].
  assert (Hl : lockedOut env (runLogins steps m) c
               = (Z.of_N (Auth.clock env) - Z.of_N (Auth.clock env5) <? 15 * 60 * 1000)%Z).
  { unfold lockedOut. rewrite Hres. reflexivity. }
  destruct (Z.of_N (Auth.clock env) - Z.of_N (Auth.clock env5) <? 15 * 60 * 1000)%Z.
  - unfold Auth.login, Auth.login_body. unfold_AM.
    rewrite (validateLoginInput_run req u p _ Hv). fold (clientOf req). rewrite Hc.
    pose proof (checkRateLimit_run env c (runLogins steps m)) as Hk.
    rewrite Hl in Hk. destruct Hk as [msg ->]. eexists. reflexivity.
  - rewrite <- Hc in Hl.
    rewrite (login_run env req _ u p au ap Hv Hcfg Hl), Hmatch, Hc. reflexivity.
Qed.

Lemma trimEnd_idem s : JS.trimEnd (JS.trimEnd s) = JS.trimEnd s.
Proof.
  induction s as [|c r IH]; [reflexivity|]. cbn [JS.trimEnd].
  destruct (JS.trimEnd r) as [|d r'] eqn:E.
  - destruct (JS.is_ws c) eqn:Hc; [reflexivity|]. cbn. rewrite Hc. reflexivity.
  - change (JS.trimEnd (String c (String d r')))
      with (match JS.trimEnd (String d r') with
            | EmptyString => if JS.is_ws c then EmptyString else String c EmptyString
            | x => String c x
            end).
    rewrite IH. reflexivity.
Qed.

Lemma trimStart_fixed s :
  match s with
  | EmptyString => True
  | String c _ => JS.is_ws c = false
  end → JS.trimStart s = s.
Proof. destruct s as [|c r]; [reflexivity|]. cbn. intros ->. reflexivity. Qed.

Lemma trimStart_head s :
  match JS.trimStart s with
  | EmptyString => True
  | String c _ => JS.is_ws c = false
  end.
Proof.
  induction s as [|c r IH]; [exact I|]. cbn.
  destruct (JS.is_ws c) eqn:Hc; [exact IH|exact Hc].
Qed.

Lemma trimEnd_head s :
  match s with
  | EmptyString => True
  | String c _ => JS.is_ws c = false
  end →
  match JS.trimEnd s with
  | EmptyString => True
  | String c _ => JS.is_ws c = false
  end.
Proof.
  destruct s as [|c r]; [auto|]. cbn. intros Hc.
  destruct (JS.trimEnd r); [rewrite Hc|]; exact Hc.
Qed.

Lemma trim_idem s : JS.trim (JS.trim s) = JS.trim s.
Proof.
  unfold JS.trim.
  rewrite (trimStart_fixed (JS.trimEnd (JS.trimStart s)))
    by apply trimEnd_head, trimStart_head.
  apply trimEnd_idem.
Qed.

(** X23. [login] compares the trimmed password of the request with the
    configured password as it stands: when the configured password
    begins or ends with white space, no request ever opens a session. *)
Theorem padded_admin_password_locks_everyone_out env req m ap :
  Auth.ADMIN_PASSWORD env = Some ap → JS.trim ap ≠ ap →
  ∀ s, snd (Auth.login env req m) ≠ inr s.
Proof.
  intros Hap Hpad s. unfold Auth.login, Auth.login_body. unfold_AM.
  destruct (Auth.validateLoginInput _ _ m) as [m0 [e|[su sp]]] eqn:Hv; [discriminate|].
  assert (Hsp : JS.trim sp = sp).
  { revert Hv. unfold Auth.validateLoginInput. unfold_AM.
    destruct (negb _ || negb _); [discriminate|].
    destruct (Auth.l_username req), (Auth.l_password req); try discriminate.
    destruct (_ || _); [discriminate|]. intros [= _ _ <-]. apply trim_idem. }
  destruct (Auth.checkRateLimit env _ m0) as [m1 [e|a]]; [discriminate|].
  unfold Auth.validateEnvCredentials. rewrite Hap.
  destruct (JS.truthy _ && JS.truthy _); unfold_AM; [|discriminate].
  change (default "" (Some ap)) with ap.
  destruct (String.eqb_spec sp ap) as [->|Hne]; [contradiction|].
  rewrite andb_false_r. unfold Auth.recordLoginAttempt. cbn. discriminate.
Qed.

(** ** The bound on histories, for every handler *)

Lemma keeps_deleteOne env i : keeps (deleteOne env i).
Proof.
  unfold deleteOne. destruct (storeAccepts env); [|apply keeps_pure, pure_throw].
  intros w (Hb & Hw & Hk). cbn. split; [|split]; intros j q; cbn;
    rewrite lookup_delete; case_decide; try discriminate;
    [apply Hb|apply Hw|apply Hk].
Qed.

Lemma keeps_hardDelete env qr i : keeps (hardDelete env qr i).
Proof.
  unfold hardDelete, deleteQRCode.
  repeat first [apply keeps_deleteOne | keeps_step].
Qed.

Lemma keeps_bulkStep env force res i : keeps (bulkStep env force res i).
Proof.
  intros w Hi. unfold bulkStep. destruct (db w !! i) as [qr|]; [|exact Hi].
  assert (K : keeps (if force then hardDelete env qr i
                     else save env None (Some qr) (set_isActive false qr);; mret ())).
  { destruct force; [apply keeps_hardDelete|repeat keeps_step]. }
  specialize (K w Hi). destruct (_ w) as [w' [e|u]]; exact K.
Qed.

Lemma keeps_bulkLoop env force ids : ∀ res, keeps (bulkLoop env force ids res).
Proof.
  induction ids as [|i ids IH]; intros res; cbn [bulkLoop];
    [apply keeps_pure, pure_ret|].
  apply keeps_bind; [apply keeps_bulkStep|exact IH].
Qed.

Lemma inv_adminStep w op : inv w → inv (adminStep w op).
Proof.
  intros Hi. destruct op; cbn [adminStep].
  - apply inv_handle, Hi.
  - apply keeps_catchAsync; [|exact Hi]. unfold deleteQR_body.
    repeat first [apply keeps_hardDelete | keeps_step].
  - apply keeps_catchAsync; [|exact Hi]. unfold restoreQR_body.
    apply keeps_bind; [apply keeps_pure; intros v; reflexivity|intros [q|]];
      repeat keeps_step.
  - apply keeps_catchAsync; [|exact Hi]. unfold updateQRSettings_body.
    apply keeps_bind; [apply keeps_pure, pure_findOneActive|intros [q|]];
      [|repeat keeps_step].
    apply keeps_bind; [|intros s; repeat keeps_step].
    apply keeps_pure. intros v.
    unfold newSettings. unfold_M.
    destruct (newDomain_run env (t_customDomain req) (customDomain (settings q)) v)
      as [[msg ->]|(d & -> & _)]; [reflexivity|].
    rewrite newPassword_run.
    destruct (t_password req) as [|p|t]; try reflexivity.
    destruct (String.eqb p ""); [reflexivity|].
    destruct (Nat.ltb (String.length p) 4); reflexivity.
  - unfold bulkDeleteQRs. destruct (k_qrIds req) as [[|i ids]|]; try exact Hi.
    assert (K : keeps (when (Nat.ltb 50 (length (i :: ids)))
                         (throw (AppErr 400 "Bir vaqtda maksimal 50 ta QR o'chirish mumkin"));;
                       res ← bulkLoop env (k_forceDelete req) (i :: ids)
                               {| b_success := []; b_failed := [] |};
                       mret (JS.numToString (N.of_nat (length (b_success res)))
                             +:+ " ta QR o'chirildi", res))).
    { apply keeps_bind; [repeat keeps_step|intros _].
      apply keeps_bind; [apply keeps_bulkLoop|intros res; apply keeps_pure, pure_ret]. }
    apply K, Hi.
  - assert (P : pure (serveQRImage i)).
    { unfold serveQRImage. pure_tac. }
    rewrite P. exact Hi.
Qed.

Lemma inv_worldOf q files : conforms q → inv (worldOf q files).
Proof.
  intros Hc. split; [|split]; intros i r; cbn; rewrite lookup_singleton_Some;
    intros [<- <-]; [apply conforms_length, Hc|reflexivity|exact Hc].
Qed.

(** X24. Whatever the handlers of the two QR controllers do, the
    administrative ones included (soft and hard delete, restore,
    settings, bulk delete, image), in any order and with any outcome of
    the store, every stored record stays filed under its own id, keeps
    at most fifty history entries and satisfies its schema: a collection
    that starts that way, the empty one for instance, stays that way. *)
Theorem history_bound_survives_admin_handlers ops :
  (∀ w, inv w → inv (adminRun ops w))
  ∧ ∀ files i q, db (adminRun ops (emptyWorld files)) !! i = Some q →
      id q = i ∧ (length (contentHistory q) ≤ 50)%nat ∧ conforms q.
Proof.
  assert (G : ∀ w, inv w → inv (adminRun ops w)).
  { induction ops as [|op ops IH]; intros w Hi; [exact Hi|].
    cbn. apply IH, inv_adminStep, Hi. }
  split; [exact G|]. intros files i q Hq.
  destruct (G (emptyWorld files) (inv_empty files)) as (Hb & Hw & Hk).
  split; [exact (Hw i q Hq)|]. split; [exact (Hb i q Hq)|exact (Hk i q Hq)].
Qed.

(** ** The image file *)

(** X25. The image helpers round-trip: after [generateQRCode] succeeds
    the image exists; [deleteQRCode] then removes it and reports [true];
    deleting again reports [false] and changes nothing. *)
Theorem image_generate_exists_delete env qrId w :
  encoder env = EncodeOk →
  let w1 := fst (generateQRCode env qrId w) in
  let w2 := fst (deleteQRCode env qrId w1) in
  snd (generateQRCode env qrId w) = inr (qrPathOf env qrId)
  ∧ qrExists env qrId w1 = true
  ∧ snd (deleteQRCode env qrId w1) = inr true
  ∧ qrExists env qrId w2 = false
  ∧ deleteQRCode env qrId w2 = (w2, inr false).
Proof.
  intros He. cbv zeta. unfold generateQRCode. rewrite He. unfold_M.
  cbn [fst snd]. set (p := qrPathOf env qrId).
  set (w1 := set_fs ({[p]} ∪ fs w) w).
  assert (Hin : p ∈ fs w1) by (unfold w1; cbn; set_solver).
  assert (Hdel : deleteQRCode env qrId w1 = (set_fs (fs w1 ∖ {[p]}) w1, inr true)).
  { unfold deleteQRCode, unlinkIfExists. fold p. rewrite decide_True by exact Hin.
    reflexivity. }
  rewrite Hdel. cbn [fst snd]. set (w2 := set_fs (fs w1 ∖ {[p]}) w1).
  assert (Hout : p ∉ fs w2).
  { unfold w2. cbn. rewrite elem_of_difference, elem_of_singleton. tauto. }
  split; [reflexivity|]. split; [apply bool_decide_eq_true_2, Hin|].
  split; [reflexivity|].
  split; [apply bool_decide_eq_false_2, Hout|].
  unfold deleteQRCode, unlinkIfExists. fold p. rewrite decide_False by exact Hout.
  reflexivity.
Qed.

(** * Worked instances *)

(** C6 at work: with all five candidates taken [createQR] gives up with
    status 500; with the first two taken it stores the record under the
    third. *)
Lemma allocator_witness :
  createQR sampleEnv menuReq (takenWorld 5)
  = (takenWorld 5, RFailed (AppErr 500 "Unique ID yaratib bo'lmadi. Qayta urining."))
  ∧ ∃ w' q, createQR sampleEnv menuReq (takenWorld 2)
            = (w', RJson 201 (createdJson sampleEnv q))
            ∧ id q = "17000000000024fzyo82mv"
            ∧ db w' = <["17000000000024fzyo82mv" := q]> (db (takenWorld 2)).
Proof.
  split.
  - destruct (allocator_first_unused_within_five sampleEnv menuReq (takenWorld 5)
                eq_refl ltac:(vm_compute; lia)) as (_ & _ & H).
    assert (E : firstUnused (db (takenWorld 5)) (candidatesFrom sampleEnv 0 5) = None)
      by (vm_compute; reflexivity).
    rewrite E in H. apply H.
  - destruct (allocator_first_unused_within_five sampleEnv menuReq (takenWorld 2)
                eq_refl ltac:(vm_compute; lia)) as (_ & _ & H).
    assert (E : firstUnused (db (takenWorld 2)) (candidatesFrom sampleEnv 0 5)
                = Some "17000000000024fzyo82mv")
      by (vm_compute; reflexivity).
    rewrite E in H. destruct H as (_ & _ & H).
    apply H; reflexivity.
Defined.

(** C8 at work: a save refused by the store, and one refused by the
    schema for a blank title, leave neither record nor image; an accepted
    one stores the record with the path of the written image. *)
Lemma creation_witness :
  (let '(w', r) := createQR refusingEnv menuReq (emptyWorld ∅) in
   (∃ e, r = RFailed e) ∧ db w' = ∅
   ∧ ("/srv/app/uploads/qrcodes/dynamic_qr_17000000000004fzyo82mv.png" ∉ fs w'))
  ∧ (let '(w', r) := createQR sampleEnv blankReq (emptyWorld ∅) in
     (∃ e, r = RFailed e) ∧ db w' = ∅
     ∧ ("/srv/app/uploads/qrcodes/dynamic_qr_17000000000004fzyo82mv.png" ∉ fs w'))
  ∧ (let '(w', r) := createQR sampleEnv menuReq (emptyWorld ∅) in
     let q := created sampleEnv "17000000000004fzyo82mv" menuReq in
     r = RJson 201 (createdJson sampleEnv q)
     ∧ db w' = <["17000000000004fzyo82mv" := q]> ∅
     ∧ qrCodePath q = "/srv/app/uploads/qrcodes/dynamic_qr_17000000000004fzyo82mv.png"
     ∧ ("/srv/app/uploads/qrcodes/dynamic_qr_17000000000004fzyo82mv.png" ∈ fs w')).
Proof.
  split; [|split].
  - exact (creation_binds_image_before_commit refusingEnv menuReq (emptyWorld ∅)
             "17000000000004fzyo82mv" eq_refl ltac:(vm_compute; lia) eq_refl).
  - exact (creation_binds_image_before_commit sampleEnv blankReq (emptyWorld ∅)
             "17000000000004fzyo82mv" eq_refl ltac:(vm_compute; lia) eq_refl).
  - exact (creation_binds_image_before_commit sampleEnv menuReq (emptyWorld ∅)
             "17000000000004fzyo82mv" eq_refl ltac:(vm_compute; lia) eq_refl).
Defined.

(** C3 at work: a record with fifty entries refuses a text update that
    is fine in itself, and keeps its fifty entries; were the hook to run
    first, the oldest entry would go and the archived content come
    last. *)
Lemma full_history_witness :
  (let '(w', r) := updateQRContent sampleEnv (updateOf "text" (Some "hello") None)
                     (worldOf recordFull []) in
   db w' = db (worldOf recordFull [])
   ∧ r = RFailed (SchemaValidationErr ["contentHistory"]))
  ∧ ∃ q', db (fst (updateQRContent hookFirstEnv (updateOf "text" (Some "hello") None)
                     (worldOf recordFull [])))
            !! "qr1" = Some q'
          ∧ contentHistory q'
            = drop 1 fullHistory ++ [archived hookFirstEnv textContent].
Proof.
  assert (Hst : stored (worldOf recordFull []) "qr1" recordFull)
    by (split; reflexivity).
  assert (Hlen : length (contentHistory recordFull) = 50%nat) by reflexivity.
  split.
  - pose proof (full_history_refuses_every_update sampleEnv
                  (updateOf "text" (Some "hello") None) (worldOf recordFull [])
                  recordFull Hst Hlen) as H.
    destruct (updateQRContent sampleEnv (updateOf "text" (Some "hello") None)
                (worldOf recordFull [])) as [w' r] eqn:E.
    destruct H as [H _]. destruct (H eq_refl) as (Hdb & e & -> & _).
    split; [exact Hdb|]. vm_compute in E. injection E as _ <-. reflexivity.
  - pose proof (full_history_refuses_every_update hookFirstEnv
                  (updateOf "text" (Some "hello") None) (worldOf recordFull [])
                  recordFull Hst Hlen) as H.
    eassert (E : updateQRContent hookFirstEnv (updateOf "text" (Some "hello") None)
                   (worldOf recordFull []) = (_, RJson 200 _))
      by (vm_compute; reflexivity).
    rewrite E in H. destruct H as [_ H].
    destruct (H eq_refl _ eq_refl) as (q' & Hq & Hh & _).
    exists q'. rewrite E. cbn [fst]. split; [exact Hq|exact Hh].
Defined.

(** C1 at work on a successful replacement of [B1] by [B2]. *)
Lemma blob_witness :
  let '(w', r) := updateQRContent sampleEnv (updateOf "file" None (Some uploadB2)) worldB1 in
  fs w' = (fs worldB1 ∖ {["/blobs/B1"]}) ∧ ("/blobs/B1" ∉ fs w')
  ∧ ((∀ body, r ≠ RJson 200 body) →
     db w' = db worldB1 ∧ stored w' "qr1" recordB1).
Proof.
  assert (Hst : stored worldB1 "qr1" recordB1) by (split; reflexivity).
  assert (Hin : "file" ∈ allowedTypes) by (apply (bool_decide_unpack _); vm_compute; exact I).
  assert (Hp : "/blobs/B1" ≠ "") by discriminate.
  exact (old_blob_deleted_before_commit sampleEnv
           (updateOf "file" None (Some uploadB2)) worldB1 recordB1 "file"
           "/blobs/B1" Hst eq_refl Hin eq_refl eq_refl Hp (mk_is_Some _ _ eq_refl)).
Defined.

(** C1 as the specification states it fails: the store refuses the
    write, the stored record still names [B1], and [B1] is gone. *)
Lemma old_blob_deleted_though_save_failed :
  let '(w', r) := updateQRContent refusingEnv (updateOf "file" None (Some uploadB2)) worldB1 in
  storeAccepts refusingEnv = false
  ∧ r = RFailed StoreErr
  ∧ ("/blobs/B1" ∈ fs worldB1)
  ∧ ("/blobs/B1" ∉ fs w')
  ∧ db w' !! "qr1" = Some recordB1
  ∧ filePath (currentContent recordB1) = Some "/blobs/B1".
Proof.
  assert (E : updateQRContent refusingEnv (updateOf "file" None (Some uploadB2)) worldB1
              = (set_fs (list_to_set ["/blobs/B2"]) worldB1, RFailed StoreErr))
    by (vm_compute; reflexivity).
  rewrite E.
  split; [reflexivity|]. split; [reflexivity|].
  split; [apply (bool_decide_unpack _); vm_compute; exact I|].
  split; [apply (bool_decide_unpack _); vm_compute; exact I|].
  split; reflexivity.
Qed.

(** C2 at work: a record locked with [abcd], scanned without a password. *)
Lemma password_witness :
  scanQR sampleEnv (scanOf QAbsent) (worldOf lockedLink [])
  = (worldOf lockedLink [], RHtml 200 "Parol Kerak" (PgPasswordForm "Menu" 7)).
Proof.
  assert (Hst : stored (worldOf lockedLink []) "qr1" lockedLink) by (split; reflexivity).
  assert (Hp : "abcd" ≠ "") by discriminate.
  assert (Hq : QAbsent ≠ QStr "abcd") by discriminate.
  exact (proj2 (password_gate_before_counting sampleEnv (scanOf QAbsent)
                  (worldOf lockedLink []) lockedLink "abcd" Hst eq_refl Hp Hq)
           eq_refl).
Defined.

(** C2 as the specification states it fails: the preview of a record
    locked with [abcd] shows its text to a request without a password. *)
Lemma preview_shows_locked_text_without_password :
  password (settings lockedText) = Some "abcd"
  ∧ previewQR "qr1" (worldOf lockedText [])
    = (worldOf lockedText [],
       RHtml 200 "Menu - Preview" (PgPreviewText "Menu" "secret text" 7))
  ∧ snd (previewQR "qr1" (worldOf lockedText []))
    ≠ RHtml 200 "Parol Kerak" (PgPasswordForm "Menu" 7).
Proof.
  split; [reflexivity|]. split; [vm_compute; reflexivity|].
  vm_compute. discriminate.
Qed.

(** C4 at work: two previews of a link record leave it with its seven
    scans, its scan date and its empty history. *)
Lemma preview_witness :
  let w := Nat.iter 2 (λ v, fst (previewQR "qr1" v)) (worldOf lockedLink []) in
  w = worldOf lockedLink []
  ∧ ∃ q, db w !! "qr1" = Some q
         ∧ ctype (currentContent q) = "link" ∧ scanCount q = 7
         ∧ lastScanned q = Some 1700000050000 ∧ contentHistory q = [].
Proof.
  destruct (preview_is_pure_read "qr1" (worldOf lockedLink []) 2) as (H1 & _ & H3).
  split; [exact H1|].
  exists lockedLink. split; [apply H3; reflexivity|]. repeat split.
Defined.

(** C5 at work: a text of exactly 5000 characters is accepted. *)
Lemma text_witness :
  let t := repeatChar "a" 5000 in
  let '(w', r) := updateQRContent sampleEnv (updateOf "text" (Some t) None)
                    (worldOf lockedText []) in
  (∃ body, r = RJson 200 body)
  ∧ ∃ q', db w' !! "qr1" = Some q' ∧ text (currentContent q') = Some t.
Proof.
  intros t.
  assert (Hst : stored (worldOf lockedText []) "qr1" lockedText) by (split; reflexivity).
  pose proof (text_update_accepted_iff sampleEnv (updateOf "text" (Some t) None)
                (worldOf lockedText []) lockedText Hst eq_refl) as H.
  cbv zeta in H.
  destruct (updateQRContent sampleEnv (updateOf "text" (Some t) None)
              (worldOf lockedText [])) as [w' r].
  destruct H as (_ & Hacc & Hstored).
  assert (Hok : (1 ≤ String.length (JS.trim (default "" (Some t))))%nat
                ∧ (String.length (default "" (Some t)) ≤ 5000)%nat)
    by (vm_compute; split; lia).
  assert (Hroom : (length (contentHistory lockedText) < 50)%nat) by (vm_compute; lia).
  assert (Hc : conforms lockedText) by (vm_compute; reflexivity).
  assert (Hd : (String.length (default "" (u_description (updateOf "text" (Some t) None)))
                ≤ 1000)%nat) by (cbn; lia).
  destruct (proj2 (Hacc eq_refl Hc Hroom Hd) Hok) as [body Hb].
  split; [eauto|].
  destruct (Hstored body Hb) as (q' & Hq & _ & Ht).
  exists q'. split; [exact Hq|]. rewrite Ht. vm_compute. reflexivity.
Defined.

(** C5 as the specification states it fails: a leading blank before
    5000 letters leaves 5000 characters after trimming, and is refused. *)
Lemma text_5000_after_trimming_refused :
  let t := String " " (repeatChar "a" 5000) in
  String.length (JS.trim t) = 5000%nat
  ∧ snd (updateQRContent sampleEnv (updateOf "text" (Some t) None)
           (worldOf lockedText []))
    = RFailed (AppErr 400 "Text 5000 belgidan oshmasligi kerak!").
Proof. vm_compute. split; reflexivity. Qed.

(** A text of 5001 characters is refused. *)
Lemma text_5001_refused :
  snd (updateQRContent sampleEnv (updateOf "text" (Some (repeatChar "a" (5000 + 1))) None)
         (worldOf lockedText []))
  = RFailed (AppErr 400 "Text 5000 belgidan oshmasligi kerak!").
Proof. vm_compute. reflexivity. Qed.

(** C7 at work: the PDF of the menu is streamed in place and the scan is
    counted. *)
Lemma file_scan_witness :
  let '(w', r) := scanQR sampleEnv (scanOf QAbsent) worldB1 in
  db w' !! "qr1" = Some (counted sampleEnv recordB1)
  ∧ scanCount (counted sampleEnv recordB1) = 8
  ∧ r = RStream "/blobs/B1" "application/pdf" 2048 "inline" (Some "menu.pdf").
Proof.
  assert (Hst : stored worldB1 "qr1" recordB1) by (split; reflexivity).
  pose proof (file_scan_streams_or_reports_missing_blob sampleEnv (scanOf QAbsent)
                worldB1 recordB1 "application/pdf" 2048 Hst eq_refl eq_refl eq_refl
                ltac:(vm_compute; reflexivity) eq_refl eq_refl eq_refl) as H.
  destruct (scanQR sampleEnv (scanOf QAbsent) worldB1) as [w' r].
  destruct H as [Hdb H].
  assert (E : blobPresent worldB1 (currentContent recordB1) = true)
    by (vm_compute; reflexivity).
  rewrite E in H. destruct H as (d & -> & Hin & _).
  split; [|split].
  - rewrite Hdb. apply lookup_insert_eq.
  - reflexivity.
  - f_equal. apply Hin. right. left. reflexivity.
Defined.

(** C9 at work: the short redirect of a link record ends in the error
    of the hook, with the world as it was. *)
Lemma quick_redirect_witness :
  quickRedirect sampleEnv (scanOf QAbsent) (worldOf lockedLink [])
  = (worldOf lockedLink [],
     RFailed (OtherErr "Cannot read properties of undefined (reading 'length')")).
Proof.
  assert (Hst : stored (worldOf lockedLink []) "qr1" lockedLink) by (split; reflexivity).
  assert (Hc : conforms lockedLink) by (vm_compute; reflexivity).
  destruct (quick_redirect_link_fails_before_counting sampleEnv (scanOf QAbsent)
              (worldOf lockedLink [])) as [Hw Hq].
  specialize (Hq lockedLink Hst eq_refl). cbn in Hq.
  destruct Hq as (e & He & _ & Hc'). rewrite (Hc' Hc) in He.
  destruct (quickRedirect sampleEnv (scanOf QAbsent) (worldOf lockedLink []))
    as [w' r]. cbn [fst snd] in Hw, He. rewrite Hw, He. reflexivity.
Defined.

(** C10 at work: two locked text records with different texts, passwords
    and scan dates get the same answer. *)
Lemma protected_info_witness :
  getQRScanInfo sampleEnv "qr1" (worldOf lockedText [])
  = (worldOf lockedText [],
     RJson 200
       [ ("success", JBool true);
         ("qr", JObj [ ("id", JStr "qr1"); ("title", JStr "Menu");
                       ("contentType", JStr "text"); ("scanCount", JNum 7);
                       ("createdDate", JDate 1700000000000);
                       ("isPasswordProtected", JBool true);
                       ("description", JStr "Bu QR code parol bilan himoyalangan") ]) ])
  ∧ snd (getQRScanInfo sampleEnv "qr1" (worldOf lockedOther []))
    = snd (getQRScanInfo sampleEnv "qr1" (worldOf lockedText [])).
Proof.
  assert (Hst : stored (worldOf lockedText []) "qr1" lockedText) by (split; reflexivity).
  assert (Hst2 : stored (worldOf lockedOther []) "qr1" lockedOther) by (split; reflexivity).
  destruct (protected_info_shows_no_content sampleEnv "qr1" (worldOf lockedText [])
              lockedText Hst eq_refl eq_refl) as [H1 H2].
  split; [exact H1|].
  exact (H2 sampleEnv (worldOf lockedOther []) lockedOther Hst2 eq_refl eq_refl
           eq_refl eq_refl eq_refl eq_refl).
Defined.

(** C10 as the specification states it fails: the answer has a seventh
    entry, [description], beside the six the claim lists. *)
Lemma protected_info_has_a_description_entry :
  ∃ fields,
    snd (getQRScanInfo sampleEnv "qr1" (worldOf lockedText []))
    = RJson 200 [ ("success", JBool true); ("qr", JObj fields) ]
    ∧ fields.*1 = [ "id"; "title"; "contentType"; "scanCount"; "createdDate";
                    "isPasswordProtected"; "description" ]
    ∧ ("description" ∉ [ "id"; "title"; "contentType"; "scanCount"; "createdDate";
                         "isPasswordProtected" ]).
Proof.
  eexists. split; [vm_compute; reflexivity|]. split; [reflexivity|].
  intros H. apply (bool_decide_pack _) in H. vm_compute in H. exact H.
Qed.

(** X1 at work: an empty text is refused and the record stays. *)
Lemma update_refused_witness :
  db (after (updateQRContent sampleEnv (updateOf "text" (Some "   ") None))
        (worldOf lockedLink []))
  = db (worldOf lockedLink []).
Proof.
  pose proof (update_refused_stores_nothing sampleEnv
                (updateOf "text" (Some "   ") None) (worldOf lockedLink [])) as H.
  unfold after.
  destruct (updateQRContent sampleEnv (updateOf "text" (Some "   ") None)
              (worldOf lockedLink [])) as [w' r] eqn:E.
  apply H. intros body ->. vm_compute in E. discriminate.
Defined.

(** X2 at work: the menu PDF is replaced by a text, and [B1] stays. *)
Lemma update_without_upload_witness :
  fs (after (updateQRContent sampleEnv (updateOf "text" (Some "hello") None)) worldB1)
  = fs worldB1.
Proof.
  exact (update_without_upload_keeps_files sampleEnv
           (updateOf "text" (Some "hello") None) worldB1 eq_refl).
Defined.

(** X26 at work: a description of 1001 characters keeps a text update
    from being stored, and the accepted one of X3 stores a record that
    satisfies the schema. *)
Lemma schema_witness :
  snd (updateQRContent sampleEnv longDescriptionUpdate (worldOf lockedLink []))
  = RFailed (SchemaValidationErr ["currentContent.description"])
  ∧ ∃ q', db (after (updateQRContent sampleEnv (updateOf "text" (Some " hello ") None))
                (worldOf lockedLink [])) !! "qr1" = Some q'
          ∧ conforms q'.
Proof.
  split; [vm_compute; reflexivity|].
  assert (Hst : stored (worldOf lockedLink []) "qr1" lockedLink) by (split; reflexivity).
  eassert (E : updateQRContent sampleEnv (updateOf "text" (Some " hello ") None)
                 (worldOf lockedLink []) = (_, RJson 200 _))
    by (vm_compute; reflexivity).
  destruct (accepted_update_satisfies_the_schema sampleEnv
              (updateOf "text" (Some " hello ") None) (worldOf lockedLink []) _
              lockedLink _ Hst E) as (q' & Hq & Hc & _).
  unfold after. rewrite E. cbn [fst]. exists q'. split; [exact Hq|exact Hc].
Defined.


(** X5 at work: a company alone is refused. *)
Lemma contact_witness :
  snd (updateQRContent sampleEnv companyOnlyUpdate (worldOf lockedText []))
  = RFailed (AppErr 400 "Kamida bitta contact ma'lumoti kerak!").
Proof.
  assert (Hst : stored (worldOf lockedText []) "qr1" lockedText) by (split; reflexivity).
  pose proof (contact_needs_name_phone_or_email sampleEnv companyOnlyUpdate
                (worldOf lockedText []) lockedText Hst eq_refl) as H.
  destruct (updateQRContent sampleEnv companyOnlyUpdate (worldOf lockedText []))
    as [w' r].
  destruct H as [H _]. apply H; reflexivity.
Defined.

(** X6 at work: the parts of an accepted address. *)
Lemma email_witness :
  ∃ a b c, "ann@mail.example.org" = a +:+ "@" +:+ b +:+ "." +:+ c
           ∧ plainStr a ∧ plainStr b ∧ plainStr c.
Proof.
  apply (proj1 (email_accepted_iff_local_at_domain_dot_tld
                  "ann@mail.example.org" (emptyWorld ∅))).
  reflexivity.
Defined.

(** X7 at work: the body of an accepted number. *)
Lemma phone_witness :
  ∃ body, ("+998 90 123-45-67" = body ∨ "+998 90 123-45-67" = "+" +:+ body)
          ∧ (7 ≤ String.length body ≤ 20)%nat
          ∧ Forall phoneCharP (chars body).
Proof.
  apply (proj1 (phone_accepted_iff_seven_to_twenty_phone_chars
                  "+998 90 123-45-67" (emptyWorld ∅))).
  reflexivity.
Defined.

(** X8 at work: a soft-deleted record is not scanned, with the right
    password either, and its image is still served. *)
Lemma inactive_witness :
  scanQR sampleEnv (scanOf (QStr "abcd")) inactiveWorld
  = (inactiveWorld, RHtml 404 "QR Topilmadi" (PgQRNotFound "qr1"))
  ∧ serveQRImage "qr1" inactiveWorld
    = (inactiveWorld, inr "/srv/app/uploads/qrcodes/dynamic_qr_qr1.png").
Proof.
  assert (Hn : notResolvable inactiveWorld (s_id (scanOf (QStr "abcd"))))
    by (vm_compute; reflexivity).
  destruct (inactive_records_are_not_resolved sampleEnv (scanOf (QStr "abcd"))
              inactiveWorld Hn) as (Hs & _ & _ & _ & Himg).
  split; [exact Hs|].
  apply (Himg (set_isActive false lockedLink)); [reflexivity|].
  apply (bool_decide_unpack _). vm_compute. exact I.
Defined.

(** X9 at work: the locked link record, deleted and restored, is the
    record it was, stamped with the time of the restore. *)
Lemma soft_delete_witness :
  db (after (restoreQR sampleEnv "qr1")
        (after (deleteQR sampleEnv softDeleteReq) (worldOf lockedLink [])))
     !! "qr1"
  = Some (touched sampleEnv lockedLink).
Proof.
  assert (Hst : stored (worldOf lockedLink []) (d_id softDeleteReq) lockedLink)
    by (split; reflexivity).
  assert (Hc : conforms lockedLink) by (vm_compute; reflexivity).
  destruct (soft_delete_then_restore_changes_only_updatedAt sampleEnv sampleEnv
              softDeleteReq (worldOf lockedLink []) lockedLink Hst eq_refl eq_refl
              eq_refl eq_refl Hc) as (_ & _ & _ & E & _).
  change (d_id softDeleteReq) with "qr1" in E. rewrite E.
  apply lookup_insert_eq.
Defined.

(** X10 at work: the record with the file [B1] is deleted for good; [B1]
    goes and the upload [B2] stays. *)
Lemma hard_delete_witness :
  let w' := after (deleteQR sampleEnv hardDeleteReq) worldB1 in
  ("/blobs/B1" ∉ fs w') ∧ "/blobs/B2" ∈ fs w' ∧ db w' !! "qr1" = None.
Proof.
  assert (Hst : stored worldB1 (d_id hardDeleteReq) recordB1) by (split; reflexivity).
  pose proof (hard_delete_removes_record_image_and_active_file sampleEnv
                hardDeleteReq worldB1 recordB1 Hst eq_refl) as H.
  cbv zeta. unfold after.
  destruct (deleteQR sampleEnv hardDeleteReq worldB1) as [w' r].
  destruct H as (Hfs & _ & Hkeep & Hdb). cbn [fst].
  split; [|split].
  - rewrite Hfs. apply (bool_decide_unpack _). vm_compute. exact I.
  - apply Hkeep; apply (bool_decide_unpack _); vm_compute; exact I.
  - cbn in Hdb. destruct Hdb as (-> & _ & _). reflexivity.
Defined.

(** X11 at work: three characters are too few. *)
Lemma short_password_witness :
  ∃ msg, updateQRSettings sampleEnv (passwordReq "abc") (worldOf lockedLink [])
         = (worldOf lockedLink [], RFailed (AppErr 400 msg)).
Proof.
  assert (Hst : stored (worldOf lockedLink []) (t_id (passwordReq "abc")) lockedLink)
    by (split; reflexivity).
  apply (short_password_is_refused sampleEnv (passwordReq "abc")
           (worldOf lockedLink []) lockedLink "abc" Hst eq_refl eq_refl).
  cbn. lia.
Defined.

(** X12 at work: the eighth scan of the locked link record, with its
    password. *)
Lemma scan_counted_witness :
  let w' := after (scanQR sampleEnv (scanOf (QStr "abcd"))) (worldOf lockedLink []) in
  db w' !! "qr1" = Some (counted sampleEnv lockedLink)
  ∧ scanCount (counted sampleEnv lockedLink) = 8
  ∧ ∃ a, analytics w' = [a] ∧ a_qr a = "qr1".
Proof.
  assert (Hst : stored (worldOf lockedLink []) (s_id (scanOf (QStr "abcd"))) lockedLink)
    by (split; reflexivity).
  assert (Hlen : conforms lockedLink) by (vm_compute; reflexivity).
  destruct (every_answered_scan_is_counted_once sampleEnv (scanOf (QStr "abcd"))
              (worldOf lockedLink []) lockedLink Hst eq_refl eq_refl eq_refl Hlen)
    as (Hdb & _ & Ha).
  cbv zeta. split; [|split].
  - rewrite Hdb. apply lookup_insert_eq.
  - reflexivity.
  - cbn in Ha. destruct Ha as (a & Ha & Hq & _). exists a. split; assumption.
Defined.

(** X13 at work: the open record [recordB1] gets the password [abcd];
    a scan without it gets the form. *)
Lemma password_set_witness :
  let w1 := after (updateQRSettings sampleEnv (passwordReq "abcd")) worldB1 in
  scanQR sampleEnv (scanOf QAbsent) w1
  = (w1, RHtml 200 "Parol Kerak" (PgPasswordForm "Menu" 7)).
Proof.
  assert (Hst : stored worldB1 (t_id (passwordReq "abcd")) recordB1)
    by (split; reflexivity).
  assert (Hlen : conforms recordB1) by (vm_compute; reflexivity).
  assert (Hp : (4 ≤ String.length "abcd")%nat) by (cbn; lia).
  destruct (password_set_then_gate sampleEnv (passwordReq "abcd") worldB1 recordB1
              "abcd" Hst eq_refl eq_refl Hp eq_refl eq_refl Hlen) as (_ & Hgate & _).
  apply (Hgate sampleEnv (scanOf QAbsent)); [reflexivity|discriminate].
Defined.

(** X14 at work: one id is deleted, the unknown one fails. *)
Lemma bulk_witness :
  ∃ w' res, bulkDeleteQRs sampleEnv bulkReq worldB1
            = (w', inr ("1 ta QR o'chirildi", res))
            ∧ (b_success res).*1 = ["qr1"] ∧ (b_failed res).*1 = ["nope"].
Proof.
  destruct (bulk_delete_sorts_every_id sampleEnv bulkReq worldB1)
    as (w' & res & E & _).
  eassert (E2 : bulkDeleteQRs sampleEnv bulkReq worldB1 = (_, inr (_, _)))
    by (vm_compute; reflexivity).
  rewrite E2 in E. injection E as <- _ <-.
  eexists _, _. split; [exact E2|]. split; reflexivity.
Defined.

(** X15 at work: a title of 201 characters. *)
Lemma bad_title_witness :
  createQR sampleEnv {| c_title := Some (repeatChar "x" 201); c_description := None |}
    (emptyWorld ∅)
  = (emptyWorld ∅, RFailed (AppErr 400 "QR title 200 belgidan oshmasligi kerak")).
Proof.
  apply (proj2 (create_refuses_bad_title sampleEnv
                  {| c_title := Some (repeatChar "x" 201); c_description := None |}
                  (emptyWorld ∅)) (repeatChar "x" 201) eq_refl).
  vm_compute. lia.
Defined.

(** X16 at work: the menu is created, the PDF [B2] uploaded, and the
    first scan streams it. *)
Lemma create_upload_scan_witness :
  snd (scanQR sampleEnv firstScan
         (after (updateQRContent sampleEnv fileUpdate)
            (after (createQR sampleEnv menuReq) (emptyWorld {["/blobs/B2"]}))))
  = RStream "/blobs/B2" "application/pdf" 4096 "inline" (Some "wine.pdf").
Proof.
  assert (Hlen : (String.length (default "" (c_title menuReq)) ≤ 200)%nat)
    by (cbn; lia).
  assert (Hin : f_path uploadB2 ∈ fs (emptyWorld {["/blobs/B2"]}))
    by (apply (bool_decide_unpack _); vm_compute; exact I).
  assert (Hne : f_path uploadB2 ≠ "") by discriminate.
  pose proof (create_upload_scan_streams_the_file sampleEnv sampleEnv sampleEnv
                menuReq fileUpdate firstScan (emptyWorld {["/blobs/B2"]})
                "17000000000004fzyo82mv" uploadB2
                eq_refl Hlen eq_refl eq_refl eq_refl eq_refl eq_refl eq_refl eq_refl
                ltac:(cbn; lia) Hne Hin eq_refl eq_refl eq_refl) as H.
  cbv zeta in H.
  destruct (scanQR sampleEnv firstScan _) as [w3 r].
  destruct H as [-> _]. reflexivity.
Defined.

(** X17 at work: an iPad that announces [Mobile]. *)
Lemma detect_device_witness :
  detectDevice "Mozilla/5.0 (iPad; CPU OS 16_0) Mobile/15E148" = "mobile".
Proof.
  apply (proj2 (proj2 (detect_device_prefers_mobile
                         "Mozilla/5.0 (iPad; CPU OS 16_0) Mobile/15E148")) "mobile").
  - apply (bool_decide_unpack _). vm_compute. exact I.
  - reflexivity.
Defined.

(** X18 at work: a PDF is filed under [pdfs] and shown in place. *)
Lemma destination_witness : isViewable "application/pdf" = true.
Proof.
  apply (proj1 (destination_folder_and_disposition_agree "application/pdf")).
  apply (bool_decide_unpack _). vm_compute. exact I.
Defined.

(** X19 at work: after five failures the right password comes too
    early. *)
Lemma locked_client_witness :
  ∃ msg, Auth.login (authEnv 1700000360000) (loginOf "admin" "s3cret!")
           (runLogins fiveFailures ∅)
         = (runLogins fiveFailures ∅, inl (AppErr 429 msg)).
Proof.
  assert (Hv : validLogin (loginOf "admin" "s3cret!") "admin" "s3cret!").
  { repeat split; try discriminate; cbn; lia. }
  apply (locked_client_is_refused_whatever_it_sends (authEnv 1700000360000)
           (loginOf "admin" "s3cret!") (runLogins fiveFailures ∅)
           "admin" "s3cret!" Hv).
  vm_compute. reflexivity.
Defined.

(** X20 at work: the user name is compared without regard to case. *)
Lemma login_witness :
  ∃ s, snd (Auth.login (authEnv 1700000000000) (loginOf " ADMIN " "s3cret!") ∅)
       = inr s.
Proof.
  assert (Hv : validLogin (loginOf " ADMIN " "s3cret!") " ADMIN " "s3cret!").
  { repeat split; try discriminate; cbn; lia. }
  assert (Hc : configured (authEnv 1700000000000) "Admin" "s3cret!").
  { repeat split; discriminate. }
  pose proof (login_succeeds_iff_credentials_match (authEnv 1700000000000)
                (loginOf " ADMIN " "s3cret!") ∅ " ADMIN " "s3cret!" "Admin" "s3cret!"
                Hv Hc eq_refl) as H.
  destruct (Auth.login (authEnv 1700000000000) (loginOf " ADMIN " "s3cret!") ∅)
    as [m' r].
  destruct H as [[_ H] _]. apply H. split; reflexivity.
Defined.

(** X21 at work: a sixth failure starts the count again. *)
Lemma attempts_bounded_witness :
  attemptsBounded
    (runLogins (fiveFailures ++ [(authEnv 1700009000000, loginOf "admin" "guess")]) ∅).
Proof.
  exact (proj1 (failed_attempts_never_exceed_five
                  (fiveFailures ++ [(authEnv 1700009000000, loginOf "admin" "guess")]))).
Defined.

(** X22 at work: sixteen minutes after the fifth failure the right
    password opens a session. *)
Lemma five_failures_witness :
  snd (Auth.login (authEnv 1700001260000) (loginOf "admin" "s3cret!")
         (runLogins fiveFailures ∅))
  = inr {| Auth.s_username := "admin"; Auth.s_loginTime := 1700001260000 |}.
Proof.
  assert (Hv : validLogin (loginOf "admin" "s3cret!") "admin" "s3cret!").
  { repeat split; try discriminate; cbn; lia. }
  assert (Hc : configured (authEnv 1700001260000) "Admin" "s3cret!").
  { repeat split; discriminate. }
  assert (Hf : Forall (failingLogin "10.0.0.9") fiveFailures).
  { repeat constructor;
      exists "admin", "guess", "Admin", "s3cret!";
      (split; [repeat split; try discriminate; cbn; lia|]);
      (split; [repeat split; discriminate|reflexivity]). }
  destruct (five_failures_lock_for_fifteen_minutes "10.0.0.9" fiveFailures ∅
              (authEnv 1700001260000) (loginOf "admin" "s3cret!")
              "admin" "s3cret!" "Admin" "s3cret!"
              (lookup_empty _) Hf eq_refl eq_refl Hv Hc eq_refl)
    as (env5 & Hlast & _ & H).
  vm_compute in Hlast. injection Hlast as <-.
  destruct (_ <? _)%Z eqn:Hb in H; [vm_compute in Hb; discriminate|].
  rewrite H. reflexivity.
Defined.

(** X23 at work: the configured password ends with a blank, and typing
    it as configured does not help. *)
Lemma padded_password_witness :
  snd (Auth.login paddedEnv (loginOf "admin" "s3cret! ") ∅)
  = inl (AppErr 401 "Noto'g'ri username yoki password").
Proof.
  assert (Hp : JS.trim "s3cret! " ≠ "s3cret! ") by discriminate.
  pose proof (padded_admin_password_locks_everyone_out paddedEnv
                (loginOf "admin" "s3cret! ") ∅ "s3cret! " eq_refl Hp) as H.
  destruct (snd (Auth.login paddedEnv (loginOf "admin" "s3cret! ") ∅))
    as [e|s] eqn:E.
  - vm_compute in E. injection E as <-. reflexivity.
  - exfalso. exact (H s eq_refl).
Defined.

(** X24 at work: a record with a full history goes through a password
    change, a refused content update, a soft delete, a restore and a
    scan: it keeps its fifty entries, has the password and one scan
    more. *)
Lemma admin_bound_witness :
  let w := adminRun [ AdminSettings sampleEnv (passwordReq "abcd");
                      Public (OpUpdate sampleEnv (updateOf "text" (Some "hello") None));
                      AdminDelete sampleEnv softDeleteReq;
                      AdminRestore sampleEnv "qr1";
                      Public (OpScan sampleEnv (scanOf (QStr "abcd"))) ]
             (worldOf recordFull []) in
  inv w
  ∧ ∃ q, db w !! "qr1" = Some q ∧ length (contentHistory q) = 50%nat
         ∧ password (settings q) = Some "abcd" ∧ scanCount q = 8
         ∧ isActive q = true.
Proof.
  assert (Hc : conforms recordFull) by (vm_compute; reflexivity).
  split.
  - apply (proj1 (history_bound_survives_admin_handlers _)).
    apply inv_worldOf, Hc.
  - eexists. split; [vm_compute; reflexivity|]. repeat split.
Defined.

(** X25 at work: the image of [qr1]. *)
Lemma image_witness :
  qrExists sampleEnv "qr1" (after (generateQRCode sampleEnv "qr1") (emptyWorld ∅)) = true.
Proof.
  exact (proj1 (proj2 (image_generate_exists_delete sampleEnv "qr1" (emptyWorld ∅)
                         eq_refl))).
Defined.
